(** * isaac-maths-demo: the Maclaurin table printer and the Lotka-Volterra
      derivative function

    The notebooks are Python.  Two functions are embedded here:

    - [print_maclaurin_table] with the term generator [exp_term]
      (Maclaurin series notebook);
    - [population_derivatives] (Lotka-Volterra notebook).

    Python floats and NumPy's float64 are IEEE binary64 with rounding to
    nearest even; they are modelled by the Standard Library's [spec_float]
    at precision 53.  A call of [print_maclaurin_table] is a computation in
    a small monad that threads the interpreter state seen by the callees,
    records the calls made and the lines printed, and ends normally or with
    a Python exception. *)

From Stdlib Require Import ZArith QArith Qabs Lia DecimalString.
From Stdlib Require Import Floats.SpecFloat.
From stdpp Require Import gmap strings list.

Open Scope Z_scope.

(* ===================================================================== *)
(** * Binary64 *)
(* ===================================================================== *)

Module F64.

Definition prec : Z := 53.
Definition emax : Z := 1024.

Definition float : Type := spec_float.

Definition add : float -> float -> float := SFadd prec emax.
Definition sub : float -> float -> float := SFsub prec emax.
Definition mul : float -> float -> float := SFmul prec emax.
Definition div : float -> float -> float := SFdiv prec emax.

(** The float nearest to an integer (ties to even), infinite when the
    integer is out of range. *)
Definition of_Z (n : Z) : float := binary_normalize prec emax n 0 false.

Definition zero : float := S754_zero false.
Definition one : float := of_Z 1.

Definition is_finite (f : float) : bool :=
  match f with
  | S754_zero _ | S754_finite _ _ _ => true
  | S754_infinity _ | S754_nan => false
  end.

(** [x == 0] in Python: true of both signed zeros. *)
Definition is_zero (f : float) : bool :=
  match f with
  | S754_zero _ => true
  | _ => false
  end.

(** Truncation toward zero of a finite float. *)
Definition trunc (f : float) : Z :=
  match f with
  | S754_finite s m e =>
      cond_Zopp s (if 0 <=? e then Z.pos m * 2 ^ e else Z.pos m / 2 ^ (- e))
  | _ => 0
  end.

(** The rational a finite float denotes. *)
Definition to_Q (f : float) : Q :=
  match f with
  | S754_finite s m e =>
      if 0 <=? e then inject_Z (cond_Zopp s (Z.pos m * 2 ^ e))
      else Qmake (cond_Zopp s (Z.pos m)) (Z.to_pos (2 ^ (- e)))
  | _ => 0%Q
  end.

(** The doubles nearest to e and to pi: [numpy.e], [numpy.pi]. *)
Definition e : float := S754_finite false 0x15BF0A8B145769 (-51).
Definition pi : float := S754_finite false 0x1921FB54442D18 (-51).
Definition max_float : float := S754_finite false (2 ^ 53 - 1) 971.

End F64.

Abbreviation float := F64.float.

(* ===================================================================== *)
(** * Python values and results *)
(* ===================================================================== *)

Inductive exn : Type :=
| TypeError
| ValueError
| OverflowError
| IndexError
| AttributeError
| Exception (msg : string).

Inductive result (A : Type) : Type :=
| Ok (a : A)
| Raise (e : exn).
Arguments Ok {A} a.
Arguments Raise {A} e.

#[export] Instance result_ret : MRet result := @Ok.

#[export] Instance result_bind : MBind result := fun A B k r =>
  match r with
  | Ok a => k a
  | Raise e => Raise e
  end.

Definition is_ok {A} (r : result A) : bool :=
  match r with
  | Ok _ => true
  | Raise _ => false
  end.

(** A number as the notebooks pass it: a Python int or a float. *)
Inductive pynum : Type :=
| PyInt (n : Z)
| PyFloat (f : float).

(** What [np.power] returns on scalars. *)
Inductive npnum : Type :=
| NpInt64 (n : Z)
| NpFloat64 (f : float).

(** [int(f)] *)
Definition py_int (f : float) : result Z :=
  match f with
  | S754_nan => Raise ValueError
  | S754_infinity _ => Raise OverflowError
  | _ => Ok (F64.trunc f)
  end.

(** [float(n)] of a Python int *)
Definition py_float (n : Z) : result float :=
  let f := F64.of_Z n in
  if F64.is_finite f then Ok f else Raise OverflowError.

(** [len(str(n))] of a Python int *)
Definition len_str (n : Z) : Z :=
  Z.of_nat (String.length (NilZero.string_of_int (Z.to_int n))).

(** [s.replace(old, "")]: one pass from the left, occurrences that do not
    overlap.  [skip] counts the characters of a match still to drop. *)
Fixpoint remove_from (old : string) (skip : nat) (s : string) : string :=
  match s with
  | EmptyString => EmptyString
  | String c s' =>
      match skip with
      | S k => remove_from old k s'
      | O =>
          if String.prefix old s
          then remove_from old (Nat.pred (String.length old)) s'
          else String c (remove_from old O s')
      end
  end.

Definition str_remove (s old : string) : string :=
  match old with
  | EmptyString => s
  | _ => remove_from old O s
  end.

(** Indexing of a sequence of length [len] by a Python int: negative
    indices count from the end. *)
Definition index (len i : Z) : result nat :=
  if (0 <=? i) && (i <? len) then Ok (Z.to_nat i)
  else if (- len <=? i) && (i <? 0) then Ok (Z.to_nat (len + i))
  else Raise IndexError.

(** [a[i]] *)
Definition getitem {A} (a : list A) (i : Z) : result A :=
  k ← index (Z.of_nat (length a)) i;
  match a !! k with
  | Some v => Ok v
  | None => Raise IndexError
  end.

(** [a[i] = v] *)
Definition setitem {A} (a : list A) (i : Z) (v : A) : result (list A) :=
  k ← index (Z.of_nat (length a)) i;
  Ok (<[k := v]> a).

(** [range(n)] *)
Definition range (n : Z) : list Z := seqZ 0 n.

(** [np.zeros(n)] *)
Definition np_zeros (n : Z) : result (list float) :=
  if n <? 0 then Raise ValueError
  else Ok (replicate (Z.to_nat n) F64.zero).

(** [np.cumsum(a)] of a one-dimensional float64 array: the first element
    is copied, every later one is the previous output plus the input. *)
Fixpoint accumulate (acc : float) (a : list float) : list float :=
  match a with
  | [] => []
  | t :: a' => let acc' := F64.add acc t in acc' :: accumulate acc' a'
  end.

Definition np_cumsum (a : list float) : list float :=
  match a with
  | [] => []
  | t :: a' => t :: accumulate t a'
  end.

(** [a - v], an array minus a scalar *)
Definition array_sub (a : list float) (v : float) : list float :=
  map (fun c => F64.sub c v) a.

(** [math.factorial(r)] *)
Fixpoint fact (n : nat) : Z :=
  match n with
  | O => 1
  | S k => Z.of_nat n * fact k
  end.

Definition factorial (r : Z) : result Z :=
  if r <? 0 then Raise ValueError else Ok (fact (Z.to_nat r)).

(* ===================================================================== *)
(** * Lotka-Volterra notebook *)
(* ===================================================================== *)

(** [population_derivatives(populations, t, beta)].  odeint calls it with
    a float64 vector and a float time; the literal [1] is converted to
    [1.0] by the subtraction. *)
Definition population_derivatives {T} (populations : list float) (t : T)
    (beta : float) : result (list float) :=
  y ← getitem populations 0;
  z ← getitem populations 1;
  let y_prime := F64.mul (F64.sub z beta) y in
  let z_prime := F64.mul (F64.sub F64.one y) z in
  Ok [y_prime; z_prime].

(* ===================================================================== *)
(** * Maclaurin notebook: the term generator *)
(* ===================================================================== *)

Definition wrap64 (n : Z) : Z := (n + 2 ^ 63) mod 2 ^ 64 - 2 ^ 63.

(** A Python int as the operand of one exact division: the mantissa is the
    whole number, with exponent 0. *)
Definition int_operand (n : Z) : float :=
  match n with
  | Z0 => S754_zero false
  | Zpos p => S754_finite false p 0
  | Zneg p => S754_finite true p 0
  end.

(** [n / d] of two Python ints: the exact quotient, rounded once to the
    nearest float; ZeroDivisionError for [d = 0], OverflowError when the
    quotient is too large for a float. *)
Definition int_true_divide (n d : Z) : result float :=
  if d =? 0 then Raise (Exception "ZeroDivisionError: division by zero")
  else
    let q := F64.div (int_operand n) (int_operand d) in
    if F64.is_finite q then Ok q else Raise OverflowError.

Section Terms.

(** [pow] of the C library, which [np.power] applies to float operands. *)
Variable libm_pow : float -> float -> float.

(** [np.power(x, r)] with [r] a Python int.  An int base (within the int64
    range) gives an int64, computed with wrap-around; a negative exponent
    is then refused. *)
Definition np_power (x : pynum) (r : Z) : result npnum :=
  match x with
  | PyInt n =>
      if r <? 0 then Raise ValueError else Ok (NpInt64 (wrap64 (n ^ r)))
  | PyFloat f => Ok (NpFloat64 (libm_pow f (F64.of_Z r)))
  end.

(** [p / d], a NumPy scalar by a Python int.  A float64 divides by
    [float(d)].  An int64 and a [d] that NumPy can hold in an int64 or a
    uint64 are both converted to float64 and then divided; a larger [d]
    stays a Python int, and the division is Python's of two ints. *)
Definition true_divide (p : npnum) (d : Z) : result float :=
  match p with
  | NpInt64 n =>
      if (- 2 ^ 63 <=? d) && (d <? 2 ^ 64) then
        d' ← py_float d;
        Ok (F64.div (F64.of_Z n) d')
      else int_true_divide n d
  | NpFloat64 f =>
      d' ← py_float d;
      Ok (F64.div f d')
  end.

(** [exp_term(r, x)] *)
Definition exp_term (r : Z) (x : pynum) : result float :=
  p ← np_power x r;
  d ← factorial r;
  true_divide p d.

End Terms.

(* ===================================================================== *)
(** * Maclaurin notebook: the table printer *)
(* ===================================================================== *)

(** A printed line, by the format string that produces it and the values
    formatted into it. *)
Inductive line (X : Type) : Type :=
| TooManyTerms
| UnknownFunction (function_name : string)
| TableRule (column_width : Z)
| Title (function_name : string) (x : X) (table_width : Z)
| TableHeading (column_heading : string) (column_width : Z)
| TableSeparator (column_width : Z)
| Row (term_number : Z) (term_value so_far error : float) (num_width : Z)
| RealRow (column_width : Z) (real_value : float) (num_width : Z)
| TableBase (column_width : Z).
Arguments TooManyTerms {X}.
Arguments UnknownFunction {X} function_name.
Arguments TableRule {X} column_width.
Arguments Title {X} function_name x table_width.
Arguments TableHeading {X} column_heading column_width.
Arguments TableSeparator {X} column_width.
Arguments Row {X} term_number term_value so_far error num_width.
Arguments RealRow {X} column_width real_value num_width.
Arguments TableBase {X} column_width.

(** What a call does that can be seen from outside: the calls of the
    reference function and of the term function, and the lines printed. *)
Inductive event (X : Type) : Type :=
| CallReal (function_name : string) (x : X)
| CallTerm (r : Z) (x : X)
| Print (l : line X).
Arguments CallReal {X} function_name x.
Arguments CallTerm {X} r x.
Arguments Print {X} l.

Section Interpreter.

(** [S] is the interpreter state the callees can read and write, [X] the
    type of the evaluation point. *)
Context {S X : Type}.

Record run (A : Type) : Type := Run {
  log : list (event X);
  final : S;
  value : result A
}.
Arguments Run {A} log final value.
Arguments log {A} r.
Arguments final {A} r.
Arguments value {A} r.

Definition M (A : Type) : Type := S -> run A.

#[export] Instance M_ret : MRet M := fun A a s => Run [] s (Ok a).

#[export] Instance M_bind : MBind M := fun A B k m s =>
  let r := m s in
  match value r with
  | Ok a => let r' := k a (final r) in
            Run (log r ++ log r') (final r') (value r')
  | Raise e => Run (log r) (final r) (Raise e)
  end.

Definition lift {A} (r : result A) : M A := fun s => Run [] s r.

Definition print (l : line X) : M unit := fun s => Run [Print l] s (Ok tt).

(** The body of a Python function: it may change the state, and returns
    or raises. *)
Definition callee (A : Type) : Type := S -> S * result A.

Definition call {A} (ev : event X) (c : callee A) : M A := fun s =>
  let '(s', v) := c s in Run [ev] s' v.

(** A function that neither reads nor writes the state. *)
Definition pure_callee {A} (v : result A) : callee A := fun s => (s, v).

(** A term function object: its [__name__] and its call [term(r=r, x=x)]. *)
Record pyfunction : Type := {
  __name__ : string;
  __call__ : Z -> X -> callee float
}.

(** An attribute of the [numpy] module: a function of one argument that
    returns a float64, or an attribute that cannot be called, such as the
    float constant [np.pi].  Functions that return an array, such as
    [np.ones], are not covered. *)
Inductive attribute : Type :=
| Function (f : X -> callee float)
| Constant (v : float).

Section Table.

(** The [numpy] module as imported, [np]. *)
Variable np : gmap string attribute.

Definition hasattr (name : string) : bool :=
  match np !! name with
  | Some _ => true
  | None => false
  end.

Definition getattr (name : string) : result attribute :=
  match np !! name with
  | Some a => Ok a
  | None => Raise AttributeError
  end.

(** [real_function(x)]: calling a float raises TypeError. *)
Definition call_real (function_name : string) (real_function : attribute)
    (x : X) : M float :=
  match real_function with
  | Function f => call (CallReal function_name x) (f x)
  | Constant _ => lift (Raise TypeError)
  end.

(** [for r in range(max_terms): terms[r] = term(r=r, x=x)] *)
Fixpoint fill_terms (term : pyfunction) (x : X) (rs : list Z)
    (terms : list float) : M (list float) :=
  match rs with
  | [] => mret terms
  | r :: rs' =>
      v ← call (CallTerm r x) (__call__ term r x);
      terms' ← lift (setitem terms r v);
      fill_terms term x rs' terms'
  end.

(** The values of one table: [real_value], [terms], [result_to_r] and
    [differences]. *)
Definition series : Type := float * list float * list float * list float.

(** Lines 71 to 83 of the cell: the reference value, the terms, their
    cumulative sums and the differences. *)
Definition series_values (function_name : string) (term : pyfunction)
    (x : X) (max_terms : Z) : M series :=
  real_function ← lift (getattr function_name);
  real_value ← call_real function_name real_function x;
  terms ← lift (np_zeros max_terms);
  terms ← fill_terms term x (range max_terms) terms;
  let result_to_r := np_cumsum terms in
  let differences := array_sub result_to_r real_value in
  mret (real_value, terms, result_to_r, differences).

(** [len(table_separator)] *)
Definition table_width (column_width : Z) : Z :=
  1 + 6 + (1 + column_width) * 3 + 1.

(** The loop that prints the rows. *)
Fixpoint print_rows (rs : list Z) (terms result_to_r differences : list float)
    (num_width : Z) : M unit :=
  match rs with
  | [] => mret tt
  | r :: rs' =>
      let term_number := r + 1 in
      t ← lift (getitem terms r);
      c ← lift (getitem result_to_r r);
      d ← lift (getitem differences r);
      print (Row term_number t c d num_width);;
      print_rows rs' terms result_to_r differences num_width
  end.

(** Lines 90 to 119 of the cell: "everything below here in this function
    is just to print the table". *)
Definition print_table (function_name : string) (x : X) (max_terms : Z)
    (sv : series) : M unit :=
  let '(real_value, terms, result_to_r, differences) := sv in
  w_real ← lift (py_int real_value);
  last ← lift (getitem result_to_r (-1));
  w_last ← lift (py_int last);
  let widest_num_width := Z.max (len_str w_real) (len_str w_last) in
  let column_width := 16 + widest_num_width in
  let num_width := column_width - 2 in
  let column_heading := (function_name +:+ "(x) so far")%string in
  print (TableRule column_width);;
  print (Title function_name x (table_width column_width));;
  print (TableRule column_width);;
  print (TableHeading column_heading column_width);;
  print (TableSeparator column_width);;
  print_rows (range max_terms) terms result_to_r differences num_width;;
  print (TableSeparator column_width);;
  print (RealRow column_width real_value num_width);;
  print (TableBase column_width).

(** [term.__name__.replace("_term", "")] *)
Definition function_name_of (term : pyfunction) : string :=
  str_remove (__name__ term) "_term".

(** [print_maclaurin_table(term=term, x=x, max_terms=max_terms)] *)
Definition print_maclaurin_table (term : pyfunction) (x : X) (max_terms : Z)
    : M unit :=
  if 100 <=? max_terms then
    print TooManyTerms
  else
    let function_name := function_name_of term in
    if negb (hasattr function_name) then
      print (UnknownFunction function_name)
    else
      sv ← series_values function_name term x max_terms;
      print_table function_name x max_terms sv.

End Table.
End Interpreter.

Arguments run S X A : clear implicits.
Arguments Run {S X A} log final value.
Arguments log {S X A} r.
Arguments final {S X A} r.
Arguments value {S X A} r.
Arguments M S X A : clear implicits.
Arguments callee S A : clear implicits.
Arguments pyfunction S X : clear implicits.
Arguments attribute S X : clear implicits.

(* ===================================================================== *)
(** * A sample environment for the closed examples *)
(* ===================================================================== *)

Module Sample.

(** A stand-in for libm's [pow] on non-negative integral exponents:
    repeated multiplication.  The examples evaluate at the int [1], where
    [np.power] stays within the integers and [pow] is not called. *)
Definition pow (x y : float) : float :=
  Nat.iter (Z.to_nat (F64.trunc y)) (F64.mul x) F64.one.

(** [np.exp] at the arguments the examples use: [exp(0) = 1] and [exp(1)]
    is the double nearest to e.  libm's [exp] is not modelled; any other
    argument raises. *)
Definition np_exp (x : pynum) : result float :=
  match x with
  | PyInt 0 | PyFloat (S754_zero _) => Ok F64.one
  | PyInt 1 => Ok F64.e
  | _ => Raise (Exception "np.exp: argument outside the table")
  end.

(** The value [exp_term] returns at the int [1]: 1 / r!. *)
Definition exp_at_1 (r : Z) : float :=
  match exp_term pow r (PyInt 1) with
  | Ok v => v
  | Raise _ => F64.zero
  end.

(** [np.sqrt], correctly rounded as IEEE 754 requires. *)
Definition np_sqrt (x : pynum) : result float :=
  match x with
  | PyInt n => Ok (SFsqrt F64.prec F64.emax (F64.of_Z n))
  | PyFloat f => Ok (SFsqrt F64.prec F64.emax f)
  end.

Section WithState.

Context {S : Type}.

(** A fragment of the numpy namespace. *)
Definition np : gmap string (attribute S pynum) :=
  {[ "exp" := Function (fun x => pure_callee (np_exp x));
     "sqrt" := Function (fun x => pure_callee (np_sqrt x));
     "pi" := Constant F64.pi;
     "e" := Constant F64.e ]}.

(** The notebook's [exp_term] as a function object. *)
Definition exp_term_fn : pyfunction S pynum :=
  {| __name__ := "exp_term";
     __call__ := fun r x => pure_callee (exp_term pow r x) |}.

(** [def pi_term(r, x): return 0.0] *)
Definition pi_term_fn : pyfunction S pynum :=
  {| __name__ := "pi_term";
     __call__ := fun r x => pure_callee (Ok F64.zero) |}.

(** [def sqrt_term(r, x): return 0.0] *)
Definition sqrt_term_fn : pyfunction S pynum :=
  {| __name__ := "sqrt_term";
     __call__ := fun r x => pure_callee (Ok F64.zero) |}.

(** [def tanh_term(r, x): return 0.0]; the fragment has no [tanh]. *)
Definition tanh_term_fn : pyfunction S pynum :=
  {| __name__ := "tanh_term";
     __call__ := fun r x => pure_callee (Ok F64.zero) |}.

End WithState.

End Sample.

(* ===================================================================== *)
(** * Reading a run, and what the table should be *)
(* ===================================================================== *)

Section Observations.

Context {X : Type}.

(** The rows printed, in order. *)
Definition printed_rows (l : list (event X)) : list (line X) :=
  omap (fun ev => match ev with
                  | Print (Row k t c d w) => Some (Row k t c d w)
                  | _ => None
                  end) l.

(** The indices the term function was called at, in order. *)
Definition term_calls (l : list (event X)) : list Z :=
  omap (fun ev => match ev with CallTerm r _ => Some r | _ => None end) l.

(** The calls of the reference function, in order. *)
Definition real_calls (l : list (event X)) : list (string * X) :=
  omap (fun ev => match ev with
                  | CallReal name x => Some (name, x)
                  | _ => None
                  end) l.

(** The lines printed, in order. *)
Definition printed (l : list (event X)) : list (line X) :=
  omap (fun ev => match ev with Print ln => Some ln | _ => None end) l.

(** The term values shown in a list of lines, row by row. *)
Definition row_terms (lines : list (line X)) : list float :=
  omap (fun ln => match ln with Row _ t _ _ _ => Some t | _ => None end) lines.

(** The prefix-sum law in the words of the specification:
    cumulative[0] = term[0], cumulative[i] = cumulative[i-1] + term[i]. *)
Fixpoint prefix_sum (terms : list float) (i : nat) : option float :=
  match i with
  | O => terms !! O
  | Datatypes.S j =>
      c ← prefix_sum terms j;
      t ← terms !! i;
      Some (F64.add c t)
  end.

(** The rows of a table, numbered from [k]. *)
Fixpoint table_rows (k : Z) (terms result_to_r differences : list float)
    (num_width : Z) : list (line X) :=
  match terms, result_to_r, differences with
  | t :: ts, c :: cs, d :: ds =>
      Row k t c d num_width :: table_rows (k + 1) ts cs ds num_width
  | _, _, _ => []
  end.

(** The lines of a whole table, or the exception its width computation
    raises. *)
Definition table_lines (function_name : string) (x : X)
    (sv : float * list float * list float * list float)
    : result (list (line X)) :=
  let '(real_value, terms, result_to_r, differences) := sv in
  w_real ← py_int real_value;
  last ← getitem result_to_r (-1);
  w_last ← py_int last;
  let column_width := 16 + Z.max (len_str w_real) (len_str w_last) in
  let num_width := column_width - 2 in
  Ok ([TableRule column_width;
       Title function_name x (table_width column_width);
       TableRule column_width;
       TableHeading (function_name +:+ "(x) so far")%string column_width;
       TableSeparator column_width]
      ++ table_rows 1 terms result_to_r differences num_width
      ++ [TableSeparator column_width;
          RealRow column_width real_value num_width;
          TableBase column_width]).

End Observations.

Section Purity.

Context {S X : Type}.

(** A callee that leaves the state alone and whose result does not depend
    on it. *)
Definition pure {A} (c : callee S A) : Prop :=
  exists v, forall s, c s = (s, v).

(** A computation that leaves the state alone and whose log and value do
    not depend on it. *)
Definition stateless {A} (m : M S X A) : Prop :=
  forall s s', m s' = Run (log (m s)) s' (value (m s)).

End Purity.

(** The notebook's [exp_term] as a function object, over any [pow]. *)
Definition exp_term_obj {S} (libm_pow : float -> float -> float)
    : pyfunction S pynum :=
  {| __name__ := "exp_term";
     __call__ := fun r x => pure_callee (exp_term libm_pow r x) |}.

(** The first six terms at the int [1]: 1, 1, 1/2, 1/6, 1/24, 1/120. *)
Definition exp_terms_6 : list float :=
  [S754_finite false 4503599627370496 (-52);
   S754_finite false 4503599627370496 (-52);
   S754_finite false 4503599627370496 (-53);
   S754_finite false 6004799503160661 (-55);
   S754_finite false 6004799503160661 (-57);
   S754_finite false 4803839602528529 (-59)].

Arguments F64.add : simpl never.
Arguments F64.sub : simpl never.
Arguments F64.mul : simpl never.
Arguments F64.div : simpl never.
Arguments F64.of_Z : simpl never.
Arguments len_str : simpl never.
Arguments str_remove : simpl never.
Arguments table_lines : simpl never.
Arguments print_table : simpl never.
Arguments series_values : simpl never.
Arguments print_maclaurin_table : simpl never.

(* ===================================================================== *)
(** * Maclaurin notebook: the other term generators *)
(* ===================================================================== *)

(** [a * b] of two NumPy scalars: int64 with wrap-around, float64 as soon
    as one operand is a float. *)
Definition np_multiply (a b : npnum) : npnum :=
  match a, b with
  | NpInt64 m, NpInt64 n => NpInt64 (wrap64 (m * n))
  | NpInt64 m, NpFloat64 g => NpFloat64 (F64.mul (F64.of_Z m) g)
  | NpFloat64 f, NpInt64 n => NpFloat64 (F64.mul f (F64.of_Z n))
  | NpFloat64 f, NpFloat64 g => NpFloat64 (F64.mul f g)
  end.

Section More_terms.

Variable libm_pow : float -> float -> float.

(** [sin_term(r, x)] *)
Definition sin_term (r : Z) (x : pynum) : result float :=
  s ← np_power libm_pow (PyInt (-1)) r;
  p ← np_power libm_pow x (2 * r + 1);
  d ← factorial (2 * r + 1);
  true_divide (np_multiply s p) d.

(** [cos_term(r, x)] *)
Definition cos_term (r : Z) (x : pynum) : result float :=
  s ← np_power libm_pow (PyInt (-1)) r;
  p ← np_power libm_pow x (2 * r);
  d ← factorial (2 * r);
  true_divide (np_multiply s p) d.

(** [cosh_term(r, x)] *)
Definition cosh_term (r : Z) (x : pynum) : result float :=
  p ← np_power libm_pow x (2 * r);
  d ← factorial (2 * r);
  true_divide p d.

(** [sinh_term(r, x)] *)
Definition sinh_term (r : Z) (x : pynum) : result float :=
  p ← np_power libm_pow x (2 * r + 1);
  d ← factorial (2 * r + 1);
  true_divide p d.

End More_terms.

(** The notebook's [sin_term] as a function object. *)
Definition sin_term_obj {S} (libm_pow : float -> float -> float)
    : pyfunction S pynum :=
  {| __name__ := "sin_term";
     __call__ := fun r x => pure_callee (sin_term libm_pow r x) |}.

(** Whether [old] occurs in [s]. *)
Fixpoint occurs (old s : string) : bool :=
  String.prefix old s ||
  match s with
  | EmptyString => false
  | String _ s' => occurs old s'
  end.

(** The character of code 95, the underscore. *)
Definition underscore : Ascii.ascii := Ascii.ascii_of_nat 95.

(** Whether the character [c] occurs in [s]. *)
Fixpoint has_char (c : Ascii.ascii) (s : string) : bool :=
  match s with
  | EmptyString => false
  | String c' s' => Ascii.eqb c c' || has_char c s'
  end.

(* ===================================================================== *)
(** * Log horn notebook *)
(* ===================================================================== *)

(** ** Python arithmetic on ints and floats *)

(** An int against a float, compared exactly as Python does. *)
Definition Z_compare_float (n : Z) (f : float) : option comparison :=
  match f with
  | S754_nan => None
  | S754_infinity s => Some (if s then Gt else Lt)
  | S754_zero _ => Some (n ?= 0)
  | S754_finite s m e =>
      if 0 <=? e then Some (n ?= cond_Zopp s (Z.pos m * 2 ^ e))
      else Some (n * 2 ^ (- e) ?= cond_Zopp s (Z.pos m))
  end.

(** [a > b] *)
Definition py_gt (a b : pynum) : bool :=
  match a, b with
  | PyInt m, PyInt n => n <? m
  | PyFloat f, PyFloat g => SFltb g f
  | PyInt m, PyFloat g =>
      match Z_compare_float m g with Some Gt => true | _ => false end
  | PyFloat f, PyInt n =>
      match Z_compare_float n f with Some Lt => true | _ => false end
  end.

(** [a - b]: an int meeting a float is converted first. *)
Definition py_sub (a b : pynum) : result pynum :=
  match a, b with
  | PyInt m, PyInt n => Ok (PyInt (m - n))
  | PyInt m, PyFloat g => f ← py_float m; Ok (PyFloat (F64.sub f g))
  | PyFloat f, PyInt n => g ← py_float n; Ok (PyFloat (F64.sub f g))
  | PyFloat f, PyFloat g => Ok (PyFloat (F64.sub f g))
  end.

(** [a * b] *)
Definition py_mul (a b : pynum) : result pynum :=
  match a, b with
  | PyInt m, PyInt n => Ok (PyInt (m * n))
  | PyInt m, PyFloat g => f ← py_float m; Ok (PyFloat (F64.mul f g))
  | PyFloat f, PyInt n => g ← py_float n; Ok (PyFloat (F64.mul f g))
  | PyFloat f, PyFloat g => Ok (PyFloat (F64.mul f g))
  end.

(** [int(a)] *)
Definition py_int_of (a : pynum) : result Z :=
  match a with
  | PyInt n => Ok n
  | PyFloat f => py_int f
  end.

(** [isinstance(a, int)] *)
Definition isinstance_int (a : pynum) : bool :=
  match a with
  | PyInt _ => true
  | PyFloat _ => false
  end.

(** ** What a call of [draw_log_horn] does *)

Definition grid : Type := list (list float).

Inductive axis : Type := Xaxis | Yaxis | Zaxis.

(** The three error lines. *)
Inductive horn_line : Type :=
| AlphaError
| ThetaError
| DivisionsError.

(** The calls into matplotlib, in the words of the source. *)
Inductive mpl_call : Type :=
| Figure
| Gca
| ViewInit
| SetPaneColor (a : axis)
| AxinfoUpdate (a : axis)
| PlotSurface (x y z : grid)
| SetLim (a : axis) (low high : float)
| TightLayout
| Show.

Inductive horn_event : Type :=
| HornPrint (ln : horn_line)
| Linspace (start stop : pynum) (num : Z)
| Mpl (c : mpl_call).

(** A log of events and a result. *)
Definition W (A : Type) : Type := list horn_event * result A.

#[export] Instance W_ret : MRet W := fun A a => ([], Ok a).

#[export] Instance W_bind : MBind W := fun A B k m =>
  match m with
  | (l, Ok a) => let r := k a in (l ++ r.1, r.2)
  | (l, Raise e) => (l, Raise e)
  end.

Definition wlift {A} (r : result A) : W A := ([], r).

Definition horn_print (ln : horn_line) : W unit := ([HornPrint ln], Ok tt).

(** [np.meshgrid(alpha_array, theta_array)]: one row per theta, one column
    per alpha. *)
Definition np_meshgrid (alpha_array theta_array : list float) : grid * grid :=
  (replicate (length theta_array) alpha_array,
   map (fun th => replicate (length alpha_array) th) theta_array).

Definition grid_map (f : float -> float) (g : grid) : grid := map (map f) g.

(** An operator applied element by element to two arrays of one shape. *)
Definition grid_map2 (f : float -> float -> float) (g h : grid) : grid :=
  zip_with (zip_with f) g h.

Definition flatten (g : grid) : list float := concat g.

Section Horn.

(** NumPy and matplotlib, as the function sees them: [np.linspace],
    [np.exp], [np.cos], [np.sin], the reductions [a.max()] and [a.min()],
    and whether each matplotlib call returns. *)
Variable np_linspace : pynum -> pynum -> Z -> result (list float).
Variables np_exp np_cos np_sin : float -> float.
Variables np_amax np_amin : list float -> result float.
Variable matplotlib : mpl_call -> result unit.

Definition linspace (start stop : pynum) (num : Z) : W (list float) :=
  ([Linspace start stop num], np_linspace start stop num).

Definition mpl (c : mpl_call) : W unit := ([Mpl c], matplotlib c).

(** [(a.max() + a.min()) / 2] *)
Definition mid (a : grid) : W float :=
  hi ← wlift (np_amax (flatten a));
  lo ← wlift (np_amin (flatten a));
  mret (F64.div (F64.add hi lo) (F64.of_Z 2)).

(** [a.max() - a.min()] *)
Definition extent (a : grid) : W float :=
  hi ← wlift (np_amax (flatten a));
  lo ← wlift (np_amin (flatten a));
  mret (F64.sub hi lo).

(** The sampled surface, "work out the values of r and w at each point"
    and "convert from angular coordinates to linear coordinates": the
    grids [x], [y] and [z]. *)
Definition horn_surface (b w_0 : float) (alpha_array theta_array : list float)
    : grid * grid * grid :=
  let '(alpha_grid, theta_grid) := np_meshgrid alpha_array theta_array in
  let r_0 := F64.of_Z 1 in
  let r := grid_map (fun th => F64.mul r_0 (np_exp (F64.mul b th)))
                    theta_grid in
  let w := grid_map (fun th => F64.mul w_0 (np_exp (F64.mul b th)))
                    theta_grid in
  let rw := grid_map2 F64.add r
              (grid_map2 F64.mul w (grid_map np_cos alpha_grid)) in
  let x := grid_map2 F64.mul rw (grid_map np_cos theta_grid) in
  let y := grid_map2 F64.mul rw (grid_map np_sin theta_grid) in
  let z := grid_map2 F64.mul w (grid_map np_sin alpha_grid) in
  (x, y, z).

(** The plot: "configure matplotlib plot", "add the log horn surface",
    "force the aspect ratio equal for all axes" and "display the
    result". *)
Definition horn_plot (x y z : grid) : W unit :=
  mpl Figure;;
  mpl Gca;;
  mpl ViewInit;;
  mpl (SetPaneColor Xaxis);;
  mpl (SetPaneColor Yaxis);;
  mpl (SetPaneColor Zaxis);;
  mpl (AxinfoUpdate Xaxis);;
  mpl (AxinfoUpdate Yaxis);;
  mpl (AxinfoUpdate Zaxis);;
  mpl (PlotSurface x y z);;
  dx ← extent x;
  dy ← extent y;
  dz ← extent z;
  widest ← wlift (np_amax [dx; dy; dz]);
  let max_range := F64.div widest (F64.of_Z 2) in
  mid_x ← mid x;
  mid_y ← mid y;
  mid_z ← mid z;
  mpl (SetLim Xaxis (F64.sub mid_x max_range) (F64.add mid_x max_range));;
  mpl (SetLim Yaxis (F64.sub mid_y max_range) (F64.add mid_y max_range));;
  mpl (SetLim Zaxis (F64.sub mid_z max_range) (F64.add mid_z max_range));;
  mpl TightLayout;;
  mpl Show.

(** [int(range * divisions_per_radian)] for [range = high - low] *)
Definition sample_count (low high divisions_per_radian : pynum) : result Z :=
  range ← py_sub high low;
  scaled ← py_mul range divisions_per_radian;
  py_int_of scaled.

(** [draw_log_horn(b=b, w_0=w_0, alpha_min=..., alpha_max=...,
    theta_min=..., theta_max=..., divisions_per_radian=...)], with [b] and
    [w_0] floats. *)
Definition draw_log_horn (b w_0 : float)
    (alpha_min alpha_max theta_min theta_max divisions_per_radian : pynum)
    : W unit :=
  if py_gt alpha_min alpha_max then
    horn_print AlphaError
  else if py_gt theta_min theta_max then
    horn_print ThetaError
  else if negb (py_gt divisions_per_radian (PyInt 0)
                && isinstance_int divisions_per_radian) then
    horn_print DivisionsError
  else
    alpha_count ← wlift (sample_count alpha_min alpha_max
                                      divisions_per_radian);
    alpha_array ← linspace alpha_min alpha_max alpha_count;
    theta_count ← wlift (sample_count theta_min theta_max
                                      divisions_per_radian);
    theta_array ← linspace theta_min theta_max theta_count;
    let '(x, y, z) := horn_surface b w_0 alpha_array theta_array in
    horn_plot x y z.

End Horn.

(** ** Reading a horn log *)

Definition horn_printed (l : list horn_event) : list horn_line :=
  omap (fun ev => match ev with HornPrint ln => Some ln | _ => None end) l.

(** The sample counts asked of [np.linspace], in order. *)
Definition linspace_counts (l : list horn_event) : list Z :=
  omap (fun ev => match ev with Linspace _ _ n => Some n | _ => None end) l.

Definition mpl_calls (l : list horn_event) : list mpl_call :=
  omap (fun ev => match ev with Mpl c => Some c | _ => None end) l.

(** The surfaces handed to [plot_surface]. *)
Definition surfaces (l : list horn_event) : list (grid * grid * grid) :=
  omap (fun ev => match ev with
                  | Mpl (PlotSurface x y z) => Some (x, y, z)
                  | _ => None
                  end) l.

(** An array of [rows] rows and [cols] columns. *)
Definition has_shape (rows cols : nat) (g : grid) : Prop :=
  length g = rows /\ Forall (fun row => length row = cols) g.

(* ===================================================================== *)
(** * Maclaurin notebook: the arrays of a call in the store *)
(* ===================================================================== *)

(** The same function with its NumPy arrays kept where Python keeps them:
    in the interpreter's store, by address.  [np.zeros], [np.cumsum] and
    the subtraction each return a new array; [terms[r] = ...] writes into
    the array at the address [terms]. *)

Record store (S : Type) : Type := Store {
  arrays : list (list float);
  world : S
}.
Arguments Store {S} arrays world.
Arguments arrays {S} s.
Arguments world {S} s.

Section Stored.

Context {S X : Type}.

(** The [numpy] module as imported, [np]. *)
Variable np : gmap string (attribute S X).

(** A callee runs on the world: it is handed no array of the caller. *)
Definition on_world {A} (c : callee S A) : callee (store S) A :=
  fun st => let '(s', v) := c (world st) in (Store (arrays st) s', v).

(** A new array, at the next free address. *)
Definition new_array (a : result (list float)) : M (store S) X nat :=
  fun st =>
    match a with
    | Ok l => Run [] (Store (arrays st ++ [l]) (world st))
                  (Ok (length (arrays st)))
    | Raise e => Run [] st (Raise e)
    end.

(** The array at an address. *)
Definition array_at (p : nat) : M (store S) X (list float) :=
  fun st => Run [] st (Ok (default [] (arrays st !! p))).

(** [a[i] = v], in place *)
Definition store_item (p : nat) (i : Z) (v : float)
    : M (store S) X unit :=
  fun st =>
    match setitem (default [] (arrays st !! p)) i v with
    | Ok l => Run [] (Store (<[p := l]> (arrays st)) (world st)) (Ok tt)
    | Raise e => Run [] st (Raise e)
    end.

(** [a[i]] *)
Definition load_item (p : nat) (i : Z) : M (store S) X float :=
  fun st => Run [] st (getitem (default [] (arrays st !! p)) i).

Definition call_real_at (function_name : string)
    (real_function : attribute S X) (x : X)
    : M (store S) X float :=
  match real_function with
  | Function f => call (CallReal function_name x) (on_world (f x))
  | Constant _ => lift (Raise TypeError)
  end.

(** [for r in range(max_terms): terms[r] = term(r=r, x=x)] *)
Fixpoint fill_terms_at (term : pyfunction S X) (x : X)
    (rs : list Z) (terms : nat) : M (store S) X unit :=
  match rs with
  | [] => mret tt
  | r :: rs' =>
      v ← call (CallTerm r x) (on_world (__call__ term r x));
      store_item terms r v;;
      fill_terms_at term x rs' terms
  end.

(** [real_value] and the addresses of [terms], [result_to_r] and
    [differences]. *)
Definition series_at : Type := float * nat * nat * nat.

Definition series_values_at (function_name : string)
    (term : pyfunction S X) (x : X) (max_terms : Z)
    : M (store S) X series_at :=
  real_function ← lift (getattr np function_name);
  real_value ← call_real_at function_name real_function x;
  terms ← new_array (np_zeros max_terms);
  fill_terms_at term x (range max_terms) terms;;
  filled ← array_at terms;
  result_to_r ← new_array (Ok (np_cumsum filled));
  sums ← array_at result_to_r;
  differences ← new_array (Ok (array_sub sums real_value));
  mret (real_value, terms, result_to_r, differences).

Fixpoint print_rows_at (rs : list Z) (terms result_to_r differences : nat)
    (num_width : Z) : M (store S) X unit :=
  match rs with
  | [] => mret tt
  | r :: rs' =>
      let term_number := r + 1 in
      t ← load_item terms r;
      c ← load_item result_to_r r;
      d ← load_item differences r;
      print (Row term_number t c d num_width);;
      print_rows_at rs' terms result_to_r differences num_width
  end.

Definition print_table_at (function_name : string) (x : X) (max_terms : Z)
    (sv : series_at) : M (store S) X unit :=
  let '(real_value, terms, result_to_r, differences) := sv in
  w_real ← lift (py_int real_value);
  last ← load_item result_to_r (-1);
  w_last ← lift (py_int last);
  let widest_num_width := Z.max (len_str w_real) (len_str w_last) in
  let column_width := 16 + widest_num_width in
  let num_width := column_width - 2 in
  let column_heading := (function_name +:+ "(x) so far")%string in
  print (TableRule column_width);;
  print (Title function_name x (table_width column_width));;
  print (TableRule column_width);;
  print (TableHeading column_heading column_width);;
  print (TableSeparator column_width);;
  print_rows_at (range max_terms) terms result_to_r differences num_width;;
  print (TableSeparator column_width);;
  print (RealRow column_width real_value num_width);;
  print (TableBase column_width).

(** [print_maclaurin_table(term=term, x=x, max_terms=max_terms)], run on a
    store. *)
Definition print_maclaurin_table_at (term : pyfunction S X)
    (x : X) (max_terms : Z) : M (store S) X unit :=
  if 100 <=? max_terms then
    print TooManyTerms
  else
    let function_name := function_name_of term in
    if negb (hasattr np function_name) then
      print (UnknownFunction function_name)
    else
      sv ← series_values_at function_name term x max_terms;
      print_table_at function_name x max_terms sv.

(** The run [r] of the list model, seen on a store whose arrays are [a]. *)
Definition on_store {A} (a : list (list float)) (r : run S X A)
    : run (store S) X A :=
  Run (log r) (Store a (final r)) (value r).

End Stored.

(** ** More samples for the closed examples *)

Module More_samples.

(** [np.sin] at zero; libm's [sin] is not modelled, and any other
    argument raises. *)
Definition np_sin_table (x : pynum) : result float :=
  match x with
  | PyInt 0 | PyFloat (S754_zero false) => Ok F64.zero
  | _ => Raise (Exception "np.sin: argument outside the table")
  end.

(** [def sqrt_term(r, x): return 1 / r], which divides by zero at the
    first index. *)
Definition reciprocal (r : Z) : result float :=
  if r =? 0 then Raise (Exception "ZeroDivisionError: division by zero")
  else Ok (F64.div (F64.of_Z 1) (F64.of_Z r)).

Section WithState.

Context {S : Type}.

Definition np_with_sin : gmap string (attribute S pynum) :=
  {[ "sin" := Function (fun x => pure_callee (np_sin_table x)) ]}.

Definition reciprocal_term_fn : pyfunction S pynum :=
  {| __name__ := "sqrt_term";
     __call__ := fun r x => pure_callee (reciprocal r) |}.

End WithState.

(** Stand-ins for the horn's libraries: a [linspace] that returns [num]
    copies of the start, identity functions for [np.exp], [np.cos] and
    [np.sin], reductions that return the first element, and a matplotlib
    whose calls all return. *)
Definition linspace_stub (start stop : pynum) (num : Z)
    : result (list float) :=
  if num <? 0 then Raise ValueError
  else Ok (replicate (Z.to_nat num)
                     (match start with
                      | PyInt n => F64.of_Z n
                      | PyFloat f => f
                      end)).

Definition first_stub (a : list float) : result float :=
  match a with
  | [] => Raise ValueError
  | v :: _ => Ok v
  end.

Definition horn_stub (b w_0 : float)
    (alpha_min alpha_max theta_min theta_max divisions_per_radian : pynum)
    : W unit :=
  draw_log_horn linspace_stub (fun v => v) (fun v => v) (fun v => v)
                first_stub first_stub (fun _ => Ok tt)
                b w_0 alpha_min alpha_max theta_min theta_max
                divisions_per_radian.

(** [2 * np.pi] and [-6 * np.pi], the default bounds. *)
Definition two_pi : float := F64.mul (F64.of_Z 2) F64.pi.
Definition minus_six_pi : float := F64.mul (F64.of_Z (-6)) F64.pi.

(** 0.7, the notebook's beta. *)
Definition beta : float := F64.div (F64.of_Z 7) (F64.of_Z 10).

End More_samples.

(** A float that is not below zero: the sign bit of a finite or infinite
    value is clear. *)
Definition not_negative (f : float) : bool :=
  match f with
  | S754_infinity s | S754_finite s _ _ => negb s
  | _ => true
  end.

(** A binary64 value in its canonical form, as every Python float is. *)
Definition valid (f : float) : bool := valid_binary F64.prec F64.emax f.

(** The pairs of bounds the sign argument covers: two ints, two floats,
    or a float with the int 0 (the defaults of the notebook). *)
Definition plain_bounds (low high : pynum) : Prop :=
  match low, high with
  | PyInt _, PyInt _ => True
  | PyFloat l, PyFloat h => valid l = true /\ valid h = true
  | PyInt l, PyFloat _ => l = 0
  | PyFloat _, PyInt h => h = 0
  end.

Arguments draw_log_horn : simpl never.
Arguments horn_plot : simpl never.
Arguments horn_surface : simpl never.
Arguments sample_count : simpl never.

(* ===================================================================== *)
(** * Sequences *)
(* ===================================================================== *)

Lemma index_in_range (len i : Z) :
  0 <= i < len -> index len i = Ok (Z.to_nat i).
Proof.
  intros H. unfold index.
  destruct (Z.leb_spec 0 i), (Z.ltb_spec i len); try lia. reflexivity.
Qed.

Lemma getitem_lookup {A} (a : list A) (i : nat) (v : A) :
  a !! i = Some v -> getitem a (Z.of_nat i) = Ok v.
Proof.
  intros H. unfold getitem.
  rewrite index_in_range by (apply lookup_lt_Some in H; lia).
  simpl. rewrite Nat2Z.id, H. reflexivity.
Qed.

Lemma getitem_last_lookup {A} (a : list A) (v : A) :
  getitem a (-1) = Ok v -> a !! Nat.pred (length a) = Some v /\ a <> [].
Proof.
  unfold getitem, index. simpl.
  destruct (Z.leb_spec (- Z.of_nat (length a)) (-1)); simpl.
  2: discriminate.
  replace (Z.to_nat (Z.of_nat (length a) + -1)) with (Nat.pred (length a))
    by lia.
  destruct (a !! Nat.pred (length a)) eqn:E; [|discriminate].
  intros [= ->]. split; [reflexivity|]. intros ->. discriminate.
Qed.

Lemma getitem_nil {A} (i : Z) : getitem (@nil A) i = Raise IndexError.
Proof.
  unfold getitem, index. repeat case_match; reflexivity.
Qed.

Lemma setitem_in_range {A} (a : list A) (i : nat) (v : A) :
  (i < length a)%nat -> setitem a (Z.of_nat i) v = Ok (<[i := v]> a).
Proof.
  intros H. unfold setitem. rewrite index_in_range by lia.
  simpl. rewrite Nat2Z.id. reflexivity.
Qed.

Lemma setitem_length {A} (a a' : list A) (i : Z) (v : A) :
  setitem a i v = Ok a' -> length a' = length a.
Proof.
  unfold setitem. destruct (index _ i); simpl; [|discriminate].
  intros [= <-]. apply length_insert.
Qed.

Lemma np_zeros_ok (n : Z) (a : list float) :
  np_zeros n = Ok a -> 0 <= n /\ a = replicate (Z.to_nat n) F64.zero.
Proof.
  unfold np_zeros. destruct (Z.ltb_spec n 0); [discriminate|].
  intros [= <-]. split; [lia | reflexivity].
Qed.

Lemma range_length (n : Z) : length (range n) = Z.to_nat n.
Proof. apply length_seqZ. Qed.

(** ** The cumulative sum obeys the prefix-sum law *)

Lemma accumulate_length (acc : float) (a : list float) :
  length (accumulate acc a) = length a.
Proof. revert acc. induction a as [|t a IH]; intros acc; simpl; auto. Qed.

Lemma np_cumsum_length (a : list float) : length (np_cumsum a) = length a.
Proof. destruct a; simpl; [|rewrite accumulate_length]; reflexivity. Qed.

Lemma accumulate_step (a : list float) : forall (acc : float) (i : nat),
  (acc :: accumulate acc a) !! Datatypes.S i =
  c ← (acc :: accumulate acc a) !! i; t ← a !! i; Some (F64.add c t).
Proof.
  induction a as [|t a IH]; intros acc i.
  - destruct i; reflexivity.
  - destruct i as [|i]; [reflexivity|].
    change ((acc :: accumulate acc (t :: a)) !! Datatypes.S (Datatypes.S i))
      with ((F64.add acc t :: accumulate (F64.add acc t) a) !! Datatypes.S i).
    rewrite IH. reflexivity.
Qed.

Lemma np_cumsum_prefix_sum (a : list float) (i : nat) :
  np_cumsum a !! i = prefix_sum a i.
Proof.
  destruct a as [|t a]; simpl.
  - induction i as [|i IH]; simpl; [reflexivity|]. rewrite <- IH. reflexivity.
  - induction i as [|i IH]; [reflexivity|].
    simpl prefix_sum. rewrite <- IH. apply accumulate_step.
Qed.

Lemma array_sub_length (a : list float) (v : float) :
  length (array_sub a v) = length a.
Proof. apply length_map. Qed.

Lemma array_sub_lookup (a : list float) (v : float) (i : nat) :
  array_sub a v !! i = (fun c => F64.sub c v) <$> a !! i.
Proof. apply list_lookup_fmap. Qed.

(* ===================================================================== *)
(** * Running the monad *)
(* ===================================================================== *)

Section Runs.

Context {S X : Type}.

Implicit Types (s : S) (x : X) (term : pyfunction S X).

Lemma run_eta {A} (r : run S X A) : Run (log r) (final r) (value r) = r.
Proof. destruct r; reflexivity. Qed.

Lemma run_ext {A} (r : run S X A) l s v :
  log r = l -> final r = s -> value r = v -> r = Run l s v.
Proof. intros <- <- <-. symmetry. apply run_eta. Qed.

Lemma bind_run {A B} (m : M S X A) (k : A -> M S X B) s :
  (m ≫= k) s =
  match value (m s) with
  | Ok a => Run (log (m s) ++ log (k a (final (m s))))
                (final (k a (final (m s)))) (value (k a (final (m s))))
  | Raise e => Run (log (m s)) (final (m s)) (Raise e)
  end.
Proof. reflexivity. Qed.

Lemma lift_bind {A B} (r : result A) (k : A -> M S X B) s :
  (lift r ≫= k) s =
  match r with
  | Ok a => k a s
  | Raise e => Run [] s (Raise e)
  end.
Proof.
  rewrite bind_run. destruct r as [a|e]; simpl; [|reflexivity].
  apply run_eta.
Qed.

Lemma print_bind {B} (l : line X) (k : unit -> M S X B) s :
  (print l ≫= k) s =
  Run (Print l :: log (k tt s)) (final (k tt s)) (value (k tt s)).
Proof. reflexivity. Qed.

Lemma call_bind {A B} (ev : event X) (c : callee S A) (k : A -> M S X B) s :
  (call ev c ≫= k) s =
  match (c s).2 with
  | Ok a => Run (ev :: log (k a (c s).1)) (final (k a (c s).1))
                (value (k a (c s).1))
  | Raise e => Run [ev] (c s).1 (Raise e)
  end.
Proof.
  rewrite bind_run. unfold call. destruct (c s) as [s' [a|e]]; reflexivity.
Qed.

(** ** The loop that fills [terms] *)

(** Whatever the term function does, the loop logs one call per index it
    reaches, in order, and a loop that finishes has reached all of them and
    kept the length of the array. *)
Lemma fill_terms_log term x (rs : list Z) :
  forall (terms : list float) s,
  exists k : nat,
    (k <= length rs)%nat /\
    log (fill_terms term x rs terms s) = (fun r => CallTerm r x) <$> take k rs /\
    forall terms', value (fill_terms term x rs terms s) = Ok terms' ->
                   k = length rs /\ length terms' = length terms.
Proof.
  induction rs as [|r rs IH]; intros terms s.
  - exists O. simpl. split; [lia|]. split; [reflexivity|].
    intros terms' [= <-]. auto.
  - simpl fill_terms. rewrite call_bind.
    destruct (__call__ term r x s) as [s1 [v|e]]; simpl.
    + rewrite lift_bind. destruct (setitem terms r v) as [terms1|e] eqn:E.
      * destruct (IH terms1 s1) as (k & Hk & Hlog & Hval).
        exists (Datatypes.S k). simpl. rewrite Hlog.
        split; [lia|]. split; [reflexivity|].
        intros terms' H. apply Hval in H as [-> H].
        split; [reflexivity|]. rewrite H. eapply setitem_length, E.
      * exists 1%nat. simpl. split; [lia|]. split; [reflexivity|].
        discriminate.
    + exists 1%nat. simpl. split; [lia|]. split; [reflexivity|].
      discriminate.
Qed.

(** With a term function that returns [tf r] at every index of the range
    and leaves the state alone, the loop stores exactly these values. *)
Lemma fill_terms_pure term x (tf : Z -> float) (n : Z) :
  (forall r s, 0 <= r < n -> __call__ term r x s = (s, Ok (tf r))) ->
  forall (m : nat) (pre : list float) s,
    Z.of_nat (length pre) + Z.of_nat m <= n ->
    fill_terms term x (seqZ (Z.of_nat (length pre)) (Z.of_nat m))
               (pre ++ replicate m F64.zero) s =
    Run ((fun r => CallTerm r x) <$> seqZ (Z.of_nat (length pre)) (Z.of_nat m))
        s (Ok (pre ++ (tf <$> seqZ (Z.of_nat (length pre)) (Z.of_nat m)))).
Proof.
  intros Hterm. induction m as [|m IH]; intros pre s Hle.
  - simpl. rewrite app_nil_r. reflexivity.
  - rewrite seqZ_cons by lia. simpl fill_terms.
    rewrite call_bind, Hterm by lia. simpl.
    rewrite lift_bind, setitem_in_range
      by (rewrite length_app; simpl; lia).
    rewrite insert_app_r_alt by lia.
    replace (length pre - length pre)%nat with O by lia. simpl.
    replace (Z.pred (Z.of_nat (Datatypes.S m))) with (Z.of_nat m) by lia.
    specialize (IH (pre ++ [tf (Z.of_nat (length pre))]) s).
    rewrite length_app in IH. simpl in IH.
    replace (Z.of_nat (length pre + 1)) with (Z.succ (Z.of_nat (length pre)))
      in IH by lia.
    rewrite <- app_assoc in IH. simpl in IH.
    rewrite IH by lia. rewrite <- app_assoc. reflexivity.
Qed.

(** ** Printing the rows *)

Lemma print_rows_run (w : Z) (ts : list float) :
  forall (cs ds pt pc pd : list float) s,
    length cs = length ts -> length ds = length ts ->
    length pc = length pt -> length pd = length pt ->
    print_rows (X:=X) (seqZ (Z.of_nat (length pt)) (Z.of_nat (length ts)))
               (pt ++ ts) (pc ++ cs) (pd ++ ds) w s =
    Run (Print <$> table_rows (Z.of_nat (length pt) + 1) ts cs ds w) s (Ok tt).
Proof.
  induction ts as [|t ts IH]; intros cs ds pt pc pd s Hc Hd Hpc Hpd.
  - reflexivity.
  - destruct cs as [|c cs]; [discriminate|].
    destruct ds as [|d ds]; [discriminate|].
    simpl in Hc, Hd.
    change (length (t :: ts)) with (Datatypes.S (length ts)).
    rewrite seqZ_cons by lia. simpl print_rows.
    rewrite lift_bind, (getitem_lookup _ _ t)
      by (apply list_lookup_middle; lia).
    rewrite lift_bind, (getitem_lookup _ _ c)
      by (apply list_lookup_middle; lia).
    rewrite lift_bind, (getitem_lookup _ _ d)
      by (apply list_lookup_middle; lia).
    rewrite print_bind.
    replace (Z.pred (Z.of_nat (Datatypes.S (length ts))))
      with (Z.of_nat (length ts)) by lia.
    specialize (IH cs ds (pt ++ [t]) (pc ++ [c]) (pd ++ [d]) s).
    rewrite !length_app in IH. simpl in IH.
    replace (Z.of_nat (length pt + 1)) with (Z.succ (Z.of_nat (length pt)))
      in IH by lia.
    rewrite <- !app_assoc in IH. simpl in IH.
    rewrite IH by lia. simpl.
    replace (Z.succ (Z.of_nat (length pt)) + 1)
      with (Z.of_nat (length pt) + 1 + 1) by lia.
    reflexivity.
Qed.

(** ** The printing half prints [table_lines] or nothing *)

Lemma print_table_run (function_name : string) x (max_terms : Z)
    (real_value : float) (terms result_to_r differences : list float) s :
  0 <= max_terms ->
  length terms = Z.to_nat max_terms ->
  length result_to_r = length terms ->
  length differences = length terms ->
  print_table function_name x max_terms
              (real_value, terms, result_to_r, differences) s =
  match table_lines function_name x
                    (real_value, terms, result_to_r, differences) with
  | Ok lines => Run (Print <$> lines) s (Ok tt)
  | Raise e => Run [] s (Raise e)
  end.
Proof.
  intros Hn Ht Hc Hd. unfold print_table, table_lines.
  rewrite lift_bind. destruct (py_int real_value) as [w_real|e]; simpl.
  2: reflexivity.
  rewrite lift_bind. destruct (getitem result_to_r (-1)) as [last|e]; simpl.
  2: reflexivity.
  rewrite lift_bind. destruct (py_int last) as [w_last|e]; simpl.
  2: reflexivity.
  rewrite !print_bind. simpl.
  rewrite bind_run. unfold range.
  pose proof (print_rows_run
    (16 + Z.max (len_str w_real) (len_str w_last) - 2)
    terms result_to_r differences [] [] [] s Hc Hd eq_refl eq_refl) as H.
  simpl in H. change (Z.of_nat 0) with 0 in H.
  rewrite Ht, Z2Nat.id in H by lia. rewrite H. simpl.
  rewrite fmap_app. reflexivity.
Qed.

End Runs.

(* ===================================================================== *)
(** * Reading logs *)
(* ===================================================================== *)

Section Logs.

Context {X : Type}.

Implicit Types (x : X) (l : list (event X)).

Lemma term_calls_app l1 l2 :
  term_calls (l1 ++ l2) = term_calls l1 ++ term_calls l2.
Proof. apply omap_app. Qed.

Lemma real_calls_app l1 l2 :
  real_calls (l1 ++ l2) = real_calls l1 ++ real_calls l2.
Proof. apply omap_app. Qed.

Lemma printed_app l1 l2 : printed (l1 ++ l2) = printed l1 ++ printed l2.
Proof. apply omap_app. Qed.

Lemma printed_rows_app l1 l2 :
  printed_rows (l1 ++ l2) = printed_rows l1 ++ printed_rows l2.
Proof. apply omap_app. Qed.

Lemma term_calls_calls x (rs : list Z) :
  term_calls ((fun r => CallTerm r x) <$> rs) = rs.
Proof. induction rs as [|r rs IH]; simpl; [|f_equal; exact IH]; reflexivity. Qed.

Lemma real_calls_calls x (rs : list Z) :
  real_calls ((fun r => CallTerm r x) <$> rs) = [].
Proof. induction rs as [|r rs IH]; simpl; auto. Qed.

Lemma printed_calls x (rs : list Z) :
  printed ((fun r => CallTerm r x) <$> rs) = [].
Proof. induction rs as [|r rs IH]; simpl; auto. Qed.

Lemma printed_rows_calls x (rs : list Z) :
  printed_rows ((fun r => CallTerm r x) <$> rs) = [].
Proof. induction rs as [|r rs IH]; simpl; auto. Qed.

Lemma term_calls_prints (lines : list (line X)) :
  term_calls (Print <$> lines) = [].
Proof. induction lines as [|ln lines IH]; simpl; auto. Qed.

Lemma real_calls_prints (lines : list (line X)) :
  real_calls (Print <$> lines) = [].
Proof. induction lines as [|ln lines IH]; simpl; auto. Qed.

Lemma printed_prints (lines : list (line X)) :
  printed (Print <$> lines) = lines.
Proof.
  induction lines as [|ln lines IH]; simpl; [|f_equal; exact IH]; reflexivity.
Qed.

Lemma printed_rows_table_rows (w : Z) (ts : list float) :
  forall (k : Z) (cs ds : list float),
    printed_rows (Print <$> table_rows (X:=X) k ts cs ds w) =
    table_rows k ts cs ds w.
Proof.
  induction ts as [|t ts IH]; intros k' cs ds; [reflexivity|].
  destruct cs as [|c cs]; [reflexivity|].
  destruct ds as [|d ds]; [reflexivity|].
  simpl. f_equal. apply IH.
Qed.

Lemma table_rows_length (w : Z) (ts : list float) :
  forall (k : Z) (cs ds : list float),
    length cs = length ts -> length ds = length ts ->
    length (table_rows (X:=X) k ts cs ds w) = length ts.
Proof.
  induction ts as [|t ts IH]; intros k cs ds Hc Hd; [reflexivity|].
  destruct cs as [|c cs]; [discriminate|].
  destruct ds as [|d ds]; [discriminate|].
  simpl in *. rewrite IH by lia. reflexivity.
Qed.

(** Row [i] of a table carries the [i]-th entry of each array, and is
    numbered [k + i]. *)
Lemma table_rows_lookup (w : Z) (ts : list float) :
  forall (k : Z) (cs ds : list float) (i : nat) (t c d : float),
    ts !! i = Some t -> cs !! i = Some c -> ds !! i = Some d ->
    table_rows (X:=X) k ts cs ds w !! i = Some (Row (k + Z.of_nat i) t c d w).
Proof.
  induction ts as [|t0 ts IH]; intros k cs ds i t c d Ht Hc Hd.
  - discriminate.
  - destruct cs as [|c0 cs]; [discriminate|].
    destruct ds as [|d0 ds]; [discriminate|].
    destruct i as [|i]; simpl in *.
    + injection Ht as ->. injection Hc as ->. injection Hd as ->.
      rewrite Z.add_0_r. reflexivity.
    + rewrite (IH _ _ _ _ t c d) by assumption.
      do 2 f_equal. lia.
Qed.

Lemma table_rows_lookup_inv (w : Z) (ts : list float) :
  forall (k : Z) (cs ds : list float) (i : nat) (ln : line X),
    table_rows k ts cs ds w !! i = Some ln ->
    exists t c d,
      ln = Row (k + Z.of_nat i) t c d w /\
      ts !! i = Some t /\ cs !! i = Some c /\ ds !! i = Some d.
Proof.
  induction ts as [|t0 ts IH]; intros k cs ds i ln H.
  - discriminate.
  - destruct cs as [|c0 cs]; [discriminate|].
    destruct ds as [|d0 ds]; [discriminate|].
    destruct i as [|i]; simpl in H.
    + injection H as <-. exists t0, c0, d0. rewrite Z.add_0_r. auto.
    + apply IH in H as (t & c & d & -> & Ht & Hc & Hd).
      exists t, c, d. repeat split; auto. f_equal. lia.
Qed.

Lemma row_terms_table_rows (w : Z) (ts : list float) :
  forall (k : Z) (cs ds : list float),
    length cs = length ts -> length ds = length ts ->
    row_terms (table_rows (X:=X) k ts cs ds w) = ts.
Proof.
  induction ts as [|t ts IH]; intros k cs ds Hc Hd; [reflexivity|].
  destruct cs as [|c cs]; [discriminate|].
  destruct ds as [|d ds]; [discriminate|].
  simpl in *. f_equal. apply IH; lia.
Qed.

Lemma printed_rows_nil l : printed l = [] -> printed_rows l = [].
Proof.
  induction l as [|ev l IH]; [reflexivity|].
  destruct ev as [name x|r x|ln]; simpl; auto. discriminate.
Qed.

(** The lines of a table are a header of five lines, the rows and a footer
    of three lines. *)
Lemma table_lines_ok (function_name : string) x (real_value : float)
    (terms result_to_r differences : list float) (lines : list (line X)) :
  table_lines function_name x
              (real_value, terms, result_to_r, differences) = Ok lines ->
  exists column_width : Z,
    lines =
      [TableRule column_width;
       Title function_name x (table_width column_width);
       TableRule column_width;
       TableHeading (function_name +:+ "(x) so far")%string column_width;
       TableSeparator column_width]
      ++ table_rows 1 terms result_to_r differences (column_width - 2)
      ++ [TableSeparator column_width;
          RealRow column_width real_value (column_width - 2);
          TableBase column_width] /\
    printed_rows (Print <$> lines) =
      table_rows 1 terms result_to_r differences (column_width - 2) /\
    result_to_r <> [] /\
    F64.is_finite real_value = true.
Proof.
  unfold table_lines.
  destruct (py_int real_value) as [w_real|e] eqn:Er; simpl; [|discriminate].
  destruct (getitem result_to_r (-1)) as [last|e] eqn:El; simpl;
    [|discriminate].
  destruct (py_int last) as [w_last|e]; simpl; [|discriminate].
  intros [= <-]. eexists. split; [reflexivity|].
  split; [|split].
  - rewrite !fmap_cons. cbn [printed_rows omap list_omap].
    change (omap ?f ?l) with (printed_rows l).
    rewrite fmap_app, printed_rows_app, printed_rows_table_rows.
    simpl. apply app_nil_r.
  - apply getitem_last_lookup in El as [_ H]. exact H.
  - destruct real_value; simpl in *; congruence.
Qed.

End Logs.

(* ===================================================================== *)
(** * The evaluation and the whole call, case by case *)
(* ===================================================================== *)

Section Calls.

Context {S X : Type}.

Variable np : gmap string (attribute S X).

Implicit Types (s : S) (x : X) (term : pyfunction S X) (n : Z).

(** The evaluation, one outcome after the other in the order of the code. *)
Lemma series_values_unfold (name : string) term x n s :
  series_values np name term x n s =
  match np !! name with
  | None => Run [] s (Raise AttributeError)
  | Some (Constant _) => Run [] s (Raise TypeError)
  | Some (Function f) =>
      match (f x s).2 with
      | Raise e => Run [CallReal name x] (f x s).1 (Raise e)
      | Ok rv =>
          if n <? 0 then Run [CallReal name x] (f x s).1 (Raise ValueError)
          else
            let r := fill_terms term x (range n)
                                (replicate (Z.to_nat n) F64.zero) (f x s).1 in
            Run (CallReal name x :: log r) (final r)
                match value r with
                | Ok terms =>
                    Ok (rv, terms, np_cumsum terms,
                        array_sub (np_cumsum terms) rv)
                | Raise e => Raise e
                end
      end
  end.
Proof.
  unfold series_values, getattr. rewrite lift_bind.
  destruct (np !! name) as [[f|v]|]; [| reflexivity | reflexivity].
  unfold call_real. rewrite call_bind.
  destruct (f x s) as [s1 [rv|e]]; simpl; [|reflexivity].
  rewrite lift_bind. unfold np_zeros.
  destruct (n <? 0); [reflexivity|].
  rewrite bind_run.
  destruct (value (fill_terms term x (range n) _ s1)); simpl;
    [rewrite app_nil_r|]; reflexivity.
Qed.

(** The whole call: the two guards, then the evaluation, then the table. *)
Lemma print_maclaurin_table_unfold term x n s :
  print_maclaurin_table np term x n s =
  if 100 <=? n then Run [Print TooManyTerms] s (Ok tt)
  else
    let name := function_name_of term in
    match np !! name with
    | None => Run [Print (UnknownFunction name)] s (Ok tt)
    | Some _ =>
        let r := series_values np name term x n s in
        match value r with
        | Ok sv =>
            let r' := print_table name x n sv (final r) in
            Run (log r ++ log r') (final r') (value r')
        | Raise e => Run (log r) (final r) (Raise e)
        end
    end.
Proof.
  unfold print_maclaurin_table, hasattr.
  destruct (100 <=? n); [reflexivity|].
  destruct (np !! function_name_of term); reflexivity.
Qed.

(** An evaluation that returns has found a function under the name, got
    its value at [x], and called the term function once per index. *)
Lemma series_values_ok (name : string) term x n s (rv : float)
    (terms cum diff : list float) :
  value (series_values np name term x n s) = Ok (rv, terms, cum, diff) ->
  exists f,
    np !! name = Some (Function f) /\
    (f x s).2 = Ok rv /\
    0 <= n /\
    length terms = Z.to_nat n /\
    cum = np_cumsum terms /\
    diff = array_sub cum rv /\
    log (series_values np name term x n s) =
      CallReal name x :: ((fun r => CallTerm r x) <$> range n).
Proof.
  rewrite series_values_unfold.
  destruct (np !! name) as [[f|v]|]; [| discriminate | discriminate].
  destruct (f x s) as [s1 [rv'|e]] eqn:Ef; simpl; [|discriminate].
  destruct (Z.ltb_spec n 0); [discriminate|]. simpl.
  destruct (fill_terms_log term x (range n)
              (replicate (Z.to_nat n) F64.zero) s1) as (k & Hk & Hlog & Hval).
  destruct (value (fill_terms term x (range n) _ s1)) as [terms'|e];
    [|discriminate].
  intros [= -> -> <- <-]. exists f.
  destruct (Hval _ eq_refl) as [-> Hlen].
  rewrite length_replicate in Hlen.
  rewrite Hlog, firstn_all, Ef. auto 10.
Qed.

(** With a reference function that returns [rv] and a term function that
    returns [tf r] at every index and leaves the state alone, the
    evaluation returns the [n] values [tf 0 .. tf (n-1)]. *)
Lemma series_values_pure (name : string) term x n s
    (f : X -> callee S float) (s1 : S) (rv : float) (tf : Z -> float) :
  0 <= n ->
  np !! name = Some (Function f) ->
  f x s = (s1, Ok rv) ->
  (forall r s', 0 <= r < n -> __call__ term r x s' = (s', Ok (tf r))) ->
  series_values np name term x n s =
  Run (CallReal name x :: ((fun r => CallTerm r x) <$> range n)) s1
      (Ok (rv, tf <$> range n, np_cumsum (tf <$> range n),
           array_sub (np_cumsum (tf <$> range n)) rv)).
Proof.
  intros Hn Hnp Hf Hterm.
  rewrite series_values_unfold, Hnp, Hf. simpl.
  destruct (Z.ltb_spec n 0); [lia|]. simpl.
  pose proof (fill_terms_pure term x tf n Hterm (Z.to_nat n) [] s1) as Hfill.
  simpl in Hfill. change (Z.of_nat 0) with 0 in Hfill.
  rewrite Z2Nat.id in Hfill by lia. unfold range.
  rewrite Hfill by lia. reflexivity.
Qed.

(** Every call of [print_maclaurin_table] ends in one of four ways: the
    too-many-terms message, the unknown-function message, an exception
    with nothing printed, or a whole table. *)
Lemma print_maclaurin_table_cases term x n s :
  let name := function_name_of term in
  let r := print_maclaurin_table np term x n s in
  (100 <= n /\ r = Run [Print TooManyTerms] s (Ok tt)) \/
  (n < 100 /\ np !! name = None /\
   r = Run [Print (UnknownFunction name)] s (Ok tt)) \/
  (n < 100 /\ is_Some (np !! name) /\
   exists (e : exn) (k : nat),
     value r = Raise e /\ printed (log r) = [] /\
     (k <= Z.to_nat n)%nat /\ term_calls (log r) = take k (range n) /\
     (length (real_calls (log r)) <= 1)%nat) \/
  (0 < n < 100 /\
   exists f (rv : float) (terms : list float) (lines : list (line X)),
     let sv := (rv, terms, np_cumsum terms,
                array_sub (np_cumsum terms) rv) in
     np !! name = Some (Function f) /\
     (f x s).2 = Ok rv /\
     length terms = Z.to_nat n /\
     series_values np name term x n s =
       Run (CallReal name x :: ((fun r => CallTerm r x) <$> range n))
           (final r) (Ok sv) /\
     table_lines name x sv = Ok lines /\
     r = Run (CallReal name x :: ((fun r => CallTerm r x) <$> range n)
              ++ (Print <$> lines)) (final r) (Ok tt)).
Proof.
  intros name r. subst r name. rewrite print_maclaurin_table_unfold.
  cbv zeta. generalize (function_name_of term). intros name.
  destruct (Z.leb_spec 100 n) as [Hn|Hn]; [left; auto|]. right.
  destruct (np !! name) as [a|] eqn:Hnp; [right | left; auto].
  simpl.
  destruct (value (series_values np name term x n s))
    as [[[[rv terms] cum] diff]|e] eqn:Hv.
  - (* the evaluation returned *)
    pose proof Hv as Hsv.
    apply series_values_ok in Hv
      as (f & Hf & Hrv & Hn0 & Hlen & -> & -> & Hlog).
    rewrite print_table_run
      by (rewrite ?array_sub_length, ?np_cumsum_length; auto).
    destruct (table_lines name x _) as [lines|e] eqn:Hl.
    + right. split.
      * split; [|lia]. apply table_lines_ok in Hl as (_ & _ & _ & Hne & _).
        destruct (Z.eq_dec n 0) as [->|]; [|lia].
        destruct terms; [contradiction Hne; reflexivity | discriminate].
      * exists f, rv, terms, lines. simpl. rewrite Hlog.
        repeat split; auto; [congruence|].
        apply run_ext; auto.
    + left. split; [lia|]. split; [eauto|].
      exists e, (Z.to_nat n). simpl. rewrite app_nil_r, Hlog. simpl.
      rewrite printed_calls, term_calls_calls, real_calls_calls.
      rewrite firstn_all2 by (rewrite range_length; lia).
      repeat split; auto.
  - (* the evaluation raised *)
    left. split; [lia|]. split; [eauto|]. simpl.
    revert Hv. rewrite series_values_unfold, Hnp.
    destruct a as [f|v].
    2: { intros [= <-]. exists TypeError, O. simpl. repeat split; lia. }
    destruct (f x s) as [s1 [rv|e']]; simpl.
    2: { intros [= <-]. exists e', O. simpl. repeat split; lia. }
    destruct (n <? 0); simpl.
    { intros [= <-]. exists ValueError, O. simpl. repeat split; lia. }
    destruct (fill_terms_log term x (range n)
                (replicate (Z.to_nat n) F64.zero) s1) as (k & Hk & Hlog & _).
    rewrite Hlog.
    destruct (value (fill_terms _ _ _ _ _)); [discriminate|].
    intros [= ->]. exists e, k.
    rewrite printed_calls, term_calls_calls, real_calls_calls.
    rewrite range_length in Hk. simpl. repeat split; auto.
Qed.

End Calls.

(* ===================================================================== *)
(** * The claims about the table printer *)
(* ===================================================================== *)

Section Table_claims.

Context {S X : Type}.

Variable np : gmap string (attribute S X).

Implicit Types (s : S) (x : X) (term : pyfunction S X) (n : Z).

Lemma table_rows_elem (w : Z) (ts : list float) :
  forall (k : Z) (cs ds : list float) (ln : line X),
    ln ∈ table_rows k ts cs ds w -> exists k' t c d, ln = Row k' t c d w.
Proof.
  induction ts as [|t ts IH]; intros k cs ds ln H.
  - simpl in H. inversion H.
  - destruct cs as [|c cs]; [inversion H|].
    destruct ds as [|d ds]; [inversion H|].
    simpl in H. apply elem_of_cons in H as [->|H]; eauto.
Qed.

Lemma table_lines_not_too_many (name : string) x
    (sv : float * list float * list float * list float)
    (lines : list (line X)) :
  table_lines name x sv = Ok lines -> TooManyTerms ∉ lines.
Proof.
  destruct sv as [[[rv terms] cum] diff]. intros H.
  apply table_lines_ok in H as (cw & -> & _).
  intros Hin. apply elem_of_app in Hin as [Hin|Hin].
  - repeat (apply elem_of_cons in Hin as [Hin|Hin]; [discriminate|]).
    inversion Hin.
  - apply elem_of_app in Hin as [Hin|Hin].
    + apply table_rows_elem in Hin as (? & ? & ? & ? & ?). discriminate.
    + repeat (apply elem_of_cons in Hin as [Hin|Hin]; [discriminate|]).
      inversion Hin.
Qed.

(** C1 (as amended): the guard is [max_terms >= 100].  A call with
    [max_terms] of 100 or more prints the too-many-terms message and
    returns, with no row printed and no term evaluated; below 100 the
    message is never printed, and with a name that resolves to a function
    and a term function that returns at every index (98 and 99 included)
    the evaluation returns its [max_terms] values; no call evaluates the
    term function more than 99 times. *)
Theorem C1_ceiling_is_100 term x n s :
  let name := function_name_of term in
  let r := print_maclaurin_table np term x n s in
  (100 <= n ->
   r = Run [Print TooManyTerms] s (Ok tt) /\
   printed_rows (log r) = [] /\ term_calls (log r) = []) /\
  (n < 100 -> TooManyTerms ∉ printed (log r)) /\
  (0 < n <= 99 ->
   forall f s1 (rv : float) (tf : Z -> float),
     np !! name = Some (Function f) ->
     f x s = (s1, Ok rv) ->
     (forall i s', 0 <= i < n -> __call__ term i x s' = (s', Ok (tf i))) ->
     exists terms cum diff,
       value (series_values np name term x n s) = Ok (rv, terms, cum, diff) /\
       length terms = Z.to_nat n /\
       term_calls (log r) = range n) /\
  (length (term_calls (log r)) <= 99)%nat.
Proof.
  intros name r.
  assert (Hmid : 0 < n <= 99 ->
    forall f s1 (rv : float) (tf : Z -> float),
      np !! name = Some (Function f) ->
      f x s = (s1, Ok rv) ->
      (forall i s', 0 <= i < n -> __call__ term i x s' = (s', Ok (tf i))) ->
      exists terms cum diff,
        value (series_values np name term x n s) = Ok (rv, terms, cum, diff) /\
        length terms = Z.to_nat n /\
        term_calls (log r) = range n).
  { intros Hn f s1 rv tf Hf Hfx Hterm.
    pose proof (series_values_pure np name term x n s f s1 rv tf
                  ltac:(lia) Hf Hfx Hterm) as Hsv.
    rewrite Hsv. do 3 eexists. split; [reflexivity|].
    split; [rewrite length_fmap; apply range_length|].
    subst r. rewrite print_maclaurin_table_unfold. cbv zeta. fold name.
    destruct (Z.leb_spec 100 n); [lia|]. rewrite Hf.
    rewrite Hsv. simpl.
    rewrite print_table_run
      by (rewrite ?array_sub_length, ?np_cumsum_length, ?length_fmap,
            ?range_length; auto; lia).
    destruct (table_lines _ _ _); simpl;
      rewrite ?term_calls_app, term_calls_calls, ?term_calls_prints,
        ?app_nil_r; reflexivity. }
  destruct (print_maclaurin_table_cases np term x n s)
    as [[Hn Hr] | [(Hn & Hnp & Hr) | [(Hn & Hnp & e & k & Hv & Hp & Hk & Ht & _)
       | (Hn & f & rv & terms & lines & Hnp & Hrv & Hlen & Hsv & Hl & Hr)]]].
  - (* rejected *)
    fold r in Hr.
    split; [rewrite Hr; auto|]. split; [lia|]. split; [lia|].
    rewrite Hr. simpl. lia.
  - (* unknown function *)
    fold r in Hr. split; [lia|]. split; [|split; [exact Hmid|]].
    + intros _ Hin. rewrite Hr in Hin. simpl in Hin.
      apply elem_of_cons in Hin as [Hin|Hin]; [discriminate | inversion Hin].
    + rewrite Hr. simpl. lia.
  - (* an exception *)
    fold r in Hp, Ht.
    split; [lia|]. split; [|split; [exact Hmid|]].
    + intros _. rewrite Hp. apply not_elem_of_nil.
    + rewrite Ht, length_take. lia.
  - (* a table *)
    fold r in Hr. split; [lia|]. split; [|split; [exact Hmid|]].
    + intros _. rewrite Hr. simpl.
      rewrite printed_app, printed_calls, printed_prints. simpl.
      eapply table_lines_not_too_many, Hl.
    + rewrite Hr. simpl.
      rewrite term_calls_app, term_calls_calls, term_calls_prints, app_nil_r.
      rewrite range_length. lia.
Qed.

(** C2: for a valid [max_terms] (positive, below the ceiling), a name that
    resolves to a function returning the reference value, and a term
    function returning [tf i] at every index, the evaluation calls the term
    function once per index 0 .. max_terms-1, in order, and returns exactly
    [max_terms] values, the [i]-th being [tf i]; and the table, whenever
    its widths can be computed, has exactly [max_terms] rows, row [i]
    numbered [i + 1] and showing [tf i]. *)
Theorem C2_exactly_max_terms_rows term x n s f s1
    (rv : float) (tf : Z -> float) :
  let name := function_name_of term in
  let terms := tf <$> range n in
  let sv := (rv, terms, np_cumsum terms, array_sub (np_cumsum terms) rv) in
  let calls := CallReal name x :: ((fun r => CallTerm r x) <$> range n) in
  0 < n < 100 ->
  np !! name = Some (Function f) ->
  f x s = (s1, Ok rv) ->
  (forall i s', 0 <= i < n -> __call__ term i x s' = (s', Ok (tf i))) ->
  series_values np name term x n s = Run calls s1 (Ok sv) /\
  length terms = Z.to_nat n /\
  (forall i, 0 <= i < n -> terms !! Z.to_nat i = Some (tf i)) /\
  print_maclaurin_table np term x n s =
    match table_lines name x sv with
    | Ok lines => Run (calls ++ (Print <$> lines)) s1 (Ok tt)
    | Raise e => Run calls s1 (Raise e)
    end /\
  (forall lines, table_lines name x sv = Ok lines ->
     let rows := printed_rows (log (print_maclaurin_table np term x n s)) in
     length rows = Z.to_nat n /\
     forall i, 0 <= i < n ->
       exists c d w, rows !! Z.to_nat i = Some (Row (i + 1) (tf i) c d w)).
Proof.
  intros name terms sv calls Hn Hf Hfx Hterm.
  pose proof (series_values_pure np name term x n s f s1 rv tf
                ltac:(lia) Hf Hfx Hterm) as Hsv.
  fold terms in Hsv. fold sv in Hsv. fold calls in Hsv.
  assert (Hlen : length terms = Z.to_nat n)
    by (unfold terms; rewrite length_fmap; apply range_length).
  assert (Hlookup : forall i, 0 <= i < n -> terms !! Z.to_nat i = Some (tf i)).
  { intros i Hi. unfold terms, range. rewrite list_lookup_fmap.
    rewrite lookup_seqZ_lt by lia. simpl. f_equal. f_equal. lia. }
  assert (Hrun : print_maclaurin_table np term x n s =
    match table_lines name x sv with
    | Ok lines => Run (calls ++ (Print <$> lines)) s1 (Ok tt)
    | Raise e => Run calls s1 (Raise e)
    end).
  { rewrite print_maclaurin_table_unfold. cbv zeta. fold name.
    destruct (Z.leb_spec 100 n); [lia|]. rewrite Hf, Hsv. simpl.
    unfold sv. rewrite print_table_run
      by (rewrite ?array_sub_length, ?np_cumsum_length; auto; lia).
    fold sv. destruct (table_lines name x sv); simpl;
      rewrite ?app_nil_r; reflexivity. }
  repeat split; auto.
  - rewrite Hrun, H. simpl. unfold calls. simpl.
    rewrite printed_rows_app, printed_rows_calls. simpl.
    apply table_lines_ok in H as (cw & _ & -> & _).
    rewrite table_rows_length
      by (rewrite ?array_sub_length, ?np_cumsum_length; auto). exact Hlen.
  - intros i Hi. rewrite Hrun, H. simpl. unfold calls. simpl.
    rewrite printed_rows_app, printed_rows_calls. simpl.
    apply table_lines_ok in H as (cw & _ & -> & _).
    destruct (lookup_lt_is_Some_2 (np_cumsum terms) (Z.to_nat i)) as [c Hc];
      [rewrite np_cumsum_length; lia|].
    exists c, (F64.sub c rv), (cw - 2).
    rewrite (table_rows_lookup _ _ _ _ _ _ (tf i) c (F64.sub c rv)); auto.
    + do 2 f_equal. lia.
    + rewrite array_sub_lookup, Hc. reflexivity.
Qed.

(** C3: in every evaluation that returns, the cumulative sums have one
    entry per term and entry [i] is the prefix sum of the terms in
    left-to-right binary64 order (cumulative[0] = term[0],
    cumulative[i] = cumulative[i-1] + term[i]); and in every call the sum
    shown in printed row [i] is that prefix sum of the term values shown in
    rows 0 .. i. *)
Theorem C3_prefix_sums term x n s :
  let name := function_name_of term in
  (forall (rv : float) (terms cum diff : list float),
     value (series_values np name term x n s) = Ok (rv, terms, cum, diff) ->
     length cum = length terms /\
     forall i : nat, (i < length terms)%nat ->
       is_Some (cum !! i) /\ cum !! i = prefix_sum terms i) /\
  (let rows := printed_rows (log (print_maclaurin_table np term x n s)) in
   forall (i : nat) (k : Z) (t c d : float) (w : Z),
     rows !! i = Some (Row k t c d w) ->
     k = Z.of_nat i + 1 /\ prefix_sum (row_terms rows) i = Some c).
Proof.
  intros name. split.
  - intros rv terms cum diff H.
    apply series_values_ok in H as (f & _ & _ & _ & _ & -> & _).
    split; [apply np_cumsum_length|]. intros i Hi. split.
    + apply lookup_lt_is_Some_2. rewrite np_cumsum_length. exact Hi.
    + apply np_cumsum_prefix_sum.
  - intros rows i k t c d w Hrow. subst rows.
    destruct (print_maclaurin_table_cases np term x n s)
      as [[_ Hr] | [(_ & _ & Hr) | [(_ & _ & e & k' & _ & Hp & _)
         | (Hn & f & rv & terms & lines & _ & _ & Hlen & _ & Hl & Hr)]]].
    + rewrite Hr in Hrow. discriminate.
    + rewrite Hr in Hrow. discriminate.
    + rewrite printed_rows_nil in Hrow by exact Hp. discriminate.
    + rewrite Hr in *. simpl in *.
      rewrite printed_rows_app, printed_rows_calls in *. simpl in *.
      apply table_lines_ok in Hl as (cw & _ & Hrows & _).
      rewrite Hrows in *.
      rewrite row_terms_table_rows
        by (rewrite ?array_sub_length, ?np_cumsum_length; auto).
      apply table_rows_lookup_inv in Hrow
        as (t' & c' & d' & [= -> -> -> ->] & _ & Hc & _).
      rewrite <- np_cumsum_prefix_sum. split; [lia | exact Hc].
Qed.

(** C4: in every evaluation that returns, the reference function (the
    provider's entry for the derived name) has been called exactly once,
    at [x], the reference value is what it returned, and every difference
    is the cumulative sum at the same index minus that one value; and in
    every call that prints rows, each row's error is its sum minus the
    value the single reference call returned, the value shown in the
    "Real" line. *)
Theorem C4_single_reference_value term x n s :
  let name := function_name_of term in
  (forall (rv : float) (terms cum diff : list float),
     value (series_values np name term x n s) = Ok (rv, terms, cum, diff) ->
     exists f,
       np !! name = Some (Function f) /\ (f x s).2 = Ok rv /\
       real_calls (log (series_values np name term x n s)) = [(name, x)] /\
       length diff = length cum /\
       forall (i : nat) (c : float),
         cum !! i = Some c -> diff !! i = Some (F64.sub c rv)) /\
  (let r := print_maclaurin_table np term x n s in
   forall (i : nat) (k : Z) (t c d : float) (w : Z),
     printed_rows (log r) !! i = Some (Row k t c d w) ->
     exists f (rv : float),
       np !! name = Some (Function f) /\ (f x s).2 = Ok rv /\
       real_calls (log r) = [(name, x)] /\
       d = F64.sub c rv /\
       RealRow (w + 2) rv w ∈ printed (log r)).
Proof.
  intros name. split.
  - intros rv terms cum diff H.
    apply series_values_ok in H as (f & Hf & Hrv & _ & _ & -> & -> & Hlog).
    exists f. rewrite Hlog. simpl. rewrite real_calls_calls.
    repeat split; auto using array_sub_length.
    intros i c Hc. rewrite array_sub_lookup, Hc. reflexivity.
  - intros r i k t c d w Hrow. subst r.
    destruct (print_maclaurin_table_cases np term x n s)
      as [[_ Hr] | [(_ & _ & Hr) | [(_ & _ & e & k' & _ & Hp & _)
         | (Hn & f & rv & terms & lines & Hf & Hrv & Hlen & _ & Hl & Hr)]]].
    + rewrite Hr in Hrow. discriminate.
    + rewrite Hr in Hrow. discriminate.
    + rewrite printed_rows_nil in Hrow by exact Hp. discriminate.
    + exists f, rv. rewrite Hr in *. simpl in *.
      rewrite printed_rows_app, printed_rows_calls in Hrow. simpl in Hrow.
      rewrite real_calls_app, real_calls_calls, real_calls_prints.
      rewrite printed_app, printed_calls, printed_prints. simpl.
      apply table_lines_ok in Hl as (cw & -> & Hrows & _).
      rewrite Hrows in Hrow.
      apply table_rows_lookup_inv in Hrow
        as (t' & c' & d' & [= -> -> -> -> ->] & _ & Hc & Hd).
      rewrite array_sub_lookup, Hc in Hd. injection Hd as <-.
      repeat split; auto.
      replace (cw - 2 + 2) with cw by lia.
      rewrite !elem_of_app. right. right.
      apply elem_of_cons. right. apply elem_of_cons. left. reflexivity.
Qed.

(** C5 (as amended): a [max_terms] of zero or below passes the
    [max_terms] guard.  After the name check the reference value is
    computed, once; no term is evaluated and nothing is printed; the call
    ends with an exception: ValueError from [np.zeros] for a negative
    count, and for zero the exception of [int(real_value)] if the
    reference value is not finite, else IndexError from
    [result_to_r[-1]]. *)
Theorem C5_non_positive_max_terms term x n s :
  let name := function_name_of term in
  n <= 0 ->
  print_maclaurin_table np term x n s =
  match np !! name with
  | None => Run [Print (UnknownFunction name)] s (Ok tt)
  | Some (Constant _) => Run [] s (Raise TypeError)
  | Some (Function f) =>
      match (f x s).2 with
      | Raise e => Run [CallReal name x] (f x s).1 (Raise e)
      | Ok rv =>
          Run [CallReal name x] (f x s).1
              (Raise (if n <? 0 then ValueError
                      else match py_int rv with
                           | Raise e => e
                           | Ok _ => IndexError
                           end))
      end
  end.
Proof.
  intros name Hn. rewrite print_maclaurin_table_unfold. cbv zeta. fold name.
  destruct (Z.leb_spec 100 n); [lia|].
  destruct (np !! name) as [a|] eqn:Hnp; [|reflexivity].
  rewrite series_values_unfold, Hnp.
  destruct a as [f|v]; [|reflexivity].
  destruct (f x s) as [s1 [rv|e]]; simpl; [|reflexivity].
  destruct (Z.ltb_spec n 0); [reflexivity|].
  assert (n = 0) as -> by lia. simpl.
  unfold print_table. rewrite lift_bind.
  destruct (py_int rv); reflexivity.
Qed.

(** C6: when the name derived from the term function has no entry in the
    provider, a call that passes the [max_terms] guard prints the
    unknown-function message and returns: no row is printed, no term is
    evaluated, the reference function is not called.  The [max_terms]
    guard comes first: at 100 or above the too-many-terms message is
    printed instead. *)
Theorem C6_unknown_function term x n s :
  let name := function_name_of term in
  let r := print_maclaurin_table np term x n s in
  np !! name = None ->
  (n < 100 -> r = Run [Print (UnknownFunction name)] s (Ok tt)) /\
  (100 <= n -> r = Run [Print TooManyTerms] s (Ok tt)) /\
  printed_rows (log r) = [] /\
  term_calls (log r) = [] /\
  real_calls (log r) = [].
Proof.
  intros name r Hnp. subst r.
  rewrite print_maclaurin_table_unfold. cbv zeta. fold name. rewrite Hnp.
  destruct (Z.leb_spec 100 n); repeat split; auto; lia.
Qed.

(** ** Determinism: the call neither reads nor writes the state *)

Lemma stateless_final {A} (m : M S X A) s : stateless m -> final (m s) = s.
Proof. intros H. rewrite (H s s). reflexivity. Qed.

Lemma stateless_ret {A} (a : A) : stateless (mret a : M S X A).
Proof. intros s s'. reflexivity. Qed.

Lemma stateless_lift {A} (r : result A) : stateless (lift r : M S X A).
Proof. intros s s'. reflexivity. Qed.

Lemma stateless_print (ln : line X) : stateless (print ln : M S X unit).
Proof. intros s s'. reflexivity. Qed.

Lemma stateless_call {A} (ev : event X) (c : callee S A) :
  pure c -> stateless (call ev c).
Proof. intros [v Hc] s s'. unfold call. rewrite !Hc. reflexivity. Qed.

Lemma stateless_bind {A B} (m : M S X A) (k : A -> M S X B) :
  stateless m -> (forall a, stateless (k a)) -> stateless (m ≫= k).
Proof.
  intros Hm Hk s s'. rewrite !bind_run.
  rewrite (Hm s s'). simpl.
  destruct (value (m s)) as [a|e]; [|reflexivity].
  rewrite (Hk a (final (m s)) s'). reflexivity.
Qed.

Lemma stateless_fill_terms term x (rs : list Z) :
  (forall r, pure (__call__ term r x)) ->
  forall terms : list float, stateless (fill_terms term x rs terms).
Proof.
  intros Hterm. induction rs as [|r rs IH]; intros terms.
  - apply stateless_ret.
  - simpl. apply stateless_bind; [apply stateless_call, Hterm|].
    intros v. apply stateless_bind; [apply stateless_lift|]. apply IH.
Qed.

Lemma stateless_print_rows (w : Z) (terms cum diff : list float)
    (rs : list Z) :
  stateless (print_rows rs terms cum diff w : M S X unit).
Proof.
  induction rs as [|r rs IH]; [apply stateless_ret|]. simpl.
  repeat (apply stateless_bind; [apply stateless_lift|]; intros ?).
  apply stateless_bind; [apply stateless_print|]. intros _. exact IH.
Qed.

Lemma stateless_lift_bind {A B} (r : result A) (k : A -> M S X B) :
  (forall a, r = Ok a -> stateless (k a)) -> stateless (lift r ≫= k).
Proof.
  intros Hk s s'. rewrite !lift_bind.
  destruct r as [a|e]; [|reflexivity]. apply (Hk a eq_refl).
Qed.

Lemma stateless_series_values (name : string) term x n :
  (forall r, pure (__call__ term r x)) ->
  (forall f, np !! name = Some (Function f) -> pure (f x)) ->
  stateless (series_values np name term x n).
Proof.
  intros Hterm Hnp. unfold series_values, getattr.
  apply stateless_lift_bind. intros a Ha.
  destruct (np !! name) as [a'|] eqn:E; [|discriminate].
  injection Ha as ->.
  apply stateless_bind.
  - destruct a as [f|v]; simpl; [|apply stateless_lift].
    apply stateless_call, Hnp. reflexivity.
  - intros rv. apply stateless_bind; [apply stateless_lift|]. intros t0.
    apply stateless_bind; [apply stateless_fill_terms, Hterm|].
    intros terms. apply stateless_ret.
Qed.

Lemma stateless_print_table (name : string) x n
    (sv : float * list float * list float * list float) :
  stateless (print_table name x n sv : M S X unit).
Proof.
  destruct sv as [[[rv terms] cum] diff]. unfold print_table.
  repeat (apply stateless_bind; [apply stateless_lift|]; intros ?).
  repeat (apply stateless_bind; [apply stateless_print|]; intros _).
  apply stateless_bind; [apply stateless_print_rows|]. intros _.
  repeat (apply stateless_bind; [apply stateless_print|]; intros _).
  apply stateless_print.
Qed.

Lemma stateless_print_maclaurin_table term x n :
  (forall r, pure (__call__ term r x)) ->
  (forall f, np !! function_name_of term = Some (Function f) ->
             pure (f x)) ->
  stateless (print_maclaurin_table np term x n).
Proof.
  intros Hterm Hnp. unfold print_maclaurin_table.
  destruct (100 <=? n); [apply stateless_print|].
  destruct (negb _); [apply stateless_print|].
  apply stateless_bind; [apply stateless_series_values; assumption|].
  intros sv. apply stateless_print_table.
Qed.

(** C9: the lookup key is [term.__name__] with the occurrences of "_term"
    removed, and the only check on it is that the attribute exists.  When
    the key names an attribute that is not a function, such as [np.pi],
    the check passes and the call ends with the TypeError of calling that
    attribute, with nothing printed: not with the unknown-function
    message. *)
Theorem C9_non_callable_attribute term x n s (v : float) :
  n < 100 ->
  np !! str_remove (__name__ term) "_term" = Some (Constant v) ->
  function_name_of term = str_remove (__name__ term) "_term" /\
  hasattr np (function_name_of term) = true /\
  print_maclaurin_table np term x n s = Run [] s (Raise TypeError).
Proof.
  intros Hn Hnp. split; [reflexivity|]. unfold hasattr, function_name_of.
  rewrite Hnp. split; [reflexivity|].
  rewrite print_maclaurin_table_unfold. cbv zeta. unfold function_name_of.
  destruct (Z.leb_spec 100 n); [lia|].
  rewrite series_values_unfold, Hnp. reflexivity.
Qed.

End Table_claims.

(* ===================================================================== *)
(** * The call on a store *)
(* ===================================================================== *)

Section Store_runs.

Context {S X : Type}.
Variable np : gmap string (attribute S X).

Lemma on_world_run {A} (c : callee S A) (a : list (list float)) (s : S) :
  on_world c (Store a s) = (Store a (c s).1, (c s).2).
Proof. unfold on_world. simpl. destruct (c s). reflexivity. Qed.

Lemma new_array_bind {B} (l : list float) (k : nat -> M (store S) X B)
    (a : list (list float)) (s : S) :
  (new_array (Ok l) ≫= k) (Store a s) = k (length a) (Store (a ++ [l]) s).
Proof. rewrite bind_run. simpl. apply run_eta. Qed.

Lemma array_at_bind {B} (p : nat) (k : list float -> M (store S) X B)
    (st : store S) :
  (array_at p ≫= k) st = k (default [] (arrays st !! p)) st.
Proof. rewrite bind_run. simpl. apply run_eta. Qed.

Lemma load_item_bind {B} (p : nat) (i : Z) (k : float -> M (store S) X B)
    (st : store S) :
  (load_item p i ≫= k) st =
  match getitem (default [] (arrays st !! p)) i with
  | Ok v => k v st
  | Raise e => Run [] st (Raise e)
  end.
Proof.
  rewrite bind_run. simpl. destruct (getitem _ i); simpl;
    [apply run_eta | reflexivity].
Qed.

Lemma store_item_bind {B} (p : nat) (i : Z) (v : float)
    (k : unit -> M (store S) X B) (st : store S) :
  (store_item p i v ≫= k) st =
  match setitem (default [] (arrays st !! p)) i v with
  | Ok l => k tt (Store (<[p := l]> (arrays st)) (world st))
  | Raise e => Run [] st (Raise e)
  end.
Proof.
  rewrite bind_run. unfold store_item.
  destruct (setitem _ i v); simpl; [apply run_eta | reflexivity].
Qed.

(** Writing an item changes the array at that address, whoever made it. *)
Lemma store_item_writes (a1 a2 : list (list float)) (l l' : list float)
    (i : Z) (v : float) (s : S) :
  setitem l i v = Ok l' ->
  store_item (X:=X) (length a1) i v (Store (a1 ++ l :: a2) s) =
  Run [] (Store (a1 ++ l' :: a2) s) (Ok tt).
Proof.
  intros H. unfold store_item. simpl.
  rewrite list_lookup_middle by reflexivity. simpl. rewrite H.
  rewrite insert_app_r_alt by lia. rewrite Nat.sub_diag. reflexivity.
Qed.

Lemma fill_terms_at_run (term : pyfunction S X) (x : X) (rs : list Z) :
  forall (l : list float) (s : S),
  exists l' : list float,
    (forall t, value (fill_terms term x rs l s) = Ok t -> l' = t) /\
    forall a1 a2 : list (list float),
      fill_terms_at term x rs (length a1) (Store (a1 ++ l :: a2) s) =
      let r := fill_terms term x rs l s in
      Run (log r) (Store (a1 ++ l' :: a2) (final r))
          (match value r with Ok _ => Ok tt | Raise e => Raise e end).
Proof.
  induction rs as [|r rs IH]; intros l s.
  - exists l. split; [intros t [= <-]; reflexivity | reflexivity].
  - cbn [fill_terms fill_terms_at].
    destruct ((__call__ term r x s).2) as [v|e] eqn:Hv.
    + destruct (setitem l r v) as [l1|e] eqn:Hset.
      * destruct (IH l1 (__call__ term r x s).1) as (l' & Hl' & Hrun).
        exists l'. split.
        { intros t. rewrite call_bind, Hv, lift_bind, Hset. simpl.
          apply Hl'. }
        intros a1 a2.
        rewrite !call_bind, on_world_run, Hv. cbn [fst snd].
        rewrite store_item_bind, lift_bind. cbn [arrays world].
        rewrite list_lookup_middle by reflexivity. change (default [] (Some l)) with l.
        rewrite Hset. cbv beta iota.
        rewrite insert_app_r_alt by lia.
        rewrite Nat.sub_diag. cbn [insert list_insert].
        rewrite Hrun. reflexivity.
      * exists l. split.
        { intros t. rewrite call_bind, Hv, lift_bind, Hset. discriminate. }
        intros a1 a2.
        rewrite !call_bind, on_world_run, Hv. cbn [fst snd].
        rewrite store_item_bind, lift_bind. cbn [arrays world].
        rewrite list_lookup_middle by reflexivity. change (default [] (Some l)) with l.
        rewrite Hset. reflexivity.
    + exists l. split.
      { intros t. rewrite call_bind, Hv. discriminate. }
      intros a1 a2. rewrite !call_bind, on_world_run, Hv. reflexivity.
Qed.


Lemma on_store_bind {A B} (m' : M (store S) X A) (m : M S X A)
    (k' : A -> M (store S) X B) (k : A -> M S X B)
    (a : list (list float)) (s : S) :
  m' (Store a s) = on_store a (m s) ->
  (forall v s1, k' v (Store a s1) = on_store a (k v s1)) ->
  (m' ≫= k') (Store a s) = on_store a ((m ≫= k) s).
Proof.
  intros Hm Hk. rewrite !bind_run, Hm. unfold on_store.
  cbn [log final value]. destruct (value (m s)); [|reflexivity].
  rewrite Hk. reflexivity.
Qed.

Lemma on_store_lift {A} (r : result A) (a : list (list float)) (s : S) :
  lift (X:=X) r (Store a s) = on_store a (lift r s).
Proof. reflexivity. Qed.

Lemma on_store_print (ln : line X) (a : list (list float)) (s : S) :
  print ln (Store a s) = on_store a (print ln s).
Proof. reflexivity. Qed.

Lemma on_store_load (p : nat) (i : Z) (a : list (list float)) (s : S) :
  load_item (X:=X) p i (Store a s) =
  on_store a (lift (getitem (default [] (a !! p)) i) s).
Proof. reflexivity. Qed.

Lemma print_rows_at_run (rs : list Z) (pt pc pd : nat) (w : Z)
    (a : list (list float)) :
  forall s : S,
    print_rows_at (X:=X) rs pt pc pd w (Store a s) =
    on_store a (print_rows rs (default [] (a !! pt)) (default [] (a !! pc))
                           (default [] (a !! pd)) w s).
Proof.
  induction rs as [|r rs IH]; intros s; [reflexivity|].
  cbn [print_rows print_rows_at].
  repeat (apply on_store_bind; [first [apply on_store_load
                                      | apply on_store_print]|];
          intros ? ?).
  apply IH.
Qed.

Lemma print_table_at_run (name : string) (x : X) (n : Z) (rv : float)
    (pt pc pd : nat) (a : list (list float)) (s : S) :
  print_table_at name x n (rv, pt, pc, pd) (Store a s) =
  on_store a (print_table name x n
                (rv, default [] (a !! pt), default [] (a !! pc),
                 default [] (a !! pd)) s).
Proof.
  unfold print_table_at, print_table.
  repeat (apply on_store_bind;
          [first [apply on_store_load | apply on_store_print
                 | apply on_store_lift | apply print_rows_at_run]|];
          intros ? ?).
  apply on_store_print.
Qed.

Lemma series_values_at_run (name : string) (term : pyfunction S X) (x : X)
    (n : Z) (s : S) :
  exists fresh : list (list float),
    (forall rv t c d,
       value (series_values np name term x n s) = Ok (rv, t, c, d) ->
       fresh = [t; c; d]) /\
    forall h : list (list float),
      series_values_at np name term x n (Store h s) =
      let r := series_values np name term x n s in
      Run (log r) (Store (h ++ fresh) (final r))
          (match value r with
           | Ok (rv, _, _, _) =>
               Ok (rv, length h, Datatypes.S (length h),
                   Datatypes.S (Datatypes.S (length h)))
           | Raise e => Raise e
           end).
Proof.
  unfold series_values, series_values_at.
  assert (Hnil : forall (A B : Type) (l : list (event X)) (s1 : S) (e : exn),
    exists fresh : list (list float),
      (forall (rv : float) (t c d : list float),
         value (Run l s1 (Raise e : result series)) = Ok (rv, t, c, d) ->
         fresh = [t; c; d]) /\
      forall h, Run (A:=series_at) l (Store h s1) (Raise e) =
        Run l (Store (h ++ fresh) s1) (Raise e)).
  { intros _ _ l s1 e. exists []. split; [discriminate|].
    intros h. rewrite app_nil_r. reflexivity. }
  destruct (getattr np name) as [[f|c]|e] eqn:Hget.
  - destruct ((f x s).2) as [rv|e] eqn:Hrv.
    + destruct (np_zeros n) as [z|e] eqn:Hz.
      * destruct (fill_terms_at_run term x (range n) z (f x s).1)
          as (l' & Hl' & Hfill).
        destruct (value (fill_terms term x (range n) z (f x s).1))
          as [t|e] eqn:Ht.
        { exists [t; np_cumsum t; array_sub (np_cumsum t) rv]. split.
          - intros rv0 t0 c0 d0. rewrite !lift_bind. cbn [call_real].
            rewrite call_bind, Hrv, lift_bind, bind_run, Ht.
            cbn [value mret M_ret]. intros [= _ <- <- <-]. reflexivity.
          - intros h. rewrite !lift_bind. cbn [call_real call_real_at].
            rewrite !call_bind, on_world_run, Hrv. cbn [fst snd].
            rewrite lift_bind, new_array_bind.
            rewrite (bind_run (fill_terms_at _ _ _ _)).
            rewrite (bind_run (fill_terms _ _ _ _)).
            rewrite (Hfill h []). cbv zeta. rewrite !Ht. cbn [log final value].
            rewrite (Hl' t eq_refl).
            rewrite array_at_bind. cbn [arrays].
            rewrite list_lookup_middle by reflexivity.
            change (default [] (Some t)) with t.
            rewrite new_array_bind, array_at_bind. cbn [arrays].
            rewrite (list_lookup_middle (h ++ [t]) [] (np_cumsum t))
              by (rewrite length_app; simpl; lia).
            change (default [] (Some (np_cumsum t))) with (np_cumsum t).
            rewrite new_array_bind. cbn [mret M_ret log final value].
            rewrite !length_app. cbn [length].
            rewrite <- !app_assoc. cbn [app].
            rewrite !app_nil_r.
            repeat f_equal; lia. }
        { exists [l']. split.
          - intros rv0 t0 c0 d0. rewrite !lift_bind. cbn [call_real].
            rewrite call_bind, Hrv, lift_bind, bind_run, Ht.
            discriminate.
          - intros h. rewrite !lift_bind. cbn [call_real call_real_at].
            rewrite !call_bind, on_world_run, Hrv. cbn [fst snd].
            rewrite lift_bind, new_array_bind.
            rewrite (bind_run (fill_terms_at _ _ _ _)).
            rewrite (bind_run (fill_terms _ _ _ _)).
            rewrite (Hfill h []). cbv zeta. rewrite !Ht. reflexivity. }
      * destruct (Hnil unit unit [CallReal name x] (f x s).1 e)
          as (fresh & Hf & Hh).
        exists fresh. split.
        { intros rv0 t0 c0 d0. rewrite !lift_bind. cbn [call_real].
          rewrite call_bind, Hrv, lift_bind. apply Hf. }
        intros h. rewrite !lift_bind. cbn [call_real call_real_at].
        rewrite !call_bind, on_world_run, Hrv. cbn [fst snd].
        rewrite lift_bind, bind_run. cbn [new_array log final value].
        apply Hh.
    + destruct (Hnil unit unit [CallReal name x] (f x s).1 e)
        as (fresh & Hf & Hh).
      exists fresh. split.
      { intros rv0 t0 c0 d0. rewrite !lift_bind. cbn [call_real].
        rewrite call_bind, Hrv. apply Hf. }
      intros h. rewrite !lift_bind. cbn [call_real call_real_at].
      rewrite !call_bind, on_world_run, Hrv. apply Hh.
  - destruct (Hnil unit unit [] s TypeError) as (fresh & Hf & Hh).
    exists fresh. split.
    { intros rv0 t0 c0 d0. rewrite !lift_bind. cbn [call_real].
      rewrite lift_bind. apply Hf. }
    intros h. rewrite !lift_bind. cbn [call_real call_real_at].
    rewrite !lift_bind. apply Hh.
  - destruct (Hnil unit unit [] s e) as (fresh & Hf & Hh).
    exists fresh. split.
    { intros rv0 t0 c0 d0. rewrite !lift_bind. apply Hf. }
    intros h. rewrite !lift_bind. apply Hh.
Qed.

Lemma print_maclaurin_table_at_run (term : pyfunction S X) (x : X) (n : Z)
    (s : S) :
  exists fresh : list (list float),
    forall h : list (list float),
      print_maclaurin_table_at np term x n (Store h s) =
      on_store (h ++ fresh) (print_maclaurin_table np term x n s).
Proof.
  unfold print_maclaurin_table_at, print_maclaurin_table.
  destruct (100 <=? n).
  { exists []. intros h. rewrite app_nil_r. reflexivity. }
  cbv zeta. destruct (negb (hasattr np (function_name_of term))).
  { exists []. intros h. rewrite app_nil_r. reflexivity. }
  destruct (series_values_at_run (function_name_of term) term x n s)
    as (fresh & Hfresh & Hrun).
  exists fresh. intros h. rewrite !bind_run, Hrun. cbv zeta.
  cbn [log final value].
  destruct (value (series_values np (function_name_of term) term x n s))
    as [[[[rv t] c] d]|e]; [|reflexivity].
  rewrite (Hfresh rv t c d eq_refl), print_table_at_run.
  assert (H0 : (h ++ [t; c; d]) !! length h = Some t)
    by (apply list_lookup_middle; reflexivity).
  assert (H1 : (h ++ [t; c; d]) !! Datatypes.S (length h) = Some c).
  { rewrite lookup_app_r by lia.
    replace (Datatypes.S (length h) - length h)%nat with 1%nat by lia.
    reflexivity. }
  assert (H2 : (h ++ [t; c; d]) !! Datatypes.S (Datatypes.S (length h))
               = Some d).
  { rewrite lookup_app_r by lia.
    replace (Datatypes.S (Datatypes.S (length h)) - length h)%nat
      with 2%nat by lia.
    reflexivity. }
  rewrite H0, H1, H2. reflexivity.
Qed.

(** C7: the call keeps no state.  Run on any store, it leaves every array
    that was there as it was and only adds arrays of its own, the same
    ones whatever the store held; its log, its result and its effect on
    the world are those of the evaluation on lists, so none of them
    depends on the arrays in the store.  With a term function and a
    reference function that are pure, the world is left as it was, and a
    second call with the same arguments, run on the store the first call
    left, has the same log and the same result and adds the same arrays
    again. *)
Theorem C7_deterministic_and_stateless (term : pyfunction S X) (x : X)
    (n : Z) (s : S) :
  exists fresh : list (list float),
    (forall h : list (list float),
       let r := print_maclaurin_table_at np term x n (Store h s) in
       let r0 := print_maclaurin_table np term x n s in
       arrays (final r) = h ++ fresh /\
       log r = log r0 /\ value r = value r0 /\ world (final r) = final r0) /\
    ((forall i, pure (__call__ term i x)) ->
     (forall f, np !! function_name_of term = Some (Function f) ->
                pure (f x)) ->
     forall h : list (list float),
       let r := print_maclaurin_table_at np term x n (Store h s) in
       let r2 := print_maclaurin_table_at np term x n (final r) in
       world (final r) = s /\
       log r2 = log r /\ value r2 = value r /\
       world (final r2) = s /\
       arrays (final r2) = (h ++ fresh) ++ fresh).
Proof.
  destruct (print_maclaurin_table_at_run term x n s) as (fresh & Hrun).
  exists fresh. split.
  - intros h. cbv zeta. rewrite Hrun. auto.
  - intros Hterm Hnp h. cbv zeta. rewrite (Hrun h).
    pose proof (stateless_final _ s
                  (stateless_print_maclaurin_table np term x n Hterm Hnp))
      as Hfinal.
    unfold on_store. cbn [log final value world arrays].
    rewrite Hfinal, (Hrun (h ++ fresh)).
    unfold on_store. cbn [log final value world arrays]. auto.
Qed.

End Store_runs.

(** The notebook's call on a store that holds one array, the world a
    counter at 3: the array is kept, three arrays are added, and a second
    call repeats the first. *)
Lemma C7_stateless_witness :
  let r := print_maclaurin_table_at (S:=nat) Sample.np Sample.exp_term_fn
             (PyInt 1) 6 (Store [[F64.one]] 3%nat) in
  let r2 := print_maclaurin_table_at (S:=nat) Sample.np Sample.exp_term_fn
              (PyInt 1) 6 (final r) in
  world (final r) = 3%nat /\ log r2 = log r /\ value r2 = value r /\
  arrays (final r) !! 0%nat = Some [F64.one] /\
  length (arrays (final r)) = 4%nat.
Proof.
  destruct (C7_deterministic_and_stateless (S:=nat) Sample.np
              Sample.exp_term_fn (PyInt 1) 6 3%nat) as (fresh & H1 & H2).
  destruct (H1 [[F64.one]]) as (Harr & _).
  destruct (H2 ltac:(intros r; exists (exp_term Sample.pow r (PyInt 1));
                     reflexivity)
               ltac:(intros f Hf; injection Hf as <-;
                     exists (Sample.np_exp (PyInt 1)); reflexivity)
               [[F64.one]]) as (Hw & Hl & Hv & _).
  cbv zeta. split; [exact Hw|]. split; [exact Hl|]. split; [exact Hv|].
  split; [rewrite Harr; reflexivity | vm_compute; reflexivity].
Defined.

(* ===================================================================== *)
(** * The exponential series at 1 *)
(* ===================================================================== *)

Section Exponential.

Context {S : Type}.

Variable np : gmap string (attribute S pynum).
Variable libm_pow : float -> float -> float.

Lemma exp_term_6 (i : Z) :
  0 <= i < 6 ->
  exp_term libm_pow i (PyInt 1) =
  Ok (default F64.zero (exp_terms_6 !! Z.to_nat i)).
Proof.
  intros Hi.
  assert (i = 0 \/ i = 1 \/ i = 2 \/ i = 3 \/ i = 4 \/ i = 5)
    as [->|[->|[->|[->|[->| ->]]]]] by lia; vm_compute; reflexivity.
Qed.

(** C8 (as amended): with [np.exp(1)] the double nearest to e, evaluating
    [exp_term] at x = 1 with six terms gives cumulative[5] within 5e-13 of
    2.716666666667 and error[5] = cumulative[5] - e within 5e-7 of
    -0.001615; the sixth row of the table shows these values. *)
Theorem C8_exp_at_one (f : pynum -> callee S float) (s s1 : S) :
  let term := exp_term_obj libm_pow in
  np !! "exp" = Some (Function f) ->
  f (PyInt 1) s = (s1, Ok F64.e) ->
  function_name_of term = "exp" /\
  exists (terms cum diff : list float) (t5 c5 d5 : float),
    value (series_values np "exp" term (PyInt 1) 6 s) =
      Ok (F64.e, terms, cum, diff) /\
    terms !! 5%nat = Some t5 /\
    cum !! 5%nat = Some c5 /\
    diff !! 5%nat = Some d5 /\
    d5 = F64.sub c5 F64.e /\
    (Qabs (F64.to_Q c5 - 2.716666666667) <= 0.0000000000005)%Q /\
    (Qabs (F64.to_Q d5 - - 0.001615) <= 0.0000005)%Q /\
    printed_rows (log (print_maclaurin_table np term (PyInt 1) 6 s))
      !! 5%nat = Some (Row 6 t5 c5 d5 15).
Proof.
  intros term Hnp Hf. split; [reflexivity|].
  pose proof (series_values_pure np "exp" term (PyInt 1) 6 s f s1 F64.e
    (fun i => default F64.zero (exp_terms_6 !! Z.to_nat i))
    ltac:(lia) Hnp Hf) as Hsv.
  assert (Hterms : (fun i => default F64.zero (exp_terms_6 !! Z.to_nat i))
                   <$> range 6 = exp_terms_6) by reflexivity.
  rewrite Hterms in Hsv.
  rewrite Hsv by (intros i s' Hi; simpl; unfold pure_callee;
                  rewrite exp_term_6 by exact Hi; reflexivity).
  exists exp_terms_6, (np_cumsum exp_terms_6),
    (array_sub (np_cumsum exp_terms_6) F64.e),
    (S754_finite false 4803839602528529 (-59)),
    (S754_finite false 6117389493844923 (-51)),
    (S754_finite true 7448619055411200 (-62)).
  split; [reflexivity|]. split; [reflexivity|].
  split; [vm_compute; reflexivity|]. split; [vm_compute; reflexivity|].
  split; [vm_compute; reflexivity|].
  split; [vm_compute; discriminate|]. split; [vm_compute; discriminate|].
  rewrite print_maclaurin_table_unfold. cbv zeta.
  change (function_name_of term) with "exp".
  change (100 <=? 6) with false. cbv iota. rewrite Hnp.
  rewrite Hsv by (intros i s' Hi; simpl; unfold pure_callee;
                  rewrite exp_term_6 by exact Hi; reflexivity).
  cbn [value final log].
  rewrite print_table_run by (try reflexivity; lia).
  set (tl := table_lines _ _ _). vm_compute in tl. subst tl.
  cbn [value final log]. rewrite printed_rows_app.
  vm_compute. reflexivity.
Qed.

End Exponential.

(* ===================================================================== *)
(** * The Lotka-Volterra derivatives *)
(* ===================================================================== *)

Lemma mul_zero_r (a y : float) :
  F64.is_finite a = true -> F64.is_zero y = true ->
  F64.is_zero (F64.mul a y) = true.
Proof.
  intros Ha Hy. destruct y; try discriminate.
  destruct a; try discriminate; reflexivity.
Qed.

(** C10 (as amended): for every vector [y, z], time t and parameter beta,
    the function returns the pair [(z - beta) * y, (1 - y) * z] in
    binary64 arithmetic; the result does not depend on t; when y is zero
    and z - beta is finite the first component is zero, and when z is zero
    and 1 - y is finite the second component is zero. *)
Theorem C10_population_derivatives {T} (y z beta : float) (t t' : T) :
  population_derivatives [y; z] t beta =
    Ok [F64.mul (F64.sub z beta) y; F64.mul (F64.sub F64.one y) z] /\
  population_derivatives [y; z] t beta =
    population_derivatives [y; z] t' beta /\
  (F64.is_zero y = true -> F64.is_finite (F64.sub z beta) = true ->
   F64.is_zero (F64.mul (F64.sub z beta) y) = true) /\
  (F64.is_zero z = true -> F64.is_finite (F64.sub F64.one y) = true ->
   F64.is_zero (F64.mul (F64.sub F64.one y) z) = true).
Proof.
  split; [reflexivity|]. split; [reflexivity|].
  split; intros H0 Hfin; apply mul_zero_r; assumption.
Qed.

(* ===================================================================== *)
(** * The claims on the sample environment *)
(* ===================================================================== *)

Lemma sample_exp_term_at_1 (r : Z) :
  0 <= r < 99 -> exp_term Sample.pow r (PyInt 1) = Ok (Sample.exp_at_1 r).
Proof.
  intros Hr.
  assert (H : forallb (fun i => is_ok (exp_term Sample.pow i (PyInt 1)))
                      (range 99) = true) by (vm_compute; reflexivity).
  rewrite forallb_forall in H. specialize (H r).
  unfold Sample.exp_at_1.
  destruct (exp_term Sample.pow r (PyInt 1)); [reflexivity|].
  discriminate H. apply list_elem_of_In, elem_of_seqZ. lia.
Qed.

(** ** The derived name *)

Lemma function_name_examples :
  str_remove "exp_term" "_term" = "exp"%string /\
  str_remove "pi_term" "_term" = "pi"%string /\
  str_remove "my_term_of_term_exp" "_term" = "my_of_exp"%string /\
  str_remove "a_te_termrm" "_term" = "a_term"%string.
Proof. repeat split; vm_compute; reflexivity. Qed.

(** ** A reference value that is not a number stops the table *)

(** [np.sqrt(-1.0)] is NaN: the three terms are evaluated, then
    [int(real_value)] raises ValueError before any line is printed. *)
Lemma nan_reference_prints_no_table :
  print_maclaurin_table (S:=unit) Sample.np Sample.sqrt_term_fn
                        (PyFloat (SFopp F64.one)) 3 tt
  = Run [CallReal "sqrt" (PyFloat (SFopp F64.one));
         CallTerm 0 (PyFloat (SFopp F64.one));
         CallTerm 1 (PyFloat (SFopp F64.one));
         CallTerm 2 (PyFloat (SFopp F64.one))] tt (Raise ValueError).
Proof. vm_compute. reflexivity. Qed.

(** ** The notebook's call, [print_maclaurin_table(x=1, term=exp_term)] *)

(** C1, counterexample: with [max_terms = 99] the notebook's own call is
    not rejected; it returns after 99 term evaluations and 99 rows. *)
Lemma C1_max_terms_99_counterexample :
  let r := print_maclaurin_table (S:=unit) Sample.np Sample.exp_term_fn
                                 (PyInt 1) 99 tt in
  r <> Run [Print TooManyTerms] tt (Ok tt) /\
  value r = Ok tt /\
  length (printed_rows (log r)) = 99%nat /\
  term_calls (log r) = range 99.
Proof.
  intros r. vm_compute in r. subst r.
  split; [discriminate|]. split; [reflexivity|].
  split; vm_compute; reflexivity.
Qed.

(** The ceiling on the notebook's call: 100 terms are refused, 99 are
    evaluated. *)
Lemma C1_ceiling_witness :
  print_maclaurin_table (S:=unit) Sample.np Sample.exp_term_fn (PyInt 1) 100 tt
    = Run [Print TooManyTerms] tt (Ok tt) /\
  (TooManyTerms ∉
     printed (log (print_maclaurin_table (S:=unit) Sample.np
                     Sample.exp_term_fn (PyInt 1) 99 tt))) /\
  exists terms cum diff,
    value (series_values (S:=unit) Sample.np "exp" Sample.exp_term_fn
                         (PyInt 1) 99 tt) = Ok (F64.e, terms, cum, diff) /\
    length terms = 99%nat.
Proof.
  split.
  { apply (C1_ceiling_is_100 Sample.np Sample.exp_term_fn (PyInt 1) 100 tt).
    lia. }
  split.
  { apply (C1_ceiling_is_100 Sample.np Sample.exp_term_fn (PyInt 1) 99 tt).
    lia. }
  destruct (C1_ceiling_is_100 (S:=unit) Sample.np Sample.exp_term_fn
              (PyInt 1) 99 tt) as (_ & _ & H & _).
  destruct (H ltac:(lia) (fun x => pure_callee (Sample.np_exp x)) tt F64.e
              Sample.exp_at_1 eq_refl eq_refl)
    as (terms & cum & diff & Hv & Hlen & _).
  { intros i s' Hi. simpl. unfold pure_callee.
    rewrite sample_exp_term_at_1 by lia. reflexivity. }
  exists terms, cum, diff. split; [exact Hv | exact Hlen].
Defined.

(** Six terms asked for, six values returned, one call per index. *)
Lemma C2_rows_witness :
  series_values (S:=unit) Sample.np "exp" Sample.exp_term_fn (PyInt 1) 6 tt =
  Run (CallReal "exp" (PyInt 1)
       :: ((fun r => CallTerm r (PyInt 1)) <$> range 6)) tt
      (Ok (F64.e, Sample.exp_at_1 <$> range 6,
           np_cumsum (Sample.exp_at_1 <$> range 6),
           array_sub (np_cumsum (Sample.exp_at_1 <$> range 6)) F64.e)).
Proof.
  apply (C2_exactly_max_terms_rows (S:=unit) Sample.np Sample.exp_term_fn
           (PyInt 1) 6 tt (fun x => pure_callee (Sample.np_exp x)) tt F64.e
           Sample.exp_at_1).
  - lia.
  - reflexivity.
  - reflexivity.
  - intros i s' Hi. simpl. unfold pure_callee.
    rewrite sample_exp_term_at_1 by lia. reflexivity.
Defined.

(** The sixth cumulative sum of the notebook's call is the prefix sum of
    its six terms. *)
Lemma C3_prefix_sums_witness :
  exists (rv : float) (terms cum diff : list float),
    value (series_values (S:=unit) Sample.np "exp" Sample.exp_term_fn
                         (PyInt 1) 6 tt) = Ok (rv, terms, cum, diff) /\
    cum !! 5%nat = prefix_sum terms 5.
Proof.
  exists F64.e, exp_terms_6, (np_cumsum exp_terms_6),
    (array_sub (np_cumsum exp_terms_6) F64.e).
  assert (Hv : value (series_values (S:=unit) Sample.np "exp"
                        Sample.exp_term_fn (PyInt 1) 6 tt) =
               Ok (F64.e, exp_terms_6, np_cumsum exp_terms_6,
                   array_sub (np_cumsum exp_terms_6) F64.e))
    by (vm_compute; reflexivity).
  split; [exact Hv|].
  destruct (C3_prefix_sums (S:=unit) Sample.np Sample.exp_term_fn
              (PyInt 1) 6 tt) as [H _].
  destruct (H _ _ _ _ Hv) as [_ H5].
  apply H5. simpl. lia.
Defined.

(** The notebook's call asks for [np.exp(1)] once. *)
Lemma C4_reference_witness :
  exists (terms cum diff : list float),
    value (series_values (S:=unit) Sample.np "exp" Sample.exp_term_fn
                         (PyInt 1) 6 tt) = Ok (F64.e, terms, cum, diff) /\
    real_calls (log (series_values (S:=unit) Sample.np "exp"
                       Sample.exp_term_fn (PyInt 1) 6 tt))
      = [("exp"%string, PyInt 1)] /\
    length diff = length cum.
Proof.
  exists exp_terms_6, (np_cumsum exp_terms_6),
    (array_sub (np_cumsum exp_terms_6) F64.e).
  assert (Hv : value (series_values (S:=unit) Sample.np "exp"
                        Sample.exp_term_fn (PyInt 1) 6 tt) =
               Ok (F64.e, exp_terms_6, np_cumsum exp_terms_6,
                   array_sub (np_cumsum exp_terms_6) F64.e))
    by (vm_compute; reflexivity).
  split; [exact Hv|].
  destruct (C4_single_reference_value (S:=unit) Sample.np Sample.exp_term_fn
              (PyInt 1) 6 tt) as [H _].
  destruct (H _ _ _ _ Hv) as (f & _ & _ & Hcalls & Hlen & _).
  split; [exact Hcalls | exact Hlen].
Defined.

(** C5, counterexample: with [max_terms = 0] the call is not rejected with
    the too-many-terms message; the reference function is called, and the
    call ends with IndexError. *)
Lemma C5_max_terms_0_counterexample :
  print_maclaurin_table (S:=unit) Sample.np Sample.exp_term_fn (PyInt 1) 0 tt
  = Run [CallReal "exp" (PyInt 1)] tt (Raise IndexError).
Proof. vm_compute. reflexivity. Qed.

(** A negative count: [np.exp(1)] is computed, then [np.zeros(-1)]
    raises ValueError. *)
Lemma C5_non_positive_witness :
  print_maclaurin_table (S:=unit) Sample.np Sample.exp_term_fn
                        (PyInt 1) (-1) tt
  = Run [CallReal "exp" (PyInt 1)] tt (Raise ValueError).
Proof.
  apply (C5_non_positive_max_terms (S:=unit) Sample.np Sample.exp_term_fn
           (PyInt 1) (-1) tt).
  lia.
Defined.

(** [tanh_term] against a namespace without [tanh]. *)
Lemma C6_unknown_function_witness :
  print_maclaurin_table (S:=unit) Sample.np Sample.tanh_term_fn (PyInt 1) 5 tt
  = Run [Print (UnknownFunction "tanh")] tt (Ok tt).
Proof.
  apply (C6_unknown_function (S:=unit) Sample.np Sample.tanh_term_fn
           (PyInt 1) 5 tt).
  - reflexivity.
  - lia.
Defined.

(** C8, counterexample: on the notebook's call the error of the sixth row
    is -0.0016151..., more than 0.00008 away from -0.001529. *)
Lemma C8_error_counterexample :
  exists (t c d : float) (w : Z),
    printed_rows (log (print_maclaurin_table (S:=unit) Sample.np
                         Sample.exp_term_fn (PyInt 1) 6 tt)) !! 5%nat
      = Some (Row 6 t c d w) /\
    (0.00008 < Qabs (F64.to_Q d - - 0.001529))%Q /\
    ~ (Qabs (F64.to_Q d - - 0.001529) <= 0.0000005)%Q.
Proof.
  do 4 eexists. split; [vm_compute; reflexivity|].
  split; [vm_compute; reflexivity|].
  vm_compute. intros H. apply H. reflexivity.
Qed.

(** The sixth row of the notebook's call with six terms. *)
Lemma C8_exp_at_one_witness :
  exists (t5 c5 d5 : float),
    printed_rows (log (print_maclaurin_table (S:=unit) Sample.np
                         Sample.exp_term_fn (PyInt 1) 6 tt)) !! 5%nat
      = Some (Row 6 t5 c5 d5 15) /\
    (Qabs (F64.to_Q d5 - - 0.001615) <= 0.0000005)%Q.
Proof.
  destruct (C8_exp_at_one (S:=unit) Sample.np Sample.pow
              (fun x => pure_callee (Sample.np_exp x)) tt tt eq_refl eq_refl)
    as (_ & terms & cum & diff & t5 & c5 & d5 & _ & _ & _ & _ & _ & _ & Hd & Hrow).
  exists t5, c5, d5. split; [exact Hrow | exact Hd].
Defined.

(** [pi_term]: [np.pi] exists and is a float. *)
Lemma C9_pi_term_witness :
  print_maclaurin_table (S:=unit) Sample.np Sample.pi_term_fn (PyInt 1) 15 tt
  = Run [] tt (Raise TypeError).
Proof.
  apply (C9_non_callable_attribute (S:=unit) Sample.np Sample.pi_term_fn
           (PyInt 1) 15 tt F64.pi).
  - lia.
  - reflexivity.
Defined.

(** C10, counterexample: with y = 0.0, z the largest double and beta its
    opposite, z - beta overflows to infinity and the first component is
    NaN, not zero. *)
Lemma C10_zero_prey_counterexample :
  F64.is_zero F64.zero = true /\
  population_derivatives [F64.zero; F64.max_float] tt (SFopp F64.max_float)
    = Ok [S754_nan; F64.max_float] /\
  F64.is_zero S754_nan = false.
Proof. repeat split; vm_compute; reflexivity. Qed.

(** No prey with one predator, and neither prey nor predator, at
    beta = e. *)
Lemma C10_population_derivatives_witness :
  F64.is_zero (F64.mul (F64.sub F64.one F64.e) F64.zero) = true /\
  F64.is_zero (F64.mul (F64.sub F64.one F64.zero) F64.zero) = true.
Proof.
  split.
  - apply (C10_population_derivatives F64.zero F64.one F64.e tt tt);
      reflexivity.
  - apply (C10_population_derivatives F64.zero F64.zero F64.e tt tt);
      reflexivity.
Defined.

(* ===================================================================== *)
(** * More on the table printer *)
(* ===================================================================== *)

Lemma len_str_pos (n : Z) : 1 <= len_str n.
Proof.
  unfold len_str.
  destruct (Z.to_int n) as [d|d]; destruct d; simpl; lia.
Qed.

Lemma py_int_finite (f : float) :
  py_int f =
  if F64.is_finite f then Ok (F64.trunc f)
  else Raise (match f with S754_nan => ValueError | _ => OverflowError end).
Proof. destruct f; reflexivity. Qed.

Section Table_more.

Context {S X : Type}.

Variable np : gmap string (attribute S X).

Implicit Types (s : S) (x : X) (term : pyfunction S X) (n : Z).

(** The header and the footer of a table of column width [cw]. *)
Lemma table_lines_shape (name : string) x (rv : float)
    (terms cum diff : list float) (lines : list (line X)) :
  length cum = length terms -> length diff = length terms ->
  table_lines name x (rv, terms, cum, diff) = Ok lines ->
  exists (cw : Z) (rows : list (line X)),
    17 <= cw /\
    length rows = length terms /\
    (forall (i : nat) (ln : line X), rows !! i = Some ln ->
       exists t c d, ln = Row (Z.of_nat i + 1) t c d (cw - 2)) /\
    lines =
      [TableRule cw; Title name x (3 * cw + 11); TableRule cw;
       TableHeading (name +:+ "(x) so far")%string cw; TableSeparator cw]
      ++ rows
      ++ [TableSeparator cw; RealRow cw rv (cw - 2); TableBase cw].
Proof.
  intros Hc Hd H. unfold table_lines in H.
  destruct (py_int rv) as [w_real|e]; simpl in H; [|discriminate].
  destruct (getitem cum (-1)) as [last|e]; simpl in H; [|discriminate].
  destruct (py_int last) as [w_last|e]; simpl in H; [|discriminate].
  injection H as <-.
  exists (16 + Z.max (len_str w_real) (len_str w_last)),
    (table_rows 1 terms cum diff
       (16 + Z.max (len_str w_real) (len_str w_last) - 2)).
  split; [pose proof (len_str_pos w_real); lia|].
  split; [apply table_rows_length; assumption|].
  split.
  - intros i ln Hi.
    apply table_rows_lookup_inv in Hi as (t & c & d & -> & _).
    exists t, c, d. f_equal. lia.
  - simpl. unfold table_width.
    replace (1 + 6 + (1 + (16 + Z.max (len_str w_real) (len_str w_last))) * 3
             + 1)
      with (3 * (16 + Z.max (len_str w_real) (len_str w_last)) + 11) by lia.
    reflexivity.
Qed.

(** X1.  Where every function of the namespace returns a float, as
    [attribute] has it, a call never leaves a partial table: a call that
    raises has printed nothing, and a call that returns has printed the
    too-many-terms line, or the unknown-function line, or a whole table of
    [max_terms + 8] lines: five header lines, the rows numbered from 1, and
    three footer lines, all of one column width of at least 17.  All
    printing comes after all calls. *)
Theorem table_all_or_nothing term x n s :
  let name := function_name_of term in
  let r := print_maclaurin_table np term x n s in
  (forall e, value r = Raise e -> printed (log r) = []) /\
  (value r = Ok tt ->
   printed (log r) = [TooManyTerms] \/
   printed (log r) = [UnknownFunction name] \/
   exists (cw : Z) (rv : float) (rows : list (line X)),
     17 <= cw /\
     length rows = Z.to_nat n /\
     (forall (i : nat) (ln : line X), rows !! i = Some ln ->
        exists t c d, ln = Row (Z.of_nat i + 1) t c d (cw - 2)) /\
     printed (log r) =
       [TableRule cw; Title name x (3 * cw + 11); TableRule cw;
        TableHeading (name +:+ "(x) so far")%string cw; TableSeparator cw]
       ++ rows
       ++ [TableSeparator cw; RealRow cw rv (cw - 2); TableBase cw] /\
     length (printed (log r)) = Z.to_nat (n + 8)) /\
  exists calls : list (event X),
    printed calls = [] /\ log r = calls ++ (Print <$> printed (log r)).
Proof.
  intros name r.
  destruct (print_maclaurin_table_cases np term x n s)
    as [[Hn Hr] | [(Hn & Hnp & Hr) | [(Hn & Hnp & e & k & Hv & Hp & Hk & Ht & _)
       | (Hn & f & rv & terms & lines & Hnp & Hrv & Hlen & Hsv & Hl & Hr)]]];
    fold r in Hr || fold r in Hv, Hp.
  - rewrite Hr. simpl. split; [discriminate|]. split; [auto|].
    exists []. auto.
  - rewrite Hr. simpl. split; [discriminate|]. split; [auto|].
    exists []. auto.
  - split; [auto|]. split; [rewrite Hv; discriminate|].
    exists (log r). rewrite Hp. simpl. rewrite app_nil_r. auto.
  - assert (Hprinted : printed (log r) = lines).
    { rewrite Hr. simpl.
      rewrite printed_app, printed_calls, printed_prints. reflexivity. }
    split; [rewrite Hr; discriminate|]. split.
    + intros _. right. right.
      apply table_lines_shape in Hl
        as (cw & rows & Hcw & Hrows & Hrow & Hlines);
        [|rewrite ?array_sub_length, ?np_cumsum_length; reflexivity..].
      exists cw, rv, rows. rewrite Hprinted.
      repeat split; auto; [congruence|].
      rewrite Hlines, !length_app. simpl. lia.
    + exists (CallReal (function_name_of term) x
              :: ((fun i => CallTerm i x) <$> range n)).
      split; [simpl; apply printed_calls|].
      rewrite Hprinted. rewrite Hr at 1. reflexivity.
Qed.

(** ** Exceptions of the callees *)

Lemma fill_terms_raise term x (e : exn) (tf : Z -> float) (s1 s2 : S) :
  forall (m : nat) (a : nat) (j : Z) (terms : list float),
    0 <= j ->
    (a + m < length terms)%nat ->
    (forall i, Z.of_nat a <= i < Z.of_nat (a + m) ->
               __call__ term i x s1 = (s1, Ok (tf i))) ->
    __call__ term (Z.of_nat (a + m)) x s1 = (s2, Raise e) ->
    fill_terms term x (seqZ (Z.of_nat a) (Z.of_nat m + 1 + j)) terms s1 =
    Run ((fun i => CallTerm i x) <$> seqZ (Z.of_nat a) (Z.of_nat m + 1))
        s2 (Raise e).
Proof.
  induction m as [|m IH]; intros a j terms Hj Hlen Hok Hraise.
  - rewrite seqZ_cons by lia. simpl fill_terms. rewrite call_bind.
    rewrite Nat.add_0_r in Hraise. rewrite Hraise. reflexivity.
  - rewrite seqZ_cons by lia. simpl fill_terms. rewrite call_bind.
    rewrite Hok by lia. simpl.
    rewrite lift_bind, setitem_in_range by lia.
    replace (Z.pred (Z.of_nat (Datatypes.S m) + 1 + j))
      with (Z.of_nat m + 1 + j) by lia.
    replace (Z.succ (Z.of_nat a)) with (Z.of_nat (Datatypes.S a)) by lia.
    rewrite (IH (Datatypes.S a) j).
    + rewrite (seqZ_cons _ (Z.of_nat (Datatypes.S m) + 1)) by lia.
      replace (Z.pred (Z.of_nat (Datatypes.S m) + 1))
        with (Z.of_nat m + 1) by lia.
      replace (Z.succ (Z.of_nat a)) with (Z.of_nat (Datatypes.S a)) by lia.
      reflexivity.
    + exact Hj.
    + rewrite length_insert. lia.
    + intros i Hi. apply Hok. lia.
    + replace (Datatypes.S a + m)%nat with (a + Datatypes.S m)%nat by lia.
      exact Hraise.
Qed.

(** X2.  An exception of a callee ends the call with that exception and
    nothing printed.  If the reference function raises, no term is
    evaluated.  If the term function returns up to index [k - 1] and
    raises at index [k], it has been called at 0 .. k and at no later
    index. *)
Theorem callee_exception_propagates term x n s
    (f : X -> callee S float) (s1 : S) (e : exn) :
  let name := function_name_of term in
  n < 100 ->
  np !! name = Some (Function f) ->
  (f x s = (s1, Raise e) ->
   print_maclaurin_table np term x n s =
     Run [CallReal name x] s1 (Raise e)) /\
  (forall (rv : float) (tf : Z -> float) (k : Z) (s2 : S),
     f x s = (s1, Ok rv) ->
     0 <= k < n ->
     (forall i, 0 <= i < k -> __call__ term i x s1 = (s1, Ok (tf i))) ->
     __call__ term k x s1 = (s2, Raise e) ->
     print_maclaurin_table np term x n s =
       Run (CallReal name x :: ((fun i => CallTerm i x) <$> range (k + 1)))
           s2 (Raise e)).
Proof.
  intros name Hn Hnp. split.
  - intros Hf. rewrite print_maclaurin_table_unfold. cbv zeta. fold name.
    destruct (Z.leb_spec 100 n); [lia|]. rewrite Hnp.
    rewrite series_values_unfold, Hnp, Hf. reflexivity.
  - intros rv tf k s2 Hf Hk Hok Hraise.
    rewrite print_maclaurin_table_unfold. cbv zeta. fold name.
    destruct (Z.leb_spec 100 n); [lia|]. rewrite Hnp.
    rewrite series_values_unfold, Hnp, Hf. simpl.
    destruct (Z.ltb_spec n 0); [lia|]. simpl.
    pose proof (fill_terms_raise term x e tf s1 s2 (Z.to_nat k) O
                  (n - k - 1) (replicate (Z.to_nat n) F64.zero)) as Hfill.
    simpl in Hfill. change (Z.of_nat 0) with 0 in Hfill.
    rewrite Z2Nat.id in Hfill by lia.
    replace (k + 1 + (n - k - 1)) with n in Hfill by lia.
    unfold range. rewrite Hfill; [reflexivity | lia | | |].
    + rewrite length_replicate. lia.
    + intros i Hi. apply Hok. lia.
    + exact Hraise.
Qed.

(** ** When the table is printed *)

(** The whole call for a reference function that returns [rv] and a term
    function that returns [tf i] at every index. *)
Lemma print_maclaurin_table_pure term x n s
    (f : X -> callee S float) (s1 : S) (rv : float) (tf : Z -> float) :
  let name := function_name_of term in
  let terms := tf <$> range n in
  let sv := (rv, terms, np_cumsum terms, array_sub (np_cumsum terms) rv) in
  let calls := CallReal name x :: ((fun r => CallTerm r x) <$> range n) in
  0 <= n < 100 ->
  np !! name = Some (Function f) ->
  f x s = (s1, Ok rv) ->
  (forall i s', 0 <= i < n -> __call__ term i x s' = (s', Ok (tf i))) ->
  print_maclaurin_table np term x n s =
  match table_lines name x sv with
  | Ok lines => Run (calls ++ (Print <$> lines)) s1 (Ok tt)
  | Raise e => Run calls s1 (Raise e)
  end.
Proof.
  intros name terms sv calls Hn Hf Hfx Hterm.
  rewrite print_maclaurin_table_unfold. cbv zeta. fold name.
  destruct (Z.leb_spec 100 n); [lia|]. rewrite Hf.
  rewrite (series_values_pure np name term x n s f s1 rv tf)
    by (auto; lia).
  simpl. fold terms. rewrite print_table_run
    by (rewrite ?array_sub_length, ?np_cumsum_length; auto; try lia;
        unfold terms; rewrite length_fmap; apply range_length).
  fold sv. destruct (table_lines name x sv); simpl;
    rewrite ?app_nil_r; reflexivity.
Qed.

Lemma table_lines_outcome (name : string) x (rv last : float)
    (terms cum diff : list float) :
  getitem cum (-1) = Ok last ->
  let int_error := fun v : float =>
    match v with S754_nan => ValueError | _ => OverflowError end in
  (F64.is_finite rv = false ->
   table_lines (X:=X) name x (rv, terms, cum, diff) =
     Raise (int_error rv)) /\
  (F64.is_finite rv = true -> F64.is_finite last = false ->
   table_lines (X:=X) name x (rv, terms, cum, diff) =
     Raise (int_error last)) /\
  (F64.is_finite rv = true -> F64.is_finite last = true ->
   is_ok (table_lines (X:=X) name x (rv, terms, cum, diff)) = true).
Proof.
  intros Hget int_error. unfold table_lines. rewrite Hget.
  repeat split; intros Hrv; try intros Hlast;
    destruct rv; try discriminate; destruct last; try discriminate;
    reflexivity.
Qed.

(** X3.  With a reference function that returns [rv] and a term function
    that returns at every index, all [max_terms] terms are evaluated, and
    then the table is printed exactly when [rv] and the last cumulative sum
    are finite.  Otherwise the call ends, with nothing printed, with the
    exception of [int(...)]: ValueError for NaN and OverflowError for an
    infinity, [rv] being converted first. *)
Theorem table_printed_iff_finite term x n s
    (f : X -> callee S float) (s1 : S) (rv last : float) (tf : Z -> float) :
  let name := function_name_of term in
  let r := print_maclaurin_table np term x n s in
  let calls := CallReal name x :: ((fun i => CallTerm i x) <$> range n) in
  let int_error := fun v : float =>
    match v with S754_nan => ValueError | _ => OverflowError end in
  0 < n < 100 ->
  np !! name = Some (Function f) ->
  f x s = (s1, Ok rv) ->
  (forall i s', 0 <= i < n -> __call__ term i x s' = (s', Ok (tf i))) ->
  np_cumsum (tf <$> range n) !! Z.to_nat (n - 1) = Some last ->
  term_calls (log r) = range n /\
  (F64.is_finite rv = true -> F64.is_finite last = true ->
   value r = Ok tt /\ length (printed (log r)) = Z.to_nat (n + 8)) /\
  (F64.is_finite rv = false -> r = Run calls s1 (Raise (int_error rv))) /\
  (F64.is_finite rv = true -> F64.is_finite last = false ->
   r = Run calls s1 (Raise (int_error last))).
Proof.
  intros name r calls int_error Hn Hf Hfx Hterm Hlast.
  pose proof (print_maclaurin_table_pure term x n s f s1 rv tf
                ltac:(lia) Hf Hfx Hterm) as Hrun.
  fold name in Hrun. fold r in Hrun. fold calls in Hrun.
  set (terms := tf <$> range n) in *.
  assert (Hlen : length terms = Z.to_nat n)
    by (unfold terms; rewrite length_fmap; apply range_length).
  assert (Hget : getitem (np_cumsum terms) (-1) = Ok last).
  { unfold getitem, index. rewrite np_cumsum_length, Hlen.
    destruct (Z.leb_spec 0 (-1)); [lia|]. simpl.
    destruct (Z.leb_spec (- Z.of_nat (Z.to_nat n)) (-1)); [|lia]. simpl.
    replace (Z.to_nat (Z.of_nat (Z.to_nat n) + -1)) with (Z.to_nat (n - 1))
      by lia.
    rewrite Hlast. reflexivity. }
  assert (Hcalls : term_calls calls = range n)
    by (unfold calls; simpl; apply term_calls_calls).
  destruct (table_lines_outcome name x rv last terms (np_cumsum terms)
              (array_sub (np_cumsum terms) rv) Hget) as (Hbad & Hbad' & Hgood).
  destruct (table_lines name x _) as [lines|e] eqn:Hl.
  - (* a table *)
    pose proof Hl as Hshape.
    apply table_lines_shape in Hshape
      as (cw & rows & _ & Hrows & _ & Hlines);
      [|rewrite ?array_sub_length, ?np_cumsum_length; reflexivity..].
    split; [|split; [|split]].
    + rewrite Hrun. simpl. change (term_calls (_ :: _ ++ _))
        with (term_calls (calls ++ (Print <$> lines))).
      rewrite term_calls_app, term_calls_prints, app_nil_r. exact Hcalls.
    + intros _ _. rewrite Hrun. split; [reflexivity|]. simpl.
      change (printed (_ :: _ ++ _))
        with (printed (calls ++ (Print <$> lines))).
      rewrite printed_app, printed_prints.
      unfold calls. simpl. rewrite printed_calls. simpl.
      rewrite Hlines, !length_app, Hrows, Hlen. simpl. lia.
    + intros Hrv. apply Hbad in Hrv. discriminate.
    + intros Hrv Hlast'. specialize (Hbad' Hrv Hlast'). discriminate.
  - (* no table *)
    split; [rewrite Hrun; exact Hcalls|].
    split; [|split].
    + intros Hrv Hlast'. specialize (Hgood Hrv Hlast'). discriminate.
    + intros Hrv. apply Hbad in Hrv. injection Hrv as ->. exact Hrun.
    + intros Hrv Hlast'. specialize (Hbad' Hrv Hlast').
      injection Hbad' as ->. exact Hrun.
Qed.

End Table_more.

(* ===================================================================== *)
(** * The name looked up in NumPy *)
(* ===================================================================== *)

Lemma remove_from_no_occurrence (old s : string) :
  occurs old s = false -> remove_from old O s = s.
Proof.
  induction s as [|c s IH]; [reflexivity|].
  intros H. change (occurs old (String c s))
    with (String.prefix old (String c s) || occurs old s) in H.
  apply orb_false_iff in H as [Hp Ho].
  cbn [remove_from]. rewrite Hp, IH by exact Ho. reflexivity.
Qed.

Lemma remove_term_after_plain (a b : string) :
  has_char underscore a = false ->
  remove_from "_term" O (a +:+ "_term" +:+ b) =
  (a +:+ remove_from "_term" O b)%string.
Proof.
  induction a as [|c a IH]; intros H.
  - destruct b; reflexivity.
  - cbn [has_char] in H. apply orb_false_iff in H as [Hc Ha].
    change ((String c a +:+ "_term" +:+ b)%string)
      with (String c (a +:+ "_term" +:+ b)%string).
    cbn [remove_from].
    assert (String.prefix "_term" (String c (a +:+ "_term" +:+ b)) = false)
      as ->.
    { cbn [String.prefix].
      match goal with
      | |- context [Ascii.ascii_dec ?u c] =>
          destruct (Ascii.ascii_dec u c) as [<-|]
      end; [|reflexivity].
      vm_compute in Hc. discriminate Hc. }
    rewrite IH by exact Ha. reflexivity.
Qed.

(** X4.  The name looked up is the function's name with "_term" taken
    out: a name in which "_term" does not occur is looked up as it is; in
    a name [a ++ "_term" ++ b], with no underscore in [a], that occurrence
    goes and the removal carries on in [b]; so [a ++ "_term"] is looked up
    as [a]. *)
Theorem function_name_removes_term {S X} (term : pyfunction S X)
    (a b : string) :
  (occurs "_term" (__name__ term) = false ->
   function_name_of term = __name__ term) /\
  (has_char underscore a = false ->
   __name__ term = (a +:+ "_term" +:+ b)%string ->
   function_name_of term = (a +:+ str_remove b "_term")%string) /\
  (has_char underscore a = false ->
   __name__ term = (a +:+ "_term")%string ->
   function_name_of term = a).
Proof.
  unfold function_name_of, str_remove. split; [|split].
  - apply remove_from_no_occurrence.
  - intros Ha ->. apply remove_term_after_plain, Ha.
  - intros Ha ->.
    change (a +:+ "_term")%string with (a +:+ "_term" +:+ "")%string.
    rewrite (remove_term_after_plain a "" Ha).
    clear. induction a as [|c a IH]; [reflexivity|].
    change (String c a +:+ remove_from "_term" 0 "")%string
      with (String c (a +:+ remove_from "_term" 0 "")%string).
    rewrite IH. reflexivity.
Qed.

(* ===================================================================== *)
(** * The sine and cosine generators *)
(* ===================================================================== *)

Section Trigonometric.

Context {S : Type}.

Variable np : gmap string (attribute S pynum).
Variable libm_pow : float -> float -> float.

Lemma sin_term_at_zero (i : Z) :
  0 <= i < 10 -> sin_term libm_pow i (PyInt 0) = Ok F64.zero.
Proof.
  intros Hi.
  assert (i = 0 \/ i = 1 \/ i = 2 \/ i = 3 \/ i = 4 \/ i = 5 \/ i = 6 \/
          i = 7 \/ i = 8 \/ i = 9)
    as [->|[->|[->|[->|[->|[->|[->|[->|[->| ->]]]]]]]]] by lia;
    vm_compute; reflexivity.
Qed.

(** X5.  The sine series at the int 0, with up to ten terms and
    [np.sin(0)] equal to 0.0: the table is printed, and every row shows a
    term of 0.0, a sum of 0.0 and an error of 0.0. *)
Theorem sine_table_at_zero (f : pynum -> callee S float) (s s1 : S) (n : Z) :
  let r := print_maclaurin_table np (sin_term_obj libm_pow) (PyInt 0) n s in
  0 < n <= 10 ->
  np !! "sin" = Some (Function f) ->
  f (PyInt 0) s = (s1, Ok F64.zero) ->
  value r = Ok tt /\
  printed_rows (log r) =
    (fun i => Row (i + 1) F64.zero F64.zero F64.zero 15) <$> range n.
Proof.
  intros r Hn Hnp Hf. subst r.
  rewrite (print_maclaurin_table_pure np (sin_term_obj libm_pow) (PyInt 0)
             n s f s1 F64.zero (fun _ => F64.zero));
    [| lia | exact Hnp | exact Hf
     | intros i s' Hi; simpl; unfold pure_callee;
       rewrite sin_term_at_zero by lia; reflexivity].
  assert (n = 1 \/ n = 2 \/ n = 3 \/ n = 4 \/ n = 5 \/ n = 6 \/ n = 7 \/
          n = 8 \/ n = 9 \/ n = 10)
    as [->|[->|[->|[->|[->|[->|[->|[->|[->| ->]]]]]]]]] by lia;
    vm_compute; split; reflexivity.
Qed.

(** ** Signs *)

Lemma binary_round_aux_opp (sx : bool) (mx ex : Z) (lx : location) :
  binary_round_aux F64.prec F64.emax (negb sx) mx ex lx =
  SFopp (binary_round_aux F64.prec F64.emax sx mx ex lx).
Proof.
  unfold binary_round_aux.
  destruct (shr_fexp F64.prec F64.emax mx ex lx) as [mrs' e'].
  destruct (shr_fexp F64.prec F64.emax _ e' loc_Exact) as [mrs'' e''].
  destruct (shr_m mrs''); [reflexivity | | reflexivity].
  destruct (e'' <=? F64.emax - F64.prec)%Z; reflexivity.
Qed.

Lemma of_Z_opp (n : Z) :
  n <> 0 -> F64.of_Z (- n) = SFopp (F64.of_Z n).
Proof.
  intros Hn. unfold F64.of_Z, binary_normalize.
  destruct n as [|p|p]; [contradiction | |].
  - change (- Z.pos p) with (Z.neg p). cbv iota. unfold binary_round.
    destruct (shl_align p 0 _) as [mz ez].
    apply (binary_round_aux_opp false).
  - change (- Z.neg p) with (Z.pos p). cbv iota. unfold binary_round.
    destruct (shl_align p 0 _) as [mz ez].
    rewrite (binary_round_aux_opp false).
    destruct (binary_round_aux _ _ false _ _ _) as [[]| []| |[]]; reflexivity.
Qed.

Lemma div_opp_l (a d : float) :
  F64.div (SFopp a) d = SFopp (F64.div a d).
Proof.
  unfold F64.div.
  destruct a as [sa|sa| |sa ma ea], d as [sd|sd| |sd md ed];
    try reflexivity; simpl; try (destruct sa, sd; reflexivity).
  destruct (SFdiv_core_binary F64.prec F64.emax _ _ _ _) as [[mz ez] lz].
  replace (xorb (negb sa) sd) with (negb (xorb sa sd))
    by (destruct sa, sd; reflexivity).
  apply binary_round_aux_opp.
Qed.

Lemma py_float_fact (k : nat) :
  (k <= 20)%nat -> py_float (fact k) = Ok (F64.of_Z (fact k)).
Proof.
  intros Hk.
  do 21 (destruct k as [|k]; [vm_compute; reflexivity|]). lia.
Qed.

Lemma fact_fits (k : nat) :
  (k <= 20)%nat -> (- 2 ^ 63 <=? fact k) && (fact k <? 2 ^ 64) = true.
Proof.
  intros Hk.
  do 21 (destruct k as [|k]; [vm_compute; reflexivity|]). lia.
Qed.

Lemma wrap64_small (n : Z) : - 2 ^ 63 <= n < 2 ^ 63 -> wrap64 n = n.
Proof.
  intros H. unfold wrap64.
  rewrite Z.mod_small by lia. lia.
Qed.

Lemma np_power_int (n r : Z) :
  0 <= r -> np_power libm_pow (PyInt n) r = Ok (NpInt64 (wrap64 (n ^ r))).
Proof.
  intros Hr. unfold np_power.
  destruct (Z.ltb_spec r 0); [lia | reflexivity].
Qed.

Lemma minus_one_pow (r : Z) :
  0 <= r -> (-1) ^ r = if Z.even r then 1 else -1.
Proof.
  intros Hr. destruct (Z.even r) eqn:E.
  - apply Z.even_spec in E.
    change (-1) with (- (1)). rewrite Z.pow_opp_even by exact E.
    apply Z.pow_1_l, Hr.
  - assert (Z.odd r = true) as O by (rewrite <- Z.negb_even, E; reflexivity).
    apply Z.odd_spec in O.
    change (-1) with (- (1)). rewrite Z.pow_opp_odd by exact O.
    rewrite Z.pow_1_l by exact Hr. reflexivity.
Qed.

(** The quotient of an int power by a factorial, and the same with the
    sign [(-1) ^ r] in front. *)
Lemma signed_power_over_factorial (x r k : Z) :
  0 <= r -> 0 <= k <= 20 -> x <> 0 -> Z.abs x ^ k < 2 ^ 63 ->
  let v := F64.div (F64.of_Z (x ^ k)) (F64.of_Z (fact (Z.to_nat k))) in
  (p ← np_power libm_pow (PyInt x) k; d ← factorial k; true_divide p d)
    = Ok v /\
  (s ← np_power libm_pow (PyInt (-1)) r;
   p ← np_power libm_pow (PyInt x) k;
   d ← factorial k;
   true_divide (np_multiply s p) d)
    = Ok (if Z.even r then v else SFopp v).
Proof.
  intros Hr Hk Hx Hbound v.
  assert (Habs : Z.abs (x ^ k) < 2 ^ 63) by (rewrite Z.abs_pow; exact Hbound).
  assert (Hne : x ^ k <> 0) by (apply Z.pow_nonzero; lia).
  rewrite !np_power_int by lia.
  rewrite (wrap64_small (x ^ k)) by lia.
  unfold factorial. destruct (Z.ltb_spec k 0); [lia|].
  cbn [mbind result_bind]. unfold true_divide.
  rewrite py_float_fact by lia. cbn [mbind result_bind np_multiply].
  rewrite !fact_fits by lia.
  split; [reflexivity|].
  rewrite minus_one_pow by exact Hr.
  destruct (Z.even r).
  - rewrite (wrap64_small 1) by lia.
    rewrite Z.mul_1_l, wrap64_small by lia. reflexivity.
  - rewrite (wrap64_small (-1)) by lia.
    replace (-1 * x ^ k) with (- x ^ k) by lia.
    rewrite wrap64_small by lia.
    rewrite of_Z_opp by exact Hne. rewrite div_opp_l. reflexivity.
Qed.

(** X6.  How the generators relate.  The hyperbolic terms are the even
    and the odd terms of the exponential series.  At a non-zero int [x]
    whose power stays within int64, with the factorial within int64 too,
    the sine term is the hyperbolic sine term with the sign [(-1) ^ r], and
    the cosine term is the hyperbolic cosine term with that sign. *)
Theorem generators_relate (r : Z) :
  (forall x : pynum,
     cosh_term libm_pow r x = exp_term libm_pow (2 * r) x /\
     sinh_term libm_pow r x = exp_term libm_pow (2 * r + 1) x) /\
  (forall x : Z,
     0 <= r -> 2 * r + 1 <= 20 -> x <> 0 ->
     Z.abs x ^ (2 * r + 1) < 2 ^ 63 ->
     exists v : float,
       sinh_term libm_pow r (PyInt x) = Ok v /\
       sin_term libm_pow r (PyInt x) =
         Ok (if Z.even r then v else SFopp v)) /\
  (forall x : Z,
     0 <= r -> 2 * r <= 20 -> x <> 0 ->
     Z.abs x ^ (2 * r) < 2 ^ 63 ->
     exists v : float,
       cosh_term libm_pow r (PyInt x) = Ok v /\
       cos_term libm_pow r (PyInt x) =
         Ok (if Z.even r then v else SFopp v)).
Proof.
  split; [intros x; split; reflexivity|].
  split; intros x Hr Hk Hx Hbound; eexists;
    apply signed_power_over_factorial; auto; lia.
Qed.

End Trigonometric.

(* ===================================================================== *)
(** * More on the Lotka-Volterra derivatives *)
(* ===================================================================== *)

Lemma sub_diag (f : float) :
  F64.is_finite f = true -> F64.sub f f = S754_zero false.
Proof.
  destruct f as [[]| | |s m e]; try discriminate; try reflexivity.
  intros _. unfold F64.sub, SFsub. rewrite Z.sub_diag. reflexivity.
Qed.

(** X7.  A population vector with fewer than two entries raises
    IndexError; with two or more, only the first two are read and the
    result has exactly two entries. *)
Theorem population_vector_length {T} (populations : list float) (t : T)
    (beta : float) :
  ((length populations < 2)%nat ->
   population_derivatives populations t beta = Raise IndexError) /\
  (forall (y z : float) (rest : list float),
     populations = y :: z :: rest ->
     population_derivatives populations t beta =
       Ok [F64.mul (F64.sub z beta) y; F64.mul (F64.sub F64.one y) z]).
Proof.
  split.
  - intros Hlen. destruct populations as [|y [|z rest]];
      [reflexivity | reflexivity | simpl in Hlen; lia].
  - intros y z rest ->. unfold population_derivatives.
    change 0 with (Z.of_nat 0). change 1 with (Z.of_nat 1).
    rewrite (getitem_lookup (y :: z :: rest) 0 y) by reflexivity.
    cbn [mbind result_bind].
    rewrite (getitem_lookup (y :: z :: rest) 1 z) by reflexivity.
    reflexivity.
Qed.

(** X8.  The two stationary points of the equations are stationary in the
    code: for every finite beta, both derivatives are zero at [1, beta]
    (coexistence) and at [0, 0] (extinction). *)
Theorem stationary_points {T} (beta : float) (t : T) :
  F64.is_finite beta = true ->
  (exists y' z',
     population_derivatives [F64.one; beta] t beta = Ok [y'; z'] /\
     F64.is_zero y' = true /\ F64.is_zero z' = true) /\
  (exists y' z',
     population_derivatives [F64.zero; F64.zero] t beta = Ok [y'; z'] /\
     F64.is_zero y' = true /\ F64.is_zero z' = true).
Proof.
  intros Hb. split; do 2 eexists; (split; [reflexivity|]).
  - rewrite sub_diag by exact Hb. split; [reflexivity|].
    destruct beta as [[]| | |s m e]; try discriminate; reflexivity.
  - split; [|reflexivity].
    destruct beta as [[]| | |s m e]; try discriminate; reflexivity.
Qed.

(* ===================================================================== *)
(** * The log horn *)
(* ===================================================================== *)

Lemma W_bind_unfold {A B} (m : W A) (k : A -> W B) :
  m ≫= k =
  match m.2 with
  | Ok a => (m.1 ++ (k a).1, (k a).2)
  | Raise e => (m.1, Raise e)
  end.
Proof. destruct m as [l [a|e]]; reflexivity. Qed.

Lemma W_bind_Forall {A B} (P : horn_event -> Prop) (m : W A) (k : A -> W B) :
  Forall P m.1 -> (forall a, Forall P (k a).1) -> Forall P (m ≫= k).1.
Proof.
  intros Hm Hk. rewrite W_bind_unfold.
  destruct m.2 as [a|e]; simpl; [|exact Hm].
  apply Forall_app. split; [exact Hm | apply Hk].
Qed.

Lemma py_gt_refl (a : pynum) : py_gt a a = false.
Proof.
  destruct a as [n|f]; simpl; [apply Z.ltb_irrefl|].
  unfold SFltb, SFcompare.
  destruct f as [s|s| |s m e]; try reflexivity; destruct s;
    try reflexivity; rewrite Z.compare_refl;
    change (Pos.compare_cont Eq m m) with (m ?= m)%positive;
    rewrite Pos.compare_refl; reflexivity.
Qed.

Lemma mul_zero_l (g : float) :
  F64.is_finite g = true ->
  F64.is_zero (F64.mul (S754_zero false) g) = true.
Proof. destruct g; try discriminate; reflexivity. Qed.

Lemma py_gt_nan (other : float) :
  py_gt (PyFloat S754_nan) (PyFloat other) = false /\
  py_gt (PyFloat other) (PyFloat S754_nan) = false.
Proof. destruct other; split; reflexivity. Qed.

Lemma sub_nan (other : float) :
  F64.sub S754_nan other = S754_nan /\ F64.sub other S754_nan = S754_nan.
Proof. destruct other; split; reflexivity. Qed.

(** A range that is NaN or infinite makes [int(...)] raise. *)
Lemma py_int_mul_non_finite (range g : float) :
  F64.is_finite range = false ->
  py_int (F64.mul range g) = Raise ValueError \/
  py_int (F64.mul range g) = Raise OverflowError.
Proof.
  destruct range as [s|s| |s m e]; try discriminate; intros _;
    destruct g; simpl; auto.
Qed.

Lemma has_shape_map (f : float -> float) (rows cols : nat) (g : grid) :
  has_shape rows cols g -> has_shape rows cols (grid_map f g).
Proof.
  intros [Hr Hc]. split; [unfold grid_map; rewrite length_map; exact Hr|].
  unfold grid_map. apply Forall_fmap. eapply Forall_impl; [exact Hc|].
  intros row Hrow. simpl. rewrite length_map. exact Hrow.
Qed.

Lemma has_shape_map2 (f : float -> float -> float) (rows cols : nat) :
  forall g h : grid,
    has_shape rows cols g -> has_shape rows cols h ->
    has_shape rows cols (grid_map2 f g h).
Proof.
  intros g h [Hg Hgc] [Hh Hhc]. unfold grid_map2. split.
  - rewrite length_zip_with. lia.
  - clear Hg Hh. revert h Hhc.
    induction Hgc as [|row g Hrow Hgc IH]; intros h Hhc; [constructor|].
    destruct Hhc as [|row' h Hrow' Hhc]; [constructor|].
    simpl. constructor; [rewrite length_zip_with; lia | apply IH, Hhc].
Qed.

Lemma np_meshgrid_shape (alpha_array theta_array : list float) :
  has_shape (length theta_array) (length alpha_array)
            (np_meshgrid alpha_array theta_array).1 /\
  has_shape (length theta_array) (length alpha_array)
            (np_meshgrid alpha_array theta_array).2.
Proof.
  unfold np_meshgrid. simpl. split; split.
  - apply length_replicate.
  - apply Forall_replicate. reflexivity.
  - apply length_map.
  - apply Forall_fmap, Forall_forall. intros th _. apply length_replicate.
Qed.

Section Horn_facts.

Variable np_linspace : pynum -> pynum -> Z -> result (list float).
Variables np_exp np_cos np_sin : float -> float.
Variables np_amax np_amin : list float -> result float.
Variable matplotlib : mpl_call -> result unit.

Implicit Types (alpha_min alpha_max theta_min theta_max : pynum).
Implicit Types (divisions_per_radian : pynum).

(** The three grids of a surface have one row per theta and one column
    per alpha. *)
Lemma horn_surface_shape (b w_0 : float) (alpha_array theta_array : list float) :
  let '(x, y, z) :=
    horn_surface np_exp np_cos np_sin b w_0 alpha_array theta_array in
  has_shape (length theta_array) (length alpha_array) x /\
  has_shape (length theta_array) (length alpha_array) y /\
  has_shape (length theta_array) (length alpha_array) z.
Proof.
  unfold horn_surface.
  destruct (np_meshgrid_shape alpha_array theta_array) as [Ha Ht].
  destruct (np_meshgrid alpha_array theta_array) as [alpha_grid theta_grid].
  simpl in Ha, Ht.
  split; [|split]; repeat first
    [ assumption
    | apply has_shape_map2
    | apply has_shape_map ].
Qed.

(** The plot makes matplotlib calls only, and hands [x], [y] and [z] to
    [plot_surface]. *)
Lemma horn_plot_log (x y z : grid) :
  Forall (fun ev => exists c, ev = Mpl c /\
                    forall x' y' z', c = PlotSurface x' y' z' ->
                                     (x', y', z') = (x, y, z))
         (horn_plot np_amax np_amin matplotlib x y z).1.
Proof.
  unfold horn_plot, extent, mid.
  repeat first
    [ apply W_bind_Forall; [|intros ?]
    | apply Forall_nil; exact I
    | apply Forall_cons; split; [|apply Forall_nil; exact I];
      eexists; split; [reflexivity|];
      intros x' y' z' H; try discriminate H; injection H as -> -> ->;
      reflexivity ].
Qed.

Lemma horn_plot_observed (x y z : grid) :
  let l := (horn_plot np_amax np_amin matplotlib x y z).1 in
  horn_printed l = [] /\ linspace_counts l = [] /\
  forall s, s ∈ surfaces l -> s = (x, y, z).
Proof.
  intros l. pose proof (horn_plot_log x y z) as H. fold l in H.
  induction H as [|ev l' (c & -> & Hc) _ IH]; [repeat split; inversion 1|].
  destruct IH as (IH1 & IH2 & IH3).
  repeat split; [exact IH1 | exact IH2 |].
  intros s Hs. destruct c; simpl in Hs; try (apply IH3, Hs).
  apply elem_of_cons in Hs as [->|Hs]; [|apply IH3, Hs].
  apply Hc. reflexivity.
Qed.

(** A call that passes the three checks, step by step. *)
Lemma draw_log_horn_valid (b w_0 : float) alpha_min alpha_max theta_min
    theta_max (k : Z) :
  py_gt alpha_min alpha_max = false ->
  py_gt theta_min theta_max = false ->
  0 < k ->
  draw_log_horn np_linspace np_exp np_cos np_sin np_amax np_amin
      matplotlib b w_0 alpha_min alpha_max theta_min theta_max (PyInt k) =
  match sample_count alpha_min alpha_max (PyInt k) with
  | Raise e => ([], Raise e)
  | Ok na =>
      match np_linspace alpha_min alpha_max na with
      | Raise e => ([Linspace alpha_min alpha_max na], Raise e)
      | Ok alpha_array =>
          match sample_count theta_min theta_max (PyInt k) with
          | Raise e => ([Linspace alpha_min alpha_max na], Raise e)
          | Ok nt =>
              match np_linspace theta_min theta_max nt with
              | Raise e =>
                  ([Linspace alpha_min alpha_max na;
                    Linspace theta_min theta_max nt], Raise e)
              | Ok theta_array =>
                  let '(x, y, z) :=
                    horn_surface np_exp np_cos np_sin b w_0
                                 alpha_array theta_array in
                  let p := horn_plot np_amax np_amin matplotlib x y z in
                  (Linspace alpha_min alpha_max na
                   :: Linspace theta_min theta_max nt :: p.1, p.2)
              end
          end
      end
  end.
Proof.
  intros Ha Ht Hk. unfold draw_log_horn. rewrite Ha, Ht.
  assert (py_gt (PyInt k) (PyInt 0) = true) as -> by (apply Z.ltb_lt, Hk).
  cbn [isinstance_int andb negb].
  rewrite !W_bind_unfold. unfold wlift, linspace. cbn [fst snd].
  destruct (sample_count alpha_min alpha_max (PyInt k)) as [na|e];
    [|reflexivity].
  cbn [fst snd app].
  destruct (np_linspace alpha_min alpha_max na) as [alpha_array|e];
    [|reflexivity].
  rewrite !W_bind_unfold. cbn [fst snd app].
  destruct (sample_count theta_min theta_max (PyInt k)) as [nt|e];
    [|reflexivity].
  rewrite !W_bind_unfold. cbn [fst snd app].
  destruct (np_linspace theta_min theta_max nt) as [theta_array|e];
    rewrite ?W_bind_unfold; cbn [fst snd app]; [|reflexivity].
  destruct (horn_surface _ _ _ _ _ _ _) as [[x y] z]. reflexivity.
Qed.

(** X9.  The checks of [draw_log_horn] are taken in the order alpha,
    theta, divisions; a failed check prints its one line and nothing else
    happens: no sampling, no plotting.  The divisions check rejects every
    float, also a positive one, and every int that is not positive.  A
    call that passes the three checks prints no line at all. *)
Theorem horn_checks (b w_0 : float) alpha_min alpha_max theta_min theta_max
    divisions_per_radian :
  let out := draw_log_horn np_linspace np_exp np_cos np_sin np_amax np_amin
      matplotlib b w_0 alpha_min alpha_max theta_min theta_max
                  divisions_per_radian in
  (py_gt alpha_min alpha_max = true ->
   out = ([HornPrint AlphaError], Ok tt)) /\
  (py_gt alpha_min alpha_max = false -> py_gt theta_min theta_max = true ->
   out = ([HornPrint ThetaError], Ok tt)) /\
  (py_gt alpha_min alpha_max = false -> py_gt theta_min theta_max = false ->
   (forall k, divisions_per_radian = PyInt k -> k <= 0) ->
   out = ([HornPrint DivisionsError], Ok tt)) /\
  (py_gt alpha_min alpha_max = false -> py_gt theta_min theta_max = false ->
   forall k, divisions_per_radian = PyInt k -> 0 < k ->
   horn_printed out.1 = []).
Proof.
  intros out. subst out. split; [|split; [|split]].
  - intros Ha. unfold draw_log_horn. rewrite Ha. reflexivity.
  - intros Ha Ht. unfold draw_log_horn. rewrite Ha, Ht. reflexivity.
  - intros Ha Ht Hd. unfold draw_log_horn. rewrite Ha, Ht.
    destruct divisions_per_radian as [k|f]; simpl.
    + specialize (Hd k eq_refl).
      destruct (Z.ltb_spec 0 k); [lia | reflexivity].
    + rewrite andb_false_r. reflexivity.
  - intros Ha Ht k -> Hk.
    rewrite draw_log_horn_valid by assumption.
    destruct (sample_count alpha_min _ _); [|reflexivity].
    destruct (np_linspace alpha_min _ _); [|reflexivity].
    destruct (sample_count theta_min _ _); [|reflexivity].
    destruct (np_linspace theta_min _ _); [|reflexivity].
    destruct (horn_surface _ _ _ _ _ _ _) as [[x y] z]. simpl.
    apply horn_plot_observed.
Qed.

Lemma sample_count_non_finite (low high : pynum) (k : Z) (g range : float) :
  py_float k = Ok g ->
  py_sub high low = Ok (PyFloat range) ->
  F64.is_finite range = false ->
  exists e, (e = ValueError \/ e = OverflowError) /\
    sample_count low high (PyInt k) = Raise e.
Proof.
  intros Hg Hsub Hfin. unfold sample_count. rewrite Hsub.
  cbn [mbind result_bind py_mul]. rewrite Hg.
  cbn [mbind result_bind py_int_of].
  destruct (py_int_mul_non_finite range g Hfin) as [-> | ->]; eauto.
Qed.

(** X10.  A bound of alpha that is not a number passes the check on its
    pair, since every comparison with NaN is false; the call then fails in
    [int(...)] before any sampling or plotting.  More generally, when the
    checks pass and the alpha range is NaN or infinite, the call ends with
    ValueError or OverflowError and an empty log.  When it is the theta
    range that is NaN or infinite, alpha has been sampled by then: the log
    is the one call of [np.linspace] for alpha, and unless that call
    raised, the call ends with ValueError or OverflowError; theta is not
    sampled and nothing is plotted. *)
Theorem horn_non_finite_range (b w_0 : float) alpha_min alpha_max theta_min
    theta_max (k : Z) (g : float) :
  py_gt theta_min theta_max = false ->
  0 < k ->
  py_float k = Ok g ->
  (forall other : float,
     (alpha_min = PyFloat S754_nan /\ alpha_max = PyFloat other) \/
     (alpha_min = PyFloat other /\ alpha_max = PyFloat S754_nan) ->
     py_gt alpha_min alpha_max = false /\
     draw_log_horn np_linspace np_exp np_cos np_sin np_amax np_amin
      matplotlib b w_0 alpha_min alpha_max theta_min theta_max (PyInt k) =
       ([], Raise ValueError)) /\
  (forall range : float,
     py_gt alpha_min alpha_max = false ->
     py_sub alpha_max alpha_min = Ok (PyFloat range) ->
     F64.is_finite range = false ->
     exists e, (e = ValueError \/ e = OverflowError) /\
       draw_log_horn np_linspace np_exp np_cos np_sin np_amax np_amin
      matplotlib b w_0 alpha_min alpha_max theta_min theta_max (PyInt k) =
         ([], Raise e)) /\
  (forall (range : float) (na : Z),
     py_gt alpha_min alpha_max = false ->
     sample_count alpha_min alpha_max (PyInt k) = Ok na ->
     py_sub theta_max theta_min = Ok (PyFloat range) ->
     F64.is_finite range = false ->
     exists e,
       draw_log_horn np_linspace np_exp np_cos np_sin np_amax np_amin
      matplotlib b w_0 alpha_min alpha_max theta_min theta_max (PyInt k) =
         ([Linspace alpha_min alpha_max na], Raise e) /\
       (forall alpha_array,
          np_linspace alpha_min alpha_max na = Ok alpha_array ->
          e = ValueError \/ e = OverflowError)).
Proof.
  intros Ht Hk Hg.
  assert (Hgen : forall range : float,
     py_gt alpha_min alpha_max = false ->
     py_sub alpha_max alpha_min = Ok (PyFloat range) ->
     F64.is_finite range = false ->
     exists e, (e = ValueError \/ e = OverflowError) /\
       sample_count alpha_min alpha_max (PyInt k) = Raise e /\
       draw_log_horn np_linspace np_exp np_cos np_sin np_amax np_amin
      matplotlib b w_0 alpha_min alpha_max theta_min theta_max (PyInt k) =
         ([], Raise e)).
  { intros range Ha Hsub Hfin.
    rewrite draw_log_horn_valid by assumption.
    unfold sample_count. rewrite Hsub. cbn [mbind result_bind py_mul].
    rewrite Hg. cbn [mbind result_bind py_int_of].
    destruct (py_int_mul_non_finite range g Hfin) as [-> | ->]; eauto. }
  split; [|split].
  - intros other Hnan.
    assert (Ha : py_gt alpha_min alpha_max = false)
      by (destruct Hnan as [[-> ->] | [-> ->]]; apply py_gt_nan).
    assert (Hsub : py_sub alpha_max alpha_min = Ok (PyFloat S754_nan))
      by (destruct Hnan as [[-> ->] | [-> ->]]; simpl;
          do 2 f_equal; apply sub_nan).
    split; [exact Ha|].
    destruct (Hgen S754_nan Ha Hsub eq_refl) as (e & _ & Hc & Hrun).
    rewrite Hrun. do 2 f_equal.
    revert Hc. unfold sample_count. rewrite Hsub.
    cbn [mbind result_bind py_mul]. rewrite Hg.
    cbn [mbind result_bind py_int_of].
    assert (F64.mul S754_nan g = S754_nan) as -> by reflexivity.
    simpl. congruence.
  - intros range Ha Hsub Hfin.
    destruct (Hgen range Ha Hsub Hfin) as (e & He & _ & Hrun). eauto.
  - intros range na Ha Hna Hsub Hfin.
    rewrite draw_log_horn_valid by assumption. rewrite Hna.
    destruct (sample_count_non_finite theta_min theta_max k g range
                Hg Hsub Hfin) as (e & He & Hcount).
    destruct (np_linspace alpha_min alpha_max na) as [alpha_array|e'].
    + exists e. rewrite Hcount. split; [reflexivity|]. intros _ _. exact He.
    + exists e'. split; [reflexivity|]. intros ? [=].
Qed.

(** X11.  Equal bounds pass the check, which only refuses [min > max]:
    for an int or a finite float [a] given as both [alpha_min] and
    [alpha_max], [np.linspace] is asked for zero samples. *)
Theorem horn_equal_bounds (b w_0 : float) (a : pynum) theta_min theta_max
    (k : Z) (g : float) :
  py_gt theta_min theta_max = false ->
  0 < k ->
  py_float k = Ok g ->
  (forall f, a = PyFloat f -> F64.is_finite f = true) ->
  py_gt a a = false /\
  sample_count a a (PyInt k) = Ok 0 /\
  exists rest,
    (draw_log_horn np_linspace np_exp np_cos np_sin np_amax np_amin
      matplotlib b w_0 a a theta_min theta_max (PyInt k)).1 =
    Linspace a a 0 :: rest.
Proof.
  intros Ht Hk Hg Hfin. split; [apply py_gt_refl|].
  assert (Hcount : sample_count a a (PyInt k) = Ok 0).
  { unfold sample_count. destruct a as [n|f]; simpl.
    - rewrite Z.sub_diag. reflexivity.
    - rewrite sub_diag by (apply Hfin; reflexivity).
      rewrite Hg. simpl.
      assert (F64.is_finite g = true) as Hgf.
      { revert Hg. unfold py_float.
        destruct (F64.is_finite (F64.of_Z k)) eqn:E; [|discriminate].
        intros [= <-]. exact E. }
      pose proof (mul_zero_l g Hgf) as Hz.
      destruct (F64.mul (S754_zero false) g); try discriminate.
      reflexivity. }
  split; [exact Hcount|].
  rewrite draw_log_horn_valid by (auto using py_gt_refl).
  rewrite Hcount.
  destruct (np_linspace a a 0); [|eauto].
  destruct (sample_count theta_min _ _); [|eauto].
  destruct (np_linspace theta_min _ _); [|eauto].
  destruct (horn_surface _ _ _ _ _ _ _) as [[x y] z]. simpl. eauto.
Qed.

(** X12.  Every surface handed to [plot_surface] is made of three grids of
    one shape: one row per sample of theta and one column per sample of
    alpha, the samples being what [np.linspace] returned; and no call
    plots more than one surface. *)
Theorem horn_surface_grid (b w_0 : float) alpha_min alpha_max theta_min theta_max
    divisions_per_radian (x y z : grid) :
  (x, y, z) ∈ surfaces (draw_log_horn np_linspace np_exp np_cos np_sin np_amax np_amin
      matplotlib b w_0 alpha_min alpha_max theta_min theta_max
                             divisions_per_radian).1 ->
  exists (na nt : Z) (alpha_array theta_array : list float),
    np_linspace alpha_min alpha_max na = Ok alpha_array /\
    np_linspace theta_min theta_max nt = Ok theta_array /\
    (x, y, z) = horn_surface np_exp np_cos np_sin b w_0
                             alpha_array theta_array /\
    has_shape (length theta_array) (length alpha_array) x /\
    has_shape (length theta_array) (length alpha_array) y /\
    has_shape (length theta_array) (length alpha_array) z.
Proof.
  intros Hin.
  destruct (py_gt alpha_min alpha_max) eqn:Ha.
  { unfold draw_log_horn in Hin. rewrite Ha in Hin. inversion Hin. }
  destruct (py_gt theta_min theta_max) eqn:Ht.
  { unfold draw_log_horn in Hin. rewrite Ha, Ht in Hin. inversion Hin. }
  destruct divisions_per_radian as [k|f].
  2: { unfold draw_log_horn in Hin. rewrite Ha, Ht in Hin. simpl in Hin.
       rewrite andb_false_r in Hin. inversion Hin. }
  destruct (Z.ltb_spec 0 k) as [Hk|Hk].
  2: { unfold draw_log_horn in Hin. rewrite Ha, Ht in Hin. simpl in Hin.
       destruct (Z.ltb_spec 0 k); [lia|]. inversion Hin. }
  rewrite draw_log_horn_valid in Hin by assumption.
  destruct (sample_count alpha_min _ _) as [na|]; [|inversion Hin].
  destruct (np_linspace alpha_min _ _) as [alpha_array|] eqn:Ea;
    [|inversion Hin].
  destruct (sample_count theta_min _ _) as [nt|]; [|inversion Hin].
  destruct (np_linspace theta_min _ _) as [theta_array|] eqn:Et;
    [|inversion Hin].
  pose proof (horn_surface_shape b w_0 alpha_array theta_array) as Hshape.
  destruct (horn_surface _ _ _ _ _ _ _) as [[x0 y0] z0] eqn:Es.
  simpl in Hin. apply horn_plot_observed in Hin. injection Hin as -> -> ->.
  exists na, nt, alpha_array, theta_array. rewrite Es. auto.
Qed.

End Horn_facts.

(* ===================================================================== *)
(** * The sample counts are never negative *)
(* ===================================================================== *)

Lemma digits2_pos_bounds (m : positive) :
  2 ^ (Z.pos (digits2_pos m) - 1) <= Z.pos m < 2 ^ Z.pos (digits2_pos m).
Proof.
  induction m as [m IH|m IH|]; simpl digits2_pos.
  - rewrite Pos2Z.inj_succ.
    replace (Z.succ (Z.pos (digits2_pos m)) - 1)
      with (Z.succ (Z.pos (digits2_pos m) - 1)) by lia.
    rewrite !Z.pow_succ_r by lia. lia.
  - rewrite Pos2Z.inj_succ.
    replace (Z.succ (Z.pos (digits2_pos m)) - 1)
      with (Z.succ (Z.pos (digits2_pos m) - 1)) by lia.
    rewrite !Z.pow_succ_r by lia. lia.
  - simpl. lia.
Qed.

Lemma iter_xO (d m : positive) :
  Z.pos (Pos.iter xO m d) = Z.pos m * 2 ^ Z.pos d.
Proof.
  induction d as [|d IH] using Pos.peano_ind.
  - simpl. lia.
  - rewrite Pos.iter_succ, Pos2Z.inj_succ, Z.pow_succ_r by lia.
    rewrite Pos2Z.inj_xO, IH. lia.
Qed.

(** Aligning a mantissa to a smaller exponent multiplies it by the power
    of two in between. *)
Lemma shl_align_value (m : positive) (e ez : Z) :
  ez <= e -> Z.pos (shl_align m e ez).1 = Z.pos m * 2 ^ (e - ez).
Proof.
  intros H. unfold shl_align.
  destruct (ez - e) as [|d|d] eqn:E; try lia; simpl.
  - replace (e - ez) with 0 by lia. lia.
  - rewrite iter_xO. f_equal. f_equal. lia.
Qed.

(** In canonical form a mantissa has at most 53 digits, and exactly 53
    above the smallest exponent. *)
Lemma canonical_digits (m : positive) (e : Z) :
  canonical_mantissa F64.prec F64.emax m e = true ->
  -1074 <= e /\ Z.pos m < 2 ^ 53 /\ (-1074 < e -> 2 ^ 52 <= Z.pos m).
Proof.
  unfold canonical_mantissa, fexp, emin, F64.prec, F64.emax.
  intros H. apply Z.eqb_eq in H.
  pose proof (digits2_pos_bounds m) as [Hlo Hhi].
  assert (Hd : Z.pos (digits2_pos m) <= 53) by lia.
  split; [lia|]. split.
  - eapply Z.lt_le_trans; [exact Hhi|]. apply Z.pow_le_mono_r; lia.
  - intros He. assert (Z.pos (digits2_pos m) = 53) as Hd' by lia.
    rewrite Hd' in Hlo. exact Hlo.
Qed.

(** Of two canonical magnitudes, the one with the larger exponent, or
    with the same exponent and the larger mantissa, is the larger. *)
Lemma aligned_le (mx my : positive) (ex ey : Z) :
  canonical_mantissa F64.prec F64.emax mx ex = true ->
  canonical_mantissa F64.prec F64.emax my ey = true ->
  ex < ey \/ (ex = ey /\ (mx <= my)%positive) ->
  Z.pos (shl_align mx ex (Z.min ex ey)).1
    <= Z.pos (shl_align my ey (Z.min ex ey)).1.
Proof.
  intros Hx Hy Hcmp.
  apply canonical_digits in Hx as (Hex & Hmx & _).
  apply canonical_digits in Hy as (Hey & _ & Hmy).
  rewrite !shl_align_value by lia.
  destruct Hcmp as [Hlt | [-> Hle]].
  - rewrite Z.min_l by lia. rewrite Z.sub_diag, Z.mul_1_r.
    specialize (Hmy ltac:(lia)).
    assert (2 ^ 1 <= 2 ^ (ey - ex)) by (apply Z.pow_le_mono_r; lia).
    change (2 ^ 1) with 2 in *. change (2 ^ 53) with (2 ^ 52 * 2) in Hmx.
    nia.
  - rewrite Z.min_id, Z.sub_diag, !Z.mul_1_r. lia.
Qed.

Lemma binary_round_aux_not_negative (mx ex : Z) (lx : location) :
  not_negative (binary_round_aux F64.prec F64.emax false mx ex lx) = true.
Proof.
  unfold binary_round_aux.
  destruct (shr_fexp F64.prec F64.emax mx ex lx) as [mrs' e'].
  destruct (shr_fexp F64.prec F64.emax _ e' loc_Exact) as [mrs'' e''].
  destruct (shr_m mrs''); [reflexivity | | reflexivity].
  destruct (e'' <=? F64.emax - F64.prec)%Z; reflexivity.
Qed.

Lemma binary_normalize_not_negative (m e : Z) :
  0 <= m ->
  not_negative (binary_normalize F64.prec F64.emax m e false) = true.
Proof.
  intros Hm. destruct m as [|p|p]; [reflexivity | | lia].
  unfold binary_normalize, binary_round.
  destruct (shl_align p e _) as [mz ez].
  apply binary_round_aux_not_negative.
Qed.

Lemma mul_not_negative (a g : float) :
  not_negative a = true -> not_negative g = true ->
  not_negative (F64.mul a g) = true.
Proof.
  unfold F64.mul.
  destruct a as [sa|sa| |sa ma ea], g as [sg|sg| |sg mg eg];
    simpl; try reflexivity; intros Ha Hg;
    try (apply negb_true_iff in Ha as ->);
    try (apply negb_true_iff in Hg as ->); try reflexivity.
  apply binary_round_aux_not_negative.
Qed.

Lemma py_int_not_negative (f : float) (n : Z) :
  not_negative f = true -> py_int f = Ok n -> 0 <= n.
Proof.
  destruct f as [s|s| |s m e]; simpl; try discriminate.
  - intros _ [= <-]. lia.
  - intros Hs [= <-]. apply negb_true_iff in Hs as ->. simpl.
    destruct (Z.leb_spec 0 e).
    + apply Z.mul_nonneg_nonneg; [lia|]. apply Z.pow_nonneg. lia.
    + apply Z.div_pos; [lia|]. apply Z.pow_pos_nonneg; lia.
Qed.

(** [high - low] is not negative when [low > high] is false. *)
Lemma sub_not_negative (l h : float) :
  valid l = true -> valid h = true ->
  SFltb h l = false ->
  not_negative (F64.sub h l) = true.
Proof.
  unfold valid, F64.sub.
  destruct h as [sh|sh| |sh mh eh], l as [sl|sl| |sl ml el];
    try reflexivity; unfold SFltb; simpl;
    try (destruct sh, sl; simpl; congruence);
    try (destruct sh; simpl; congruence);
    try (destruct sl; simpl; congruence).
  unfold bounded. intros Hl Hh Hcmp.
  apply andb_true_iff in Hl as [Hl _]. apply andb_true_iff in Hh as [Hh _].
  apply binary_normalize_not_negative.
  destruct sh, sl; simpl cond_Zopp.
  - (* both negative *)
    assert (eh < el \/ (eh = el /\ (mh <= ml)%positive)) as Hc.
    { destruct (Z.compare_spec eh el); try discriminate.
      - right. split; [lia|].
        change (Pos.compare_cont Eq mh ml) with (mh ?= ml)%positive in Hcmp.
        destruct (Pos.compare_spec mh ml); try discriminate; lia.
      - left. lia. }
    pose proof (aligned_le mh ml eh el Hh Hl Hc) as H. lia.
  - discriminate.
  - lia.
  - (* both positive *)
    assert (el < eh \/ (el = eh /\ (ml <= mh)%positive)) as Hc.
    { destruct (Z.compare_spec eh el); try discriminate.
      - right. split; [lia|].
        change (Pos.compare_cont Eq mh ml) with (mh ?= ml)%positive in Hcmp.
        destruct (Pos.compare_spec mh ml); try discriminate; lia.
      - left. lia. }
    pose proof (aligned_le ml mh el eh Hl Hh Hc) as H.
    rewrite Z.min_comm in H. lia.
Qed.

Lemma of_Z_not_negative (k : Z) : 0 <= k -> not_negative (F64.of_Z k) = true.
Proof. apply binary_normalize_not_negative. Qed.

(** The sign of a float, read off its exact comparison with the int 0. *)
Lemma Z_compare_float_zero (f : float) :
  (Z_compare_float 0 f <> Some Gt -> not_negative f = true) /\
  (Z_compare_float 0 f <> Some Lt -> not_negative (SFopp f) = true).
Proof.
  destruct f as [s|s| |s m e]; try (split; reflexivity).
  - destruct s; split; simpl; congruence.
  - unfold Z_compare_float.
    assert (Hpos : 0 <= e -> 0 < Z.pos m * 2 ^ e).
    { intros He. apply Z.mul_pos_pos; [lia|]. apply Z.pow_pos_nonneg; lia. }
    destruct (Z.leb_spec 0 e) as [He|He], s;
      cbn [cond_Zopp not_negative SFopp negb]; split; intros Hcmp;
      try reflexivity; exfalso; apply Hcmp; f_equal;
      try specialize (Hpos He);
      try (apply Z.compare_gt_iff; lia);
      try (apply Z.compare_lt_iff; lia).
Qed.

Lemma sub_zero_l (l : float) :
  not_negative (SFopp l) = true ->
  not_negative (F64.sub (S754_zero false) l) = true.
Proof. destruct l as [[]|[]| |[] m e]; simpl; congruence. Qed.

Lemma sub_zero_r (h : float) :
  not_negative h = true ->
  not_negative (F64.sub h (S754_zero false)) = true.
Proof. destruct h as [[]|[]| |[] m e]; simpl; congruence. Qed.

Lemma sample_count_not_negative (low high : pynum) (k n : Z) :
  plain_bounds low high ->
  py_gt low high = false ->
  0 < k ->
  sample_count low high (PyInt k) = Ok n ->
  0 <= n.
Proof.
  intros Hplain Hgt Hk. unfold sample_count.
  assert (Hscaled : forall range : float,
    not_negative range = true ->
    (scaled ← py_mul (PyFloat range) (PyInt k); py_int_of scaled) = Ok n ->
    0 <= n).
  { intros range Hr. simpl. unfold py_float.
    destruct (F64.is_finite (F64.of_Z k)); simpl; [|discriminate].
    apply py_int_not_negative, mul_not_negative; [exact Hr|].
    apply of_Z_not_negative. lia. }
  destruct low as [l|l], high as [h|h]; simpl in Hplain, Hgt.
  - simpl. intros [= <-]. apply Z.ltb_ge in Hgt. nia.
  - subst l. cbn [py_sub].
    change (py_float 0) with (Ok (S754_zero false)).
    cbn [mbind result_bind]. apply Hscaled, sub_zero_r.
    apply Z_compare_float_zero.
    destruct (Z_compare_float 0 h) as [[]|]; congruence.
  - subst h. cbn [py_sub].
    change (py_float 0) with (Ok (S754_zero false)).
    cbn [mbind result_bind]. apply Hscaled, sub_zero_l.
    apply Z_compare_float_zero.
    destruct (Z_compare_float 0 l) as [[]|]; congruence.
  - destruct Hplain as [Hl Hh]. cbn [py_sub mbind result_bind].
    apply Hscaled, sub_not_negative; assumption.
Qed.

Section Horn_counts.

Variable np_linspace : pynum -> pynum -> Z -> result (list float).
Variables np_exp np_cos np_sin : float -> float.
Variables np_amax np_amin : list float -> result float.
Variable matplotlib : mpl_call -> result unit.

(** X13.  [np.linspace] is never asked for a negative number of samples:
    whatever the arguments of [draw_log_horn], with each pair of bounds
    two ints, two floats, or a float and the int 0, every count it passes
    is zero or more. *)
Theorem horn_counts_not_negative (b w_0 : float)
    (alpha_min alpha_max theta_min theta_max divisions_per_radian : pynum)
    (n : Z) :
  plain_bounds alpha_min alpha_max ->
  plain_bounds theta_min theta_max ->
  n ∈ linspace_counts
        (draw_log_horn np_linspace np_exp np_cos np_sin np_amax np_amin
           matplotlib b w_0 alpha_min alpha_max theta_min theta_max
           divisions_per_radian).1 ->
  0 <= n.
Proof.
  intros Hpa Hpt Hin.
  destruct (py_gt alpha_min alpha_max) eqn:Ha.
  { unfold draw_log_horn in Hin. rewrite Ha in Hin. inversion Hin. }
  destruct (py_gt theta_min theta_max) eqn:Ht.
  { unfold draw_log_horn in Hin. rewrite Ha, Ht in Hin. inversion Hin. }
  destruct divisions_per_radian as [k|f].
  2: { unfold draw_log_horn in Hin. rewrite Ha, Ht in Hin. simpl in Hin.
       rewrite andb_false_r in Hin. inversion Hin. }
  destruct (Z.ltb_spec 0 k) as [Hk|Hk].
  2: { unfold draw_log_horn in Hin. rewrite Ha, Ht in Hin. simpl in Hin.
       destruct (Z.ltb_spec 0 k); [lia|]. inversion Hin. }
  rewrite draw_log_horn_valid in Hin by assumption.
  destruct (sample_count alpha_min _ _) as [na|] eqn:Ena; [|inversion Hin].
  pose proof (sample_count_not_negative _ _ _ _ Hpa Ha Hk Ena) as Hna.
  destruct (np_linspace alpha_min _ _) as [alpha_array|].
  2: { simpl in Hin. apply elem_of_cons in Hin as [->|Hin];
       [exact Hna | inversion Hin]. }
  destruct (sample_count theta_min _ _) as [nt|] eqn:Ent.
  2: { simpl in Hin. apply elem_of_cons in Hin as [->|Hin];
       [exact Hna | inversion Hin]. }
  pose proof (sample_count_not_negative _ _ _ _ Hpt Ht Hk Ent) as Hnt.
  destruct (np_linspace theta_min _ _) as [theta_array|].
  2: { simpl in Hin. apply elem_of_cons in Hin as [->|Hin]; [exact Hna|].
       apply elem_of_cons in Hin as [->|Hin]; [exact Hnt | inversion Hin]. }
  destruct (horn_surface _ _ _ _ _ _ _) as [[x y] z]. simpl in Hin.
  apply elem_of_cons in Hin as [->|Hin]; [exact Hna|].
  apply elem_of_cons in Hin as [->|Hin]; [exact Hnt|].
  destruct (horn_plot_observed np_amax np_amin matplotlib x y z)
    as (_ & Hnone & _).
  rewrite Hnone in Hin. inversion Hin.
Qed.

End Horn_counts.

(* ===================================================================== *)
(** * The further properties on samples *)
(* ===================================================================== *)

(** The notebook's call with six terms prints fourteen lines. *)
Lemma table_all_or_nothing_witness :
  length (printed (log (print_maclaurin_table (S:=unit) Sample.np
                          Sample.exp_term_fn (PyInt 1) 6 tt))) = 14%nat.
Proof.
  destruct (table_all_or_nothing (S:=unit) Sample.np Sample.exp_term_fn
              (PyInt 1) 6 tt) as (_ & H & _).
  destruct (H eq_refl)
    as [H1 | [H2 | (cw & rv & rows & _ & _ & _ & _ & Hlen)]].
  - vm_compute in H1. discriminate H1.
  - vm_compute in H2. discriminate H2.
  - exact Hlen.
Defined.

(** [1 / r] raises at the first index: one term call, nothing printed. *)
Lemma callee_exception_witness :
  print_maclaurin_table (S:=unit) Sample.np More_samples.reciprocal_term_fn
                        (PyInt 4) 5 tt
  = Run [CallReal "sqrt" (PyInt 4); CallTerm 0 (PyInt 4)] tt
        (Raise (Exception "ZeroDivisionError: division by zero")).
Proof.
  destruct (callee_exception_propagates (S:=unit) Sample.np
              More_samples.reciprocal_term_fn (PyInt 4) 5 tt
              (fun x => pure_callee (Sample.np_sqrt x)) tt
              (Exception "ZeroDivisionError: division by zero")
              ltac:(lia) eq_refl) as [_ H].
  apply (H (SFsqrt F64.prec F64.emax (F64.of_Z 4)) (fun _ => F64.zero) 0 tt).
  - reflexivity.
  - lia.
  - intros i Hi. lia.
  - reflexivity.
Defined.

(** The notebook's call has finite values and prints its table;
    [np.sqrt(-1.0)] is NaN and ends the call with ValueError. *)
Lemma table_printed_iff_finite_witness :
  value (print_maclaurin_table (S:=unit) Sample.np Sample.exp_term_fn
                               (PyInt 1) 6 tt) = Ok tt /\
  value (print_maclaurin_table (S:=unit) Sample.np Sample.sqrt_term_fn
                               (PyFloat (SFopp F64.one)) 3 tt)
    = Raise ValueError.
Proof.
  split.
  - apply (table_printed_iff_finite (S:=unit) Sample.np Sample.exp_term_fn
             (PyInt 1) 6 tt (fun x => pure_callee (Sample.np_exp x)) tt
             F64.e (S754_finite false 6117389493844923 (-51))
             Sample.exp_at_1).
    + lia.
    + reflexivity.
    + reflexivity.
    + intros i s' Hi. simpl. unfold pure_callee.
      rewrite sample_exp_term_at_1 by lia. reflexivity.
    + vm_compute. reflexivity.
    + reflexivity.
    + reflexivity.
  - destruct (table_printed_iff_finite (S:=unit) Sample.np
                Sample.sqrt_term_fn (PyFloat (SFopp F64.one)) 3 tt
                (fun x => pure_callee (Sample.np_sqrt x)) tt
                S754_nan F64.zero (fun _ => F64.zero))
      as (_ & _ & H & _).
    + lia.
    + reflexivity.
    + reflexivity.
    + intros i s' Hi. reflexivity.
    + reflexivity.
    + rewrite H by reflexivity. reflexivity.
Defined.

(** [exp_term] is looked up as [exp]. *)
Lemma function_name_witness :
  function_name_of (Sample.exp_term_fn (S:=unit)) = "exp"%string.
Proof.
  apply (function_name_removes_term (S:=unit) (X:=pynum)
           Sample.exp_term_fn "exp" "").
  - reflexivity.
  - reflexivity.
Defined.

(** The sine table at 0 with three terms. *)
Lemma sine_table_at_zero_witness :
  printed_rows (log (print_maclaurin_table (S:=unit)
                       More_samples.np_with_sin (sin_term_obj Sample.pow)
                       (PyInt 0) 3 tt))
  = [Row 1 F64.zero F64.zero F64.zero 15;
     Row 2 F64.zero F64.zero F64.zero 15;
     Row 3 F64.zero F64.zero F64.zero 15].
Proof.
  apply (sine_table_at_zero (S:=unit) More_samples.np_with_sin Sample.pow
           (fun x => pure_callee (More_samples.np_sin_table x)) tt tt 3).
  - lia.
  - reflexivity.
  - reflexivity.
Defined.

(** At x = 2 the fourth sine term is minus the fourth hyperbolic sine
    term, 2^7 / 7!. *)
Lemma generators_relate_witness :
  exists v : float,
    sinh_term Sample.pow 3 (PyInt 2) = Ok v /\
    sin_term Sample.pow 3 (PyInt 2) = Ok (SFopp v).
Proof.
  destruct (generators_relate Sample.pow 3) as (_ & H & _).
  apply (H 2); [lia | lia | lia |]. vm_compute. reflexivity.
Defined.

(** One population only, and three of them. *)
Lemma population_vector_length_witness :
  population_derivatives [F64.one] tt More_samples.beta = Raise IndexError /\
  population_derivatives [F64.one; F64.one; F64.one] tt More_samples.beta
    = population_derivatives [F64.one; F64.one] tt More_samples.beta.
Proof.
  split.
  - apply (population_vector_length [F64.one] tt More_samples.beta).
    simpl. lia.
  - destruct (population_vector_length [F64.one; F64.one; F64.one] tt
                More_samples.beta) as [_ H].
    rewrite (H F64.one F64.one [F64.one] eq_refl). reflexivity.
Defined.

(** The stationary points for the notebook's beta = 0.7. *)
Lemma stationary_points_witness :
  exists y' z',
    population_derivatives [F64.one; More_samples.beta] tt More_samples.beta
      = Ok [y'; z'] /\
    F64.is_zero y' = true /\ F64.is_zero z' = true.
Proof.
  apply (stationary_points More_samples.beta tt). reflexivity.
Defined.

(** alpha_min = 1 above alpha_max = 0, and a float number of divisions. *)
Lemma horn_checks_witness :
  More_samples.horn_stub F64.one F64.one (PyInt 1) (PyInt 0)
                         (PyInt 0) (PyInt 1) (PyInt 8)
    = ([HornPrint AlphaError], Ok tt) /\
  More_samples.horn_stub F64.one F64.one (PyInt 0) (PyInt 1)
                         (PyInt 0) (PyInt 1) (PyFloat (F64.of_Z 8))
    = ([HornPrint DivisionsError], Ok tt).
Proof.
  split.
  - apply (horn_checks More_samples.linspace_stub (fun v => v) (fun v => v)
             (fun v => v) More_samples.first_stub More_samples.first_stub
             (fun _ => Ok tt) F64.one F64.one (PyInt 1) (PyInt 0)
             (PyInt 0) (PyInt 1) (PyInt 8)).
    reflexivity.
  - apply (horn_checks More_samples.linspace_stub (fun v => v) (fun v => v)
             (fun v => v) More_samples.first_stub More_samples.first_stub
             (fun _ => Ok tt) F64.one F64.one (PyInt 0) (PyInt 1)
             (PyInt 0) (PyInt 1) (PyFloat (F64.of_Z 8)));
      [reflexivity | reflexivity | discriminate].
Defined.

(** alpha_min = nan *)
Lemma horn_non_finite_range_witness :
  More_samples.horn_stub F64.one F64.one (PyFloat S754_nan)
                         (PyFloat More_samples.two_pi)
                         (PyInt 0) (PyInt 1) (PyInt 8)
    = ([], Raise ValueError).
Proof.
  pose proof (horn_non_finite_range More_samples.linspace_stub (fun v => v)
           (fun v => v) (fun v => v) More_samples.first_stub
           More_samples.first_stub (fun _ => Ok tt) F64.one F64.one
           (PyFloat S754_nan) (PyFloat More_samples.two_pi)
           (PyInt 0) (PyInt 1) 8 (F64.of_Z 8)
           eq_refl ltac:(lia) eq_refl) as H.
  apply (proj2 (proj1 H More_samples.two_pi
                  (or_introl (conj eq_refl eq_refl)))).
Defined.

(** alpha_min = alpha_max = 3 *)
Lemma horn_equal_bounds_witness :
  linspace_counts
    (More_samples.horn_stub F64.one F64.one (PyInt 3) (PyInt 3)
                            (PyInt 0) (PyInt 1) (PyInt 8)).1 !! 0%nat
  = Some 0.
Proof.
  destruct (horn_equal_bounds More_samples.linspace_stub (fun v => v)
              (fun v => v) (fun v => v) More_samples.first_stub
              More_samples.first_stub (fun _ => Ok tt) F64.one F64.one
              (PyInt 3) (PyInt 0) (PyInt 1) 8 (F64.of_Z 8)
              eq_refl ltac:(lia) eq_refl ltac:(discriminate))
    as (_ & _ & rest & Hlog).
  unfold More_samples.horn_stub. rewrite Hlog. reflexivity.
Defined.

(** A call with a small grid plots one surface, of one shape. *)
Lemma horn_surface_grid_witness :
  exists (x y z : grid) (alpha_array theta_array : list float),
    surfaces (More_samples.horn_stub F64.one F64.one (PyInt 0) (PyInt 1)
                                     (PyInt 0) (PyInt 2) (PyInt 2)).1
      = [(x, y, z)] /\
    has_shape (length theta_array) (length alpha_array) x.
Proof.
  assert (Hl : exists x y z,
    surfaces (More_samples.horn_stub F64.one F64.one (PyInt 0) (PyInt 1)
                                     (PyInt 0) (PyInt 2) (PyInt 2)).1
      = [(x, y, z)]) by (vm_compute; eauto).
  destruct Hl as (x & y & z & Hl).
  assert (Hin :
    (x, y, z) ∈
    surfaces (More_samples.horn_stub F64.one F64.one (PyInt 0) (PyInt 1)
                                     (PyInt 0) (PyInt 2) (PyInt 2)).1)
    by (rewrite Hl; apply elem_of_cons; left; reflexivity).
  apply (horn_surface_grid More_samples.linspace_stub (fun v => v)
           (fun v => v) (fun v => v) More_samples.first_stub
           More_samples.first_stub (fun _ => Ok tt)) in Hin
    as (na & nt & alpha_array & theta_array & _ & _ & _ & Hx & _).
  exists x, y, z, alpha_array, theta_array. split; assumption.
Defined.

(** The default bounds, 0 to 2 pi and -6 pi to 0 with eight divisions per
    radian, ask for 50 and 150 samples. *)
Lemma horn_counts_witness :
  linspace_counts
    (More_samples.horn_stub F64.one F64.one
       (PyInt 0) (PyFloat More_samples.two_pi)
       (PyFloat More_samples.minus_six_pi) (PyInt 0) (PyInt 8)).1
    = [50; 150] /\
  0 <= 50.
Proof.
  assert (Hl : linspace_counts
    (More_samples.horn_stub F64.one F64.one
       (PyInt 0) (PyFloat More_samples.two_pi)
       (PyFloat More_samples.minus_six_pi) (PyInt 0) (PyInt 8)).1
    = [50; 150]) by (vm_compute; reflexivity).
  split; [exact Hl|].
  apply (horn_counts_not_negative More_samples.linspace_stub (fun v => v)
           (fun v => v) (fun v => v) More_samples.first_stub
           More_samples.first_stub (fun _ => Ok tt) F64.one F64.one
           (PyInt 0) (PyFloat More_samples.two_pi)
           (PyFloat More_samples.minus_six_pi) (PyInt 0) (PyInt 8) 50).
  - vm_compute. auto.
  - vm_compute. auto.
  - unfold More_samples.horn_stub in Hl. rewrite Hl. apply elem_of_cons. left. reflexivity.
Defined.
